(** * GalvaSim: the potential-calculation engine of [script.js]

    A shallow embedding of the classes [EnvironmentSettings],
    [SimulationParameters] and [AdvancedElectrochemicalCell] and of the table
    [STANDARD_REDUCTION_POTENTIALS], together with the fragment of
    ECMAScript they run on:

    - JavaScript numbers are IEEE-754 binary64 values, here Rocq's primitive
      [float] with its round-to-nearest-even arithmetic;
    - [Number.prototype.toFixed], [Number::toString] and [parseFloat] are
      written out from ECMA-262 over the exact value of a double;
    - property lookup on an object literal goes through [Object.prototype];
    - [Math.log] is implementation-approximated in ECMA-262: the values the
      standard fixes are fixed here, every other value is left to a
      parameter [log_approx];
    - methods are state transformers over the objects they are invoked on,
      with [throw], [try]/[catch] and [console.error]. *)

From Stdlib Require Import ZArith Lia Bool List String Ascii.
From Stdlib Require Import Floats.
Import ListNotations.

Set Warnings "-inexact-float,-register-all".

Local Open Scope string_scope.
Local Open Scope Z_scope.

(** ** Numbers: decimal text to binary64 *)

Module Number.

(** The double nearest to [num / den] ([num], [den] positive), ties to even,
    with gradual underflow and overflow to infinity: the rounding ECMA-262
    applies to the mathematical value of a numeric literal. *)
Definition round_ratio (neg : bool) (num den : Z) : float :=
  let lb := Z.log2 num - Z.log2 den in
  let e1 := lb - 52 in
  let q1 := if 0 <=? e1 then num / (den * 2 ^ e1) else (num * 2 ^ (- e1)) / den in
  let e := Z.max (if q1 <? 2 ^ 52 then e1 - 1 else e1) (-1074) in
  let n := if 0 <=? e then num else num * 2 ^ (- e) in
  let d := if 0 <=? e then den * 2 ^ e else den in
  let q := n / d in
  let r := n mod d in
  let q' := if (d <? 2 * r) || ((d =? 2 * r) && Z.odd q) then q + 1 else q in
  if (971 <? e) || ((e =? 971) && (2 ^ 53 <=? q')) then
    (if neg then neg_infinity else infinity)
  else
    match q' with
    | Zpos p => SF2Prim (S754_finite neg p e)
    | _ => if neg then neg_zero else zero
    end.

(** The double denoted by the decimal [m * 10 ^ e10], [m] non-negative. *)
Definition of_decimal (neg : bool) (m e10 : Z) : float :=
  if m <=? 0 then (if neg then neg_zero else zero)
  else if 0 <=? e10 then round_ratio neg (m * 10 ^ e10) 1
  else round_ratio neg m (10 ^ (- e10)).

(** The exact value of a finite non-zero double, as a fraction. *)
Definition exact_ratio (m : positive) (e : Z) : Z * Z :=
  if 0 <=? e then (Zpos m * 2 ^ e, 1) else (Zpos m, 2 ^ (- e)).

(** *** Decimal digits *)

Definition digit_char (d : Z) : ascii := ascii_of_nat (48 + Z.to_nat d).

Fixpoint digits_aux (fuel : nat) (n : Z) (acc : string) : string :=
  let acc' := String (digit_char (n mod 10)) acc in
  match fuel with
  | O => acc'
  | S fuel' => if n <? 10 then acc' else digits_aux fuel' (n / 10) acc'
  end.

(** The decimal representation of [n >= 0], no leading zeroes ("0" for 0). *)
Definition digits (n : Z) : string := digits_aux (Z.to_nat (Z.log2 n)) n "".

Fixpoint zeroes (n : nat) : string :=
  match n with O => "" | S n' => String "0" (zeroes n') end.

Fixpoint take (n : nat) (s : string) : string :=
  match n, s with
  | S n', String c r => String c (take n' r)
  | _, _ => ""
  end.

Fixpoint drop (n : nat) (s : string) : string :=
  match n, s with
  | S n', String _ r => drop n' r
  | _, _ => s
  end.

(** *** Number::toString, ECMA-262 6.1.6.1.20, radix 10 *)

(** [num / den >= 10 ^ n] *)
Definition ge_pow10 (num den n : Z) : bool :=
  if 0 <=? n then den * 10 ^ n <=? num else den <=? num * 10 ^ (- n).

Fixpoint climb (fuel : nat) (num den n : Z) : Z :=
  match fuel with
  | O => n
  | S fuel' => if ge_pow10 num den n then climb fuel' num den (n + 1) else n
  end.

(** The [n] with [10 ^ (n - 1) <= num / den < 10 ^ n]. *)
Definition decimal_exponent (num den : Z) : Z :=
  climb 8 num den ((Z.log2 num - Z.log2 den) * 30103 / 100000 - 2).

(** [| s * 10 ^ e - num / den |] as a fraction. *)
Definition distance (num den s e : Z) : Z * Z :=
  if 0 <=? e then (Z.abs (s * 10 ^ e * den - num), den)
  else (Z.abs (s * den - num * 10 ^ (- e)), den * 10 ^ (- e)).

Definition closer (num den : Z) (k : Z) (a b : Z * Z) : bool :=
  let '(sa, na) := a in
  let '(sb, nb) := b in
  let '(pa, qa) := distance num den sa (na - k) in
  let '(pb, qb) := distance num den sb (nb - k) in
  (pa * qb <? pb * qa) || ((pa * qb =? pb * qa) && Z.even sa).

(** The candidates [(s, n)] with [k] digits: [10 ^ (k - 1) <= s < 10 ^ k]
    and [s * 10 ^ (n - k)] rounding to [x]; the closest to [x] is kept. *)
Definition candidates (x : float) (num den n0 k : Z) : option (Z * Z) :=
  let floor_scaled n :=
    let p := k - n in
    if 0 <=? p then num * 10 ^ p / den else num / (den * 10 ^ (- p)) in
  let ok (c : Z * Z) :=
    let '(s, n) := c in
    (10 ^ (k - 1) <=? s) && (s <? 10 ^ k) && PrimFloat.eqb (of_decimal false s (n - k)) x in
  let all := [ (floor_scaled n0, n0); (floor_scaled n0 + 1, n0);
               (floor_scaled (n0 + 1), n0 + 1); (floor_scaled (n0 + 1) + 1, n0 + 1) ] in
  fold_left
    (fun best c =>
       if ok c then
         match best with
         | None => Some c
         | Some b => if closer num den k c b then Some c else Some b
         end
       else best)
    all None.

Fixpoint shortest_from (fuel : nat) (x : float) (num den n0 k : Z) : Z * Z * Z :=
  match candidates x num den n0 k with
  | Some (s, n) => (s, k, n)
  | None =>
      match fuel with
      | O => (0, k, n0)
      | S fuel' => shortest_from fuel' x num den n0 (k + 1)
      end
  end.

(** Step 5: integers [n], [k], [s] with [k] as small as possible; seventeen
    digits always suffice for a double. [x] is positive and finite with
    exact value [m * 2 ^ e]. *)
Definition shortest (x : float) (m : positive) (e : Z) : Z * Z * Z :=
  let '(num, den) := exact_ratio m e in
  shortest_from 16 x num den (decimal_exponent num den) 1.

Definition toString_finite (x : float) (m : positive) (e : Z) : string :=
  let '(s, k, n) := shortest x m e in
  let ds := digits s in
  if (-5 <=? n) && (n <=? 21) then
    if k <=? n then ds ++ zeroes (Z.to_nat (n - k))
    else if 0 <? n then take (Z.to_nat n) ds ++ "." ++ drop (Z.to_nat n) ds
    else "0." ++ zeroes (Z.to_nat (- n)) ++ ds
  else
    let exponentSign := if n <? 0 then "-" else "+" in
    let e := digits (Z.abs (n - 1)) in
    if k =? 1 then ds ++ "e" ++ exponentSign ++ e
    else take 1 ds ++ "." ++ drop 1 ds ++ "e" ++ exponentSign ++ e.

Definition toString (x : float) : string :=
  match Prim2SF x with
  | S754_nan => "NaN"
  | S754_zero _ => "0"
  | S754_infinity false => "Infinity"
  | S754_infinity true => "-Infinity"
  | S754_finite sign m e =>
      (if sign then "-" else "") ++ toString_finite (abs x) m e
  end.

(** *** Number.prototype.toFixed, ECMA-262 21.1.3.3 *)

(** Step 10a: the integer [n] for which [n / 10 ^ f - x] is as close to zero
    as possible, the larger one of two; [x] is the magnitude [m * 2 ^ e]. *)
Definition scaled_round (m : positive) (e : Z) (f : nat) : Z :=
  let '(num, den) := exact_ratio m e in
  (2 * num * 10 ^ Z.of_nat f + den) / (2 * den).

(** Steps 10b-10d: the digits of [n], left-padded with zeroes to [f + 1]
    characters, with "." before the last [f]. *)
Definition fixed_notation (n : Z) (f : nat) : string :=
  let m := digits n in
  match f with
  | O => m
  | _ =>
      let k := String.length m in
      let m := if (k <=? f)%nat then zeroes (f + 1 - k) ++ m else m in
      let k := String.length m in
      take (k - f) m ++ "." ++ drop (k - f) m
  end.

(** [x.toFixed(fractionDigits)], for [0 <= fractionDigits <= 100]. *)
Definition toFixed (x : float) (fractionDigits : nat) : string :=
  match Prim2SF x with
  | S754_finite sign m e =>
      let s := if sign then "-" else "" in
      if (1e21 <=? abs x)%float then s ++ toString (abs x)
      else s ++ fixed_notation (scaled_round m e fractionDigits) fractionDigits
  | S754_zero _ => fixed_notation 0 fractionDigits
  | _ => toString x
  end.

(** *** parseFloat, ECMA-262 19.2.4 *)

Definition is_digit (c : ascii) : bool :=
  let n := nat_of_ascii c in (48 <=? n)%nat && (n <=? 57)%nat.

Definition digit_value (c : ascii) : Z := Z.of_nat (nat_of_ascii c) - 48.

(** WhiteSpace and LineTerminator (ECMA-262 12.2 and 12.3), the code points
    TrimString skips, on a text held as the bytes of its UTF-8 encoding.
    Encoded in one byte: U+0009 TAB, U+000A LF, U+000B VT, U+000C FF,
    U+000D CR and U+0020 SPACE. *)
Definition is_white_space (c : ascii) : bool :=
  let n := nat_of_ascii c in
  ((9 <=? n)%nat && (n <=? 13)%nat) || (n =? 32)%nat.

(** In two bytes: U+00A0 NO-BREAK SPACE (C2 A0). *)
Definition is_white_space2 (c0 c1 : ascii) : bool :=
  (nat_of_ascii c0 =? 194)%nat && (nat_of_ascii c1 =? 160)%nat.

(** In three bytes: U+1680 (E1 9A 80); U+2000 to U+200A (E2 80 80 to
    E2 80 8A); U+2028 and U+2029, the line and paragraph separators
    (E2 80 A8, E2 80 A9); U+202F (E2 80 AF); U+205F (E2 81 9F); U+3000
    (E3 80 80); U+FEFF, the byte order mark (EF BB BF). *)
Definition is_white_space3 (c0 c1 c2 : ascii) : bool :=
  let n0 := nat_of_ascii c0 in
  let n1 := nat_of_ascii c1 in
  let n2 := nat_of_ascii c2 in
  ((n0 =? 225)%nat && (n1 =? 154)%nat && (n2 =? 128)%nat)
  || ((n0 =? 226)%nat && (n1 =? 128)%nat
      && (((128 <=? n2)%nat && (n2 <=? 138)%nat)
          || (n2 =? 168)%nat || (n2 =? 169)%nat || (n2 =? 175)%nat))
  || ((n0 =? 226)%nat && (n1 =? 129)%nat && (n2 =? 159)%nat)
  || ((n0 =? 227)%nat && (n1 =? 128)%nat && (n2 =? 128)%nat)
  || ((n0 =? 239)%nat && (n1 =? 187)%nat && (n2 =? 191)%nat).

Fixpoint trim_start (s : string) : string :=
  match s with
  | String c0 r0 =>
      if is_white_space c0 then trim_start r0
      else
        match r0 with
        | String c1 r1 =>
            if is_white_space2 c0 c1 then trim_start r1
            else
              match r1 with
              | String c2 r2 => if is_white_space3 c0 c1 c2 then trim_start r2 else s
              | EmptyString => s
              end
        | EmptyString => s
        end
  | EmptyString => s
  end.

(** Reads the longest run of digits: the value accumulated on [acc], the count
    of digits added to [count], and the rest of the text. *)
Fixpoint take_digits (s : string) (acc count : Z) : Z * Z * string :=
  match s with
  | String c r =>
      if is_digit c then take_digits r (acc * 10 + digit_value c) (count + 1)
      else (acc, count, s)
  | EmptyString => (acc, count, s)
  end.

Definition take_sign (s : string) : bool * string :=
  match s with
  | String "-" r => (true, r)
  | String "+" r => (false, r)
  | _ => (false, s)
  end.

(** ExponentPart, when complete; otherwise it is not part of the prefix. *)
Definition exponent_part (s : string) : Z :=
  match s with
  | String c r =>
      if (c =? "e")%char || (c =? "E")%char then
        let '(neg, r') := take_sign r in
        let '(v, count, _) := take_digits r' 0 0 in
        if count =? 0 then 0 else if neg then - v else v
      else 0
  | EmptyString => 0
  end.

(** The longest prefix of the trimmed text that is a StrDecimalLiteral,
    rounded to a double; [NaN] when there is none. *)
Definition parseFloat (string : string) : float :=
  let '(neg, s) := take_sign (trim_start string) in
  if String.prefix "Infinity" s then (if neg then neg_infinity else infinity)
  else
    let '(i, ni, s) := take_digits s 0 0 in
    match s with
    | String "." r =>
        let '(m, nf, s) := take_digits r i 0 in
        if ni + nf =? 0 then nan else of_decimal neg m (exponent_part s - nf)
    | _ =>
        if ni =? 0 then nan else of_decimal neg i (exponent_part s)
    end.

End Number.

(** ** Values, objects and property lookup *)

(** The values this program handles.  An [Object] is what an object literal
    creates: its own properties in source order, its prototype
    [Object.prototype].  An [Intrinsic] is a built-in function or object of
    the realm, named by the property of [Object.prototype] it is stored in. *)
Inductive value : Type :=
  | Undefined
  | Num (n : float)
  | Object (properties : list (string * value))
  | Intrinsic (name : string).

(** The properties of [Object.prototype] (ECMA-262 20.1.3 and B.2.2): eleven
    functions and the accessor [__proto__], which yields [Object.prototype]
    itself on an object that inherits it. *)
Definition ObjectPrototype : list string :=
  [ "constructor"; "hasOwnProperty"; "isPrototypeOf"; "propertyIsEnumerable";
    "toLocaleString"; "toString"; "valueOf"; "__proto__";
    "__defineGetter__"; "__defineSetter__"; "__lookupGetter__";
    "__lookupSetter__" ].

Fixpoint own_property (properties : list (string * value)) (P : string) : option value :=
  match properties with
  | [] => None
  | (key, v) :: rest => if (key =? P)%string then Some v else own_property rest P
  end.

Definition inherited (P : string) : value :=
  if existsb (String.eqb P) ObjectPrototype then Intrinsic P else Undefined.

(** ToBoolean, ECMA-262 7.1.2. *)
Definition ToBoolean (v : value) : bool :=
  match v with
  | Undefined => false
  | Num n => negb ((n =? 0)%float || is_nan n)
  | Object _ | Intrinsic _ => true
  end.

(** ToNumber, ECMA-262 7.1.4.  ToPrimitive turns an object literal without
    [valueOf] or [toString] of its own, and every intrinsic above, into a text
    that is no numeric literal, hence [NaN]. *)
Definition ToNumber (v : value) : float :=
  match v with
  | Num n => n
  | Undefined | Object _ | Intrinsic _ => nan
  end.

(** [a || b] *)
Definition or_else (a b : value) : value := if ToBoolean a then a else b.

(** ** Completions and the method monad *)

Inductive Error : Type :=
  | mkError (name message : string).

Inductive completion (A : Type) : Type :=
  | Normal (a : A)
  | Throw (e : Error).
Arguments Normal {A} a.
Arguments Throw {A} e.

(** A computation over the state [S] of the objects it can reach. *)
Definition JS (S A : Type) : Type := S -> completion A * S.

Definition ret {S A} (a : A) : JS S A := fun s => (Normal a, s).

Definition bind {S A B} (m : JS S A) (k : A -> JS S B) : JS S B :=
  fun s =>
    match m s with
    | (Normal a, s') => k a s'
    | (Throw e, s') => (Throw e, s')
    end.

Definition throw {S A} (e : Error) : JS S A := fun s => (Throw e, s).

Definition try_catch {S A} (block : JS S A) (handler : Error -> JS S A) : JS S A :=
  fun s =>
    match block s with
    | (Normal a, s') => (Normal a, s')
    | (Throw e, s') => handler e s'
    end.

(** Reading a field. *)
Definition read {S A} (field : S -> A) : JS S A := fun s => (Normal (field s), s).

Declare Scope js_scope.
Delimit Scope js_scope with js.
Notation "x <- m ;; k" := (bind m (fun x => k))
  (at level 61, m at next level, right associativity) : js_scope.
Notation "m ;;; k" := (bind m (fun _ => k))
  (at level 61, right associativity) : js_scope.

(** [O[P]] on an object: the own property, else the one inherited from
    [Object.prototype].  A number has no property this program reads, nor has
    an intrinsic beyond those of [Object.prototype]. *)
Definition lookup (O : value) (P : string) : value :=
  match O with
  | Object properties =>
      match own_property properties P with
      | Some v => v
      | None => inherited P
      end
  | Intrinsic _ => inherited P
  | Num _ | Undefined => Undefined
  end.

(** [O[P]] as the program evaluates it: a [TypeError] on [undefined]. *)
Definition GetV {S} (O : value) (P : string) : JS S value :=
  match O with
  | Undefined => throw (mkError "TypeError" "Cannot read properties of undefined")
  | _ => ret (lookup O P)
  end.

(** ** Math.log, ECMA-262 21.3.2.20 *)

Module Math.
Section Log.
(** The implementation-approximated natural logarithm of a positive finite
    number other than 1. *)
Variable log_approx : float -> float.

Definition log (x : float) : float :=
  if is_nan x then nan
  else if (x =? infinity)%float then infinity
  else if (x =? 1)%float then 0%float
  else if (x =? 0)%float then neg_infinity
  else if (x <? 0)%float then nan
  else log_approx x.
End Log.

(** One admissible approximation, to run the methods on concrete inputs:
    [x = m * 2 ^ e] with [m] near 1, [ln m = 2 atanh ((m - 1) / (m + 1))] by
    its power series. *)
Fixpoint atanh_terms (n : nat) (d z2 : float) : float :=
  match n with
  | O => (1 / d)%float
  | S n' => (1 / d + z2 * atanh_terms n' (d + 2) z2)%float
  end.

Definition log_series (x : float) : float :=
  let '(m, e) := Z.frexp x in
  let '(m, e) := if (m <? 0.70710678118654757)%float then ((2 * m)%float, e - 1) else (m, e) in
  let z := ((m - 1) / (m + 1))%float in
  let k := of_uint63 (Uint63.of_Z (Z.abs e)) in
  ((if (e <? 0)%Z then - k else k) * 0.69314718055994529 + 2 * z * atanh_terms 14 1 (z * z))%float.
End Math.

(** ** The classes of [script.js] *)

Module EnvironmentSettings.
Record t : Type := new {
  temperature : float;
  pressure : float;
  solvent : string;
  catalyst : option string;   (* a name, or [null] *)
  ph : float
}.
End EnvironmentSettings.

Module SimulationParameters.
Record t : Type := new {
  anode : string;
  cathode : string;
  concAnode : float;
  concCathode : float;
  molesReactant : float;
  environment : EnvironmentSettings.t
}.
End SimulationParameters.

Module AdvancedElectrochemicalCell.
Record t : Type := new {
  environment : EnvironmentSettings.t
}.
End AdvancedElectrochemicalCell.

(** [this.catalyst ? _ : _]: [null] and the empty text are falsy. *)
Definition truthy (catalyst : option string) : bool :=
  match catalyst with
  | Some name => negb (name =? "")%string
  | None => false
  end.

Definition STANDARD_REDUCTION_POTENTIALS : value :=
  Object
    [ ("Li", Object [("potential", Num (-3.04))]);
      ("K",  Object [("potential", Num (-2.93))]);
      ("Ca", Object [("potential", Num (-2.87))]);
      ("Na", Object [("potential", Num (-2.71))]);
      ("Mg", Object [("potential", Num (-2.37))]);
      ("Al", Object [("potential", Num (-1.66))]);
      ("Zn", Object [("potential", Num (-0.76))]);
      ("Fe", Object [("potential", Num (-0.44))]);
      ("Ni", Object [("potential", Num (-0.25))]);
      ("Sn", Object [("potential", Num (-0.14))]);
      ("Pb", Object [("potential", Num (-0.13))]);
      ("H2", Object [("potential", Num 0.00)]);
      ("Cu", Object [("potential", Num 0.34)]);
      ("Ag", Object [("potential", Num 0.80)]);
      ("Hg", Object [("potential", Num 0.85)]);
      ("Pt", Object [("potential", Num 1.20)]);
      ("Au", Object [("potential", Num 1.50)]) ].

(** The objects a call [cell.calculateCellPotential(params)] can reach, and
    the console.  A reference to an object is modelled by the object: the
    engine holds its environment, the parameters hold theirs. *)
Record World : Type := mkWorld {
  this : AdvancedElectrochemicalCell.t;
  params : SimulationParameters.t;
  console : list (string * Error)
}.

(** [console.error(label, error)] *)
Definition console_error (label : string) (error : Error) : JS World unit :=
  fun w => (Normal tt, mkWorld (this w) (params w) (console w ++ [(label, error)])).

(** A method call on the object [this.environment]. *)
Definition this_environment {A} (method : JS EnvironmentSettings.t A) : JS World A :=
  fun w =>
    let '(r, e) := method (AdvancedElectrochemicalCell.environment (this w)) in
    (r, mkWorld (AdvancedElectrochemicalCell.new e) (params w) (console w)).

(** The object literal [solventFactors] of [modifyPotential]. *)
Definition solventFactors : value :=
  Object [ ("Water", Num 1.0);
           ("Methanol", Num 0.95);
           ("Ethanol", Num 0.90);
           ("DMSO", Num 1.1);
           ("Acetonitrile", Num 1.05) ].

Section Methods.
Variable log_approx : float -> float.

Local Open Scope js_scope.
Local Open Scope float_scope.

(** [EnvironmentSettings.modifyPotential], [script.js] lines 179-194:
<<
    modifyPotential(basePotential) {
        const temperatureK = this.temperature + 273.15;
        const tempFactor = temperatureK / 298.15;
        const pressureFactor = Math.log(this.pressure);
        const phFactor = -0.059 * (this.ph - 7);
        const solventFactors = { "Water": 1.0, "Methanol": 0.95, "Ethanol": 0.90,
                                 "DMSO": 1.1, "Acetonitrile": 1.05 };
        const solventFactor = solventFactors[this.solvent] || 1.0;
        const catalystBoost = this.catalyst ? 0.05 : 0.0;
        return (basePotential * tempFactor * solventFactor + pressureFactor * 0.01
                + phFactor + catalystBoost).toFixed(3);
    }
>>
    The multiplications apply ToNumber to [basePotential] and to
    [solventFactor], which need not be numbers. *)
Definition modifyPotential (basePotential : value) : JS EnvironmentSettings.t string :=
  temperature <- read EnvironmentSettings.temperature ;;
  let temperatureK := temperature + 273.15 in
  let tempFactor := temperatureK / 298.15 in
  pressure <- read EnvironmentSettings.pressure ;;
  let pressureFactor := Math.log log_approx pressure in
  ph <- read EnvironmentSettings.ph ;;
  let phFactor := -0.059 * (ph - 7) in
  let solventFactors := solventFactors in
  solvent <- read EnvironmentSettings.solvent ;;
  factor <- GetV solventFactors solvent ;;
  let solventFactor := or_else factor (Num 1.0) in
  catalyst <- read EnvironmentSettings.catalyst ;;
  let catalystBoost := if truthy catalyst then 0.05 else 0.0 in
  ret (Number.toFixed
         (ToNumber basePotential * tempFactor * ToNumber solventFactor
          + pressureFactor * 0.01 + phFactor + catalystBoost) 3).

(** [AdvancedElectrochemicalCell.calculateCellPotential], [script.js] lines
    213-239:
<<
    calculateCellPotential(params) {
        try {
            if (!STANDARD_REDUCTION_POTENTIALS[params.anode]
                || !STANDARD_REDUCTION_POTENTIALS[params.cathode]) {
                throw new Error('Invalid electrode materials');
            }
            const E0_anode = parseFloat(this.environment.modifyPotential(
                STANDARD_REDUCTION_POTENTIALS[params.anode].potential));
            const E0_cathode = parseFloat(this.environment.modifyPotential(
                STANDARD_REDUCTION_POTENTIALS[params.cathode].potential));
            const E0_cell = E0_cathode - E0_anode;
            const temperatureK = this.environment.temperature + 273.15;
            const F = 96485.3321233100184;
            const R = 8.31446261815324;
            const RT_nF = (temperatureK * R) / (2 * F);
            if (params.concCathode === 0) {
                throw new Error('Cathode concentration cannot be zero');
            }
            const Q = params.concAnode / params.concCathode;
            const result = E0_cell - RT_nF * Math.log(Q);
            return Number(result).toFixed(4);
        } catch (error) {
            console.error('Cell potential calculation error:', error);
            throw error;
        }
    }
>>
    [params] is the parameters object of the world; [Number(result)] is
    ToNumber. *)
Definition calculateCellPotential : JS World string :=
  try_catch
    (anode <- read (fun w => SimulationParameters.anode (params w)) ;;
     a <- GetV STANDARD_REDUCTION_POTENTIALS anode ;;
     invalid <- (if negb (ToBoolean a) then ret true
                 else
                   cathode <- read (fun w => SimulationParameters.cathode (params w)) ;;
                   c <- GetV STANDARD_REDUCTION_POTENTIALS cathode ;;
                   ret (negb (ToBoolean c))) ;;
     if invalid : bool then throw (mkError "Error" "Invalid electrode materials")
     else
       anode <- read (fun w => SimulationParameters.anode (params w)) ;;
       a <- GetV STANDARD_REDUCTION_POTENTIALS anode ;;
       potential <- GetV a "potential" ;;
       corrected <- this_environment (modifyPotential potential) ;;
       let E0_anode := Number.parseFloat corrected in
       cathode <- read (fun w => SimulationParameters.cathode (params w)) ;;
       c <- GetV STANDARD_REDUCTION_POTENTIALS cathode ;;
       potential <- GetV c "potential" ;;
       corrected <- this_environment (modifyPotential potential) ;;
       let E0_cathode := Number.parseFloat corrected in
       let E0_cell := E0_cathode - E0_anode in

       temperature <- this_environment (read EnvironmentSettings.temperature) ;;
       let temperatureK := temperature + 273.15 in
       let F := 96485.3321233100184 in
       let R := 8.31446261815324 in
       let RT_nF := (temperatureK * R) / (2 * F) in

       concCathode <- read (fun w => SimulationParameters.concCathode (params w)) ;;
       if concCathode =? 0 then
         throw (mkError "Error" "Cathode concentration cannot be zero")
       else
         concAnode <- read (fun w => SimulationParameters.concAnode (params w)) ;;
         concCathode <- read (fun w => SimulationParameters.concCathode (params w)) ;;
         let Q := concAnode / concCathode in
         let result := E0_cell - RT_nF * Math.log log_approx Q in
         ret (Number.toFixed (ToNumber (Num result)) 4))
    (fun error =>
       console_error "Cell potential calculation error:" error ;;;
       throw error).
End Methods.

(** ** Vocabulary of the statements *)

(** The value a method returns, when it returns. *)
Definition returns {S A} (m : JS S A) (s : S) (a : A) : Prop := fst (m s) = Normal a.

(** [x.toFixed(f)] is in fixed notation exactly when [x] is finite and below
    [10 ^ 21] in magnitude. *)
Definition fixed_range (x : float) : bool :=
  is_finite x && negb (1e21 <=? abs x)%float.

Fixpoint all_digits (s : string) : bool :=
  match s with
  | String c r => Number.is_digit c && all_digits r
  | EmptyString => true
  end.

(** Splits a text at its first ".". *)
Fixpoint split_point (s : string) : option (string * string) :=
  match s with
  | String c r =>
      if (c =? ".")%char then Some (EmptyString, r)
      else
        match split_point r with
        | Some (a, b) => Some (String c a, b)
        | None => None
        end
  | EmptyString => None
  end.

Definition unsigned (s : string) : bool * string :=
  match s with
  | String "-" r => (true, r)
  | _ => (false, s)
  end.

(** The number of digits after the point of a decimal numeral: an optional
    "-", one or more digits, ".", digits.  [None] for any other text. *)
Definition decimal_places (s : string) : option nat :=
  match split_point (snd (unsigned s)) with
  | Some (a, b) =>
      if negb (a =? "")%string && all_digits a && all_digits b
      then Some (String.length b) else None
  | None => None
  end.

(** The value of a decimal numeral with three decimal places, in
    thousandths. *)
Definition thousandths (s : string) : option Z :=
  match decimal_places s, split_point (snd (unsigned s)) with
  | Some 3%nat, Some (a, b) =>
      let '(v, _, _) := Number.take_digits (a ++ b) 0 0 in
      Some (if fst (unsigned s) then - v else v)
  | _, _ => None
  end.

(** The spec's table of solvent multipliers. *)
Definition spec_solventFactor (solvent : string) : float :=
  if (solvent =? "Water")%string then 1.0%float
  else if (solvent =? "Methanol")%string then 0.95%float
  else if (solvent =? "Ethanol")%string then 0.90%float
  else if (solvent =? "DMSO")%string then 1.1%float
  else if (solvent =? "Acetonitrile")%string then 1.05%float
  else 1.0%float.

(** The spec's catalyst boost. *)
Definition spec_catalystBoost (catalyst : option string) : float :=
  match catalyst with
  | Some name => if (name =? "")%string then 0.0%float else 0.05%float
  | None => 0.0%float
  end.

(** The spec's correction formula, before rounding. *)
Definition spec_correction (ln : float -> float) (e : EnvironmentSettings.t) (b : float) : float :=
  (b * ((EnvironmentSettings.temperature e + 273.15) / 298.15)
     * spec_solventFactor (EnvironmentSettings.solvent e)
   + ln (EnvironmentSettings.pressure e) * 0.01
   + (-0.059 * (EnvironmentSettings.ph e - 7))
   + spec_catalystBoost (EnvironmentSettings.catalyst e))%float.

(** The own entry of an electrode in the table. *)
Definition tabled (name : string) (potential : float) : Prop :=
  match STANDARD_REDUCTION_POTENTIALS with
  | Object properties =>
      own_property properties name = Some (Object [("potential", Num potential)])
  | _ => False
  end.

(** A call [cell.calculateCellPotential(params)] with [cell] built on [env]. *)
Definition call (env : EnvironmentSettings.t) (params : SimulationParameters.t) : World :=
  mkWorld (AdvancedElectrochemicalCell.new env) params [].

(** The same environment with another catalyst, another pH. *)
Definition with_catalyst (e : EnvironmentSettings.t) (catalyst : option string) :=
  EnvironmentSettings.new (EnvironmentSettings.temperature e) (EnvironmentSettings.pressure e)
    (EnvironmentSettings.solvent e) catalyst (EnvironmentSettings.ph e).

Definition with_ph (e : EnvironmentSettings.t) (ph : float) :=
  EnvironmentSettings.new (EnvironmentSettings.temperature e) (EnvironmentSettings.pressure e)
    (EnvironmentSettings.solvent e) (EnvironmentSettings.catalyst e) ph.

(** The same parameters holding another environment. *)
Definition with_environment (p : SimulationParameters.t) (e : EnvironmentSettings.t) :=
  SimulationParameters.new (SimulationParameters.anode p) (SimulationParameters.cathode p)
    (SimulationParameters.concAnode p) (SimulationParameters.concCathode p)
    (SimulationParameters.molesReactant p) e.

(** The operand of [toFixed(3)] in [modifyPotential]. *)
Definition corrected_sum (log_approx : float -> float) (e : EnvironmentSettings.t)
    (basePotential : value) : float :=
  (ToNumber basePotential * ((EnvironmentSettings.temperature e + 273.15) / 298.15)
     * ToNumber (or_else (lookup solventFactors (EnvironmentSettings.solvent e)) (Num 1.0))
   + Math.log log_approx (EnvironmentSettings.pressure e) * 0.01
   + -0.059 * (EnvironmentSettings.ph e - 7)
   + (if truthy (EnvironmentSettings.catalyst e) then 0.05 else 0.0))%float.

(** [E0_anode], [E0_cathode]: the corrected potential of a table entry,
    rounded to three decimals and parsed back. *)
Definition E0 (log_approx : float -> float) (e : EnvironmentSettings.t) (entry : value) : float :=
  Number.parseFloat (Number.toFixed (corrected_sum log_approx e (lookup entry "potential")) 3).

(** The operand of [toFixed(4)] in [calculateCellPotential]. *)
Definition cell_sum (log_approx : float -> float) (w : World) : float :=
  let e := AdvancedElectrochemicalCell.environment (this w) in
  let p := params w in
  (E0 log_approx e (lookup STANDARD_REDUCTION_POTENTIALS (SimulationParameters.cathode p))
   - E0 log_approx e (lookup STANDARD_REDUCTION_POTENTIALS (SimulationParameters.anode p))
   - (EnvironmentSettings.temperature e + 273.15) * 8.31446261815324
       / (2 * 96485.3321233100184)
     * Math.log log_approx
         (SimulationParameters.concAnode p / SimulationParameters.concCathode p))%float.

(** The two errors of [calculateCellPotential]. *)
Definition invalid_electrodes : Error := mkError "Error" "Invalid electrode materials".
Definition zero_cathode : Error := mkError "Error" "Cathode concentration cannot be zero".

(** Two three-decimal numerals [d] thousandths apart. *)
Definition differ_by (s0 s1 : string) (d : Z) : Prop :=
  exists n0 n1, thousandths s0 = Some n0 /\ thousandths s1 = Some n1 /\ n1 = n0 + d.

(** The pH values 0, 1, ..., 14. *)
Definition integer_pH : list float :=
  [0; 1; 2; 3; 4; 5; 6; 7; 8; 9; 10; 11; 12; 13; 14]%float.

(** The reference conditions: 25 degrees Celsius, 1 atm, water. *)
Definition reference (catalyst : option string) (ph : float) : EnvironmentSettings.t :=
  EnvironmentSettings.new 25 1.0 "Water" catalyst ph.

(** A method that leaves the objects it reaches as they were, and whose
    completion does not depend on the console. *)
Definition readonly {A} (m : JS World A) : Prop :=
  forall t p, exists r log, forall c,
    m (mkWorld t p c) = (r, mkWorld t p (c ++ log)).

Definition env_readonly {A} (m : JS EnvironmentSettings.t A) : Prop :=
  forall e, snd (m e) = e.

(** ** The rest of [script.js]: texts, the page and its handlers *)

(** A text is held as the bytes of its UTF-8 encoding.  The functions below
    work on ASCII characters and leave every other byte in place, which is
    what the source does code unit by code unit. *)

(** Line feed, for the template literals that span lines. *)
Definition LF : string := String (ascii_of_nat 10) EmptyString.

(** [AdvancedElectrochemicalCell.getHalfReactions], [script.js] lines 241-246:
<<
    getHalfReactions(anode, cathode) {
        const halfReactionAnode = `${anode}ⁿ⁺ + n e⁻ ⇌ ${anode}`;
        const halfReactionCathode = `${cathode}ᵐ⁺ + m e⁻ ⇌ ${cathode}`;
        const overallReaction = `m ${anode} + n ${cathode}ᵐ⁺ ⇌ n ${cathode} + m ${anode}ⁿ⁺`;
        return [halfReactionAnode, halfReactionCathode, overallReaction];
    }
>> *)
Definition getHalfReactions (anode cathode : string) : list string :=
  let halfReactionAnode := anode ++ "ⁿ⁺ + n e⁻ ⇌ " ++ anode in
  let halfReactionCathode := cathode ++ "ᵐ⁺ + m e⁻ ⇌ " ++ cathode in
  let overallReaction :=
    "m " ++ anode ++ " + n " ++ cathode ++ "ᵐ⁺ ⇌ n " ++ cathode ++ " + m " ++ anode ++ "ⁿ⁺" in
  [halfReactionAnode; halfReactionCathode; overallReaction].

(** [AdvancedElectrochemicalCell.getReactionSummary], lines 248-250; the two
    mole counts are numbers, printed by ToString:
<<
    getReactionSummary(anode, cathode, molesAnode, molesCathode) {
        return `The overall reaction suggests that ${molesAnode} moles of ${anode} are
                oxidized and ${molesCathode} moles of ${cathode} ions are reduced, forming
                ${cathode} metal and ${anode} ions.`;
    }
>>
    (one line in the source). *)
Definition getReactionSummary (anode cathode : string) (molesAnode molesCathode : float)
    : string :=
  "The overall reaction suggests that " ++ Number.toString molesAnode ++ " moles of "
  ++ anode ++ " are oxidized and " ++ Number.toString molesCathode ++ " moles of "
  ++ cathode ++ " ions are reduced, forming " ++ cathode ++ " metal and " ++ anode
  ++ " ions.".

(** [String.prototype.indexOf] for one character; [None] is -1. *)
Fixpoint indexOf (text : string) (char : ascii) : option nat :=
  match text with
  | EmptyString => None
  | String c rest =>
      if (c =? char)%char then Some O else option_map S (indexOf rest char)
  end.

(** The characters of the literal of [superscript], in order. *)
Definition superscripts : list string :=
  ["⁰"; "¹"; "²"; "³"; "⁴"; "⁵"; "⁶"; "⁷"; "⁸"; "⁹"; "⁺"; "⁻"].

(** [superscript], lines 320-324:
<<
    function superscript(text) {
        return text.split('').map(char =>
            '⁰¹²³⁴⁵⁶⁷⁸⁹⁺⁻'['0123456789+-'.indexOf(char)] || char
        ).join('');
    }
>>
    Indexing at -1 gives [undefined], which is falsy. *)
Fixpoint superscript (text : string) : string :=
  match text with
  | EmptyString => EmptyString
  | String char rest =>
      let mapped :=
        match indexOf "0123456789+-" char with
        | Some i => nth i superscripts (String char EmptyString)
        | None => String char EmptyString
        end in
      mapped ++ superscript rest
  end.

(** *** The page *)

(** What the drawing context of the canvas is asked to do, in order. *)
Inductive Command : Type :=
  | clearRect (x y w h : float)
  | strokeStyle (v : string)
  | fillStyle (v : string)
  | lineWidth (v : float)
  | beginPath
  | rect (x y w h : float)
  | stroke
  | moveTo (x y : float)
  | lineTo (x y : float)
  | font (v : string)
  | fillText (text : string) (x y : float).

(** The properties of an element that the script reads or writes.  The
    markup of the page is not part of the sources: [value] is the text last
    assigned or typed, as it is for a text input. *)
Module Element.
Record t : Type := new {
  value : string;
  display : string;              (* style.display *)
  textContent : string;
  innerHTML : string;
  classList : list string;
  validationMessage : string;    (* set by setCustomValidity *)
  width : float;
  height : float;
  context : list Command         (* getContext('2d'), as the calls made on it *)
}.

Definition with_value (v : string) (e : t) : t :=
  new v (display e) (textContent e) (innerHTML e) (classList e) (validationMessage e)
    (width e) (height e) (context e).
Definition with_display (v : string) (e : t) : t :=
  new (value e) v (textContent e) (innerHTML e) (classList e) (validationMessage e)
    (width e) (height e) (context e).
Definition with_textContent (v : string) (e : t) : t :=
  new (value e) (display e) v (innerHTML e) (classList e) (validationMessage e)
    (width e) (height e) (context e).
Definition with_innerHTML (v : string) (e : t) : t :=
  new (value e) (display e) (textContent e) v (classList e) (validationMessage e)
    (width e) (height e) (context e).
Definition with_classList (v : list string) (e : t) : t :=
  new (value e) (display e) (textContent e) (innerHTML e) v (validationMessage e)
    (width e) (height e) (context e).
Definition setCustomValidity (message : string) (e : t) : t :=
  new (value e) (display e) (textContent e) (innerHTML e) (classList e) message
    (width e) (height e) (context e).
Definition with_context (v : list Command) (e : t) : t :=
  new (value e) (display e) (textContent e) (innerHTML e) (classList e) (validationMessage e)
    (width e) (height e) v.

(** [classList.add(token)], [classList.remove(token)]: a set of tokens. *)
Definition classList_add (token : string) (e : t) : t :=
  if existsb (String.eqb token) (classList e) then e
  else with_classList (classList e ++ [token]) e.
Definition classList_remove (token : string) (e : t) : t :=
  with_classList (filter (fun c => negb (token =? c)%string) (classList e)) e.

(** A call on the drawing context. *)
Definition draw (c : Command) (e : t) : t := with_context (context e ++ [c]) e.
End Element.

(** The page: its elements by id, the console and the alerts shown.  The
    elements stand side by side: writing the [innerHTML] of one leaves the
    others in place. *)
Module Page.
Record t : Type := new {
  elements : list (string * Element.t);
  console : list (string * Error);
  alerts : list string
}.

Fixpoint find (id : string) (l : list (string * Element.t)) : option Element.t :=
  match l with
  | [] => None
  | (i, e) :: rest => if (i =? id)%string then Some e else find id rest
  end.

Fixpoint update (id : string) (f : Element.t -> Element.t) (l : list (string * Element.t))
    : list (string * Element.t) :=
  match l with
  | [] => []
  | (i, e) :: rest =>
      if (i =? id)%string then (i, f e) :: rest else (i, e) :: update id f rest
  end.

(** The message of a [TypeError] is the engine's; no statement depends on
    it. *)
Definition TypeError_null : Error :=
  mkError "TypeError" "Cannot read properties of null".

(** [document.getElementById(id)]: the first element with that id, or
    [null].  An element is referred to by its id. *)
Definition getElementById (id : string) : JS t (option string) :=
  read (fun pg => match find id (elements pg) with
                  | Some _ => Some id
                  | None => None
                  end).

(** Reading and writing a property of an element; a [TypeError] on [null]. *)
Definition get {A} (element : option string) (property : Element.t -> A) : JS t A :=
  fun pg =>
    match element with
    | Some id =>
        match find id (elements pg) with
        | Some e => (Normal (property e), pg)
        | None => (Throw TypeError_null, pg)
        end
    | None => (Throw TypeError_null, pg)
    end.

Definition set (element : option string) (assign : Element.t -> Element.t) : JS t unit :=
  fun pg =>
    match element with
    | Some id =>
        match find id (elements pg) with
        | Some _ => (Normal tt, new (update id assign (elements pg)) (console pg) (alerts pg))
        | None => (Throw TypeError_null, pg)
        end
    | None => (Throw TypeError_null, pg)
    end.

(** [console.error(label, error)], [alert(message)] *)
Definition console_error (label : string) (error : Error) : JS t unit :=
  fun pg => (Normal tt, new (elements pg) (console pg ++ [(label, error)]) (alerts pg)).

Definition alert (message : string) : JS t unit :=
  fun pg => (Normal tt, new (elements pg) (console pg) (alerts pg ++ [message])).

End Page.

(** A method call on an engine and parameters built by a handler; the
    console is the page's. *)
Definition invoke {A} (cell : AdvancedElectrochemicalCell.t) (params : SimulationParameters.t)
    (method : JS World A) : JS Page.t A :=
  fun pg =>
    let '(r, w) := method (mkWorld cell params (Page.console pg)) in
    (r, Page.new (Page.elements pg) (console w) (Page.alerts pg)).

(** [error.message] *)
Definition message (error : Error) : string :=
  match error with mkError _ m => m end.

(** [Array.prototype.every] and [forEach], with a callback that acts on the
    page. *)
Fixpoint every {S A} (callback : A -> JS S bool) (array : list A) : JS S bool :=
  match array with
  | [] => ret true
  | v :: rest => bind (callback v) (fun b => if b then every callback rest else ret false)
  end.

Fixpoint forEach {S A} (callback : A -> JS S unit) (array : list A) : JS S unit :=
  match array with
  | [] => ret tt
  | v :: rest => bind (callback v) (fun _ => forEach callback rest)
  end.

(** [PRESETS], lines 1-26: two objects whose properties are texts. *)
Definition PRESETS : list (string * list (string * string)) :=
  [ ("zinc_copper",
     [ ("anode", "Zn"); ("cathode", "Cu"); ("conc_anode", "1.0"); ("conc_cathode", "1.0");
       ("moles_reactant", "1.0"); ("temperature", "25"); ("pressure", "1.0");
       ("solvent", "Water"); ("catalyst", ""); ("ph", "7") ]);
    ("silver_lead",
     [ ("anode", "Pb"); ("cathode", "Ag"); ("conc_anode", "0.5"); ("conc_cathode", "0.5");
       ("moles_reactant", "1.0"); ("temperature", "25"); ("pressure", "1.0");
       ("solvent", "Water"); ("catalyst", ""); ("ph", "7") ]) ].

Fixpoint own_preset (presets : list (string * list (string * string))) (P : string)
    : option (list (string * string)) :=
  match presets with
  | [] => None
  | (key, v) :: rest => if (key =? P)%string then Some v else own_preset rest P
  end.

(** One of the checks of the submit handler. *)
Module Validation.
Record t : Type := new { elem : string; min : float; max : float; name : string }.
End Validation.

Section Handlers.
Variable log_approx : float -> float.
(** [Math.atan2], [Math.cos], [Math.sin]: implementation-approximated. *)
Variable Math_atan2 : float -> float -> float.
Variable Math_cos : float -> float.
Variable Math_sin : float -> float.

Local Open Scope js_scope.
Local Open Scope float_scope.

(** [Math.PI] *)
Definition Math_PI : float := 3.141592653589793.

(** [loadPreset], lines 28-36:
<<
    function loadPreset(presetName) {
        const preset = PRESETS[presetName];
        if (!preset) return;
        Object.keys(preset).forEach(key => {
            const element = document.getElementById(key);
            if (element) element.value = preset[key];
        });
    }
>>
    A name inherited from [Object.prototype] finds a truthy intrinsic, which
    has no enumerable property of its own: [Object.keys] is empty. *)
Definition loadPreset (presetName : string) : JS Page.t unit :=
  let keys_and_values :=
    match own_preset PRESETS presetName with
    | Some preset => Some preset
    | None => if existsb (String.eqb presetName) ObjectPrototype then Some [] else None
    end in
  match keys_and_values with
  | None => ret tt
  | Some preset =>
      forEach
        (fun '(key, text) =>
           element <- Page.getElementById key ;;
           match element with
           | Some _ => Page.set element (Element.with_value text)
           | None => ret tt
           end)
        preset
  end.

(** The click handler of [startBtn], lines 43-72:
<<
    const mode = document.getElementById('mode').value;
    const inputParams = document.getElementById('inputParameters');
    const results = document.getElementById('results');
    const diagram = document.getElementById('galvanicCellDiagram');
    results.classList.remove('visible');
    diagram.classList.remove('visible');
    switch(mode) {
        case '2': // Auto mode
            inputParams.style.display = 'block';
            document.getElementById('conc_anode').value = '1.0';
            document.getElementById('conc_cathode').value = '1.0';
            document.getElementById('moles_reactant').value = '1.0';
            document.getElementById('temperature').value = '25';
            document.getElementById('pressure').value = '1';
            document.getElementById('ph').value = '7';
            break;
        case '3': // Mixed mode
            inputParams.style.display = 'block';
            document.getElementById('temperature').value = '25';
            document.getElementById('pressure').value = '1';
            document.getElementById('ph').value = '7';
            break;
        default: // Manual mode
            inputParams.style.display = 'block';
    }
>> *)
Definition assign_value (id text : string) : JS Page.t unit :=
  element <- Page.getElementById id ;;
  Page.set element (Element.with_value text).

Definition start : JS Page.t unit :=
  e <- Page.getElementById "mode" ;;
  mode <- Page.get e Element.value ;;
  inputParams <- Page.getElementById "inputParameters" ;;
  results <- Page.getElementById "results" ;;
  diagram <- Page.getElementById "galvanicCellDiagram" ;;
  Page.set results (Element.classList_remove "visible") ;;;
  Page.set diagram (Element.classList_remove "visible") ;;;
  if (mode =? "2")%string then
    Page.set inputParams (Element.with_display "block") ;;;
    assign_value "conc_anode" "1.0" ;;;
    assign_value "conc_cathode" "1.0" ;;;
    assign_value "moles_reactant" "1.0" ;;;
    assign_value "temperature" "25" ;;;
    assign_value "pressure" "1" ;;;
    assign_value "ph" "7"
  else if (mode =? "3")%string then
    Page.set inputParams (Element.with_display "block") ;;;
    assign_value "temperature" "25" ;;;
    assign_value "pressure" "1" ;;;
    assign_value "ph" "7"
  else
    Page.set inputParams (Element.with_display "block").

(** The click handler of [toggleEnvSettings], lines 74-83; [this] is the
    button:
<<
    const envSettings = document.getElementById('environmentalSettings');
    if (envSettings.style.display === 'none') {
        envSettings.style.display = 'block';
        this.textContent = 'Hide Environmental Settings';
    } else {
        envSettings.style.display = 'none';
        this.textContent = 'Show Environmental Settings';
    }
>> *)
Definition toggle : JS Page.t unit :=
  let this := Some "toggleEnvSettings"%string in
  envSettings <- Page.getElementById "environmentalSettings" ;;
  display <- Page.get envSettings Element.display ;;
  if (display =? "none")%string then
    Page.set envSettings (Element.with_display "block") ;;;
    Page.set this (Element.with_textContent "Hide Environmental Settings")
  else
    Page.set envSettings (Element.with_display "none") ;;;
    Page.set this (Element.with_textContent "Show Environmental Settings").

(** [validateInput], lines 85-93:
<<
    function validateInput(input, min, max, name) {
        const value = parseFloat(input.value);
        if (isNaN(value) || value < min || value > max) {
            input.setCustomValidity(`${name} must be between ${min} and ${max}`);
            return false;
        }
        input.setCustomValidity('');
        return true;
    }
>> *)
Definition validateInput (input : option string) (min max : float) (name : string)
    : JS Page.t bool :=
  text <- Page.get input Element.value ;;
  let value := Number.parseFloat text in
  if is_nan value || (value <? min) || (max <? value) then
    Page.set input
      (Element.setCustomValidity
         (name ++ " must be between " ++ Number.toString min ++ " and "
          ++ Number.toString max)) ;;;
    ret false
  else
    Page.set input (Element.setCustomValidity "") ;;;
    ret true.

(** [drawArrow], lines 326-337:
<<
    function drawArrow(ctx, x1, y1, x2, y2) {
        const headLength = 15;
        const angle = Math.atan2(y2 - y1, x2 - x1);
        ctx.beginPath();
        ctx.moveTo(x1, y1);
        ctx.lineTo(x2, y2);
        ctx.lineTo(x2 - headLength * Math.cos(angle - Math.PI/6),
                   y2 - headLength * Math.sin(angle - Math.PI/6));
        ctx.moveTo(x2, y2);
        ctx.lineTo(x2 - headLength * Math.cos(angle + Math.PI/6),
                   y2 - headLength * Math.sin(angle + Math.PI/6));
        ctx.stroke();
    }
>> *)
Definition drawArrow (ctx : option string) (x1 y1 x2 y2 : float) : JS Page.t unit :=
  let headLength := 15 in
  let angle := Math_atan2 (y2 - y1) (x2 - x1) in
  Page.set ctx (Element.draw beginPath) ;;;
  Page.set ctx (Element.draw (moveTo x1 y1)) ;;;
  Page.set ctx (Element.draw (lineTo x2 y2)) ;;;
  Page.set ctx (Element.draw (lineTo (x2 - headLength * Math_cos (angle - Math_PI / 6))
                                     (y2 - headLength * Math_sin (angle - Math_PI / 6)))) ;;;
  Page.set ctx (Element.draw (moveTo x2 y2)) ;;;
  Page.set ctx (Element.draw (lineTo (x2 - headLength * Math_cos (angle + Math_PI / 6))
                                     (y2 - headLength * Math_sin (angle + Math_PI / 6)))) ;;;
  Page.set ctx (Element.draw stroke).

(** [drawGalvanicCell], lines 273-318.  The context is the one of the
    canvas; [canvas.getContext] on [null] is a [TypeError]. *)
Definition drawGalvanicCell (anode cathode E_cell : string) : JS Page.t unit :=
  canvas <- Page.getElementById "galvanicCellDiagram" ;;
  _ <- Page.get canvas Element.context ;;
  let ctx := canvas in
  width <- Page.get canvas Element.width ;;
  height <- Page.get canvas Element.height ;;
  Page.set ctx (Element.draw (clearRect 0 0 width height)) ;;;

  Page.set ctx (Element.draw (strokeStyle "#ffffff")) ;;;
  Page.set ctx (Element.draw (fillStyle "#ffffff")) ;;;
  Page.set ctx (Element.draw (lineWidth 2)) ;;;

  Page.set ctx (Element.draw beginPath) ;;;
  Page.set ctx (Element.draw (rect 100 150 150 200)) ;;;
  Page.set ctx (Element.draw (rect 550 150 150 200)) ;;;
  Page.set ctx (Element.draw stroke) ;;;

  Page.set ctx (Element.draw (lineWidth 4)) ;;;
  Page.set ctx (Element.draw beginPath) ;;;
  Page.set ctx (Element.draw (moveTo 175 100)) ;;;
  Page.set ctx (Element.draw (lineTo 175 250)) ;;;
  Page.set ctx (Element.draw (moveTo 625 100)) ;;;
  Page.set ctx (Element.draw (lineTo 625 250)) ;;;
  Page.set ctx (Element.draw stroke) ;;;

  Page.set ctx (Element.draw (lineWidth 2)) ;;;
  Page.set ctx (Element.draw beginPath) ;;;
  Page.set ctx (Element.draw (moveTo 250 200)) ;;;
  Page.set ctx (Element.draw (lineTo 550 200)) ;;;
  Page.set ctx (Element.draw stroke) ;;;

  Page.set ctx (Element.draw (font "16px IBM Plex Mono")) ;;;
  Page.set ctx (Element.draw
    (fillText (anode ++ " | " ++ anode ++ superscript "n+" ++ " (Anode)") 100 380)) ;;;
  Page.set ctx (Element.draw
    (fillText (cathode ++ superscript "m+" ++ " | " ++ cathode ++ " (Cathode)") 550 380)) ;;;

  Page.set ctx (Element.draw (font "bold 18px IBM Plex Mono")) ;;;
  Page.set ctx (Element.draw (fillText ("E°cell = " ++ E_cell ++ " V") 350 150)) ;;;

  drawArrow ctx 175 80 625 80 ;;;
  Page.set ctx (Element.draw (font "14px IBM Plex Mono")) ;;;
  Page.set ctx (Element.draw (fillText "e⁻" 380 75)).

(** The checks of the submit handler, lines 115-120. *)
Definition validations : list Validation.t :=
  [ Validation.new "conc_anode" 0.001 10 "Anode concentration";
    Validation.new "conc_cathode" 0.001 10 "Cathode concentration";
    Validation.new "temperature" 0 100 "Temperature";
    Validation.new "pressure" 0.1 10 "Pressure" ].

(** [document.getElementById(id).value] *)
Definition value_of (id : string) : JS Page.t string :=
  element <- Page.getElementById id ;;
  Page.get element Element.value.

(** The template literal of [results.innerHTML], lines 151-157. *)
Definition results_html (cellPotential : string) (halfReactions : list string)
    (reactionSummary : string) : string :=
  LF ++ "        <p>Calculated Cell Potential: " ++ cellPotential ++ " V</p>"
  ++ LF ++ "        <p>Anode Half-Reaction: " ++ nth 0 halfReactions "undefined" ++ "</p>"
  ++ LF ++ "        <p>Cathode Half-Reaction: " ++ nth 1 halfReactions "undefined" ++ "</p>"
  ++ LF ++ "        <p>Overall Reaction: " ++ nth 2 halfReactions "undefined" ++ "</p>"
  ++ LF ++ "        <p>" ++ reactionSummary ++ "</p>"
  ++ LF ++ "    ".

(** The submit handler of [galvaSimForm], lines 110-168.
    [event.preventDefault()] does not touch the page.
<<
    try {
        const validations = [ ... ];
        const isValid = validations.every(v =>
            validateInput(document.getElementById(v.elem), v.min, v.max, v.name));
        if (!isValid) { throw new Error('Validation failed'); }
        const mode = document.getElementById('mode').value;
        const anode = document.getElementById('anode').value;
        const cathode = document.getElementById('cathode').value;
        const concAnode = parseFloat(document.getElementById('conc_anode').value);
        const concCathode = parseFloat(document.getElementById('conc_cathode').value);
        const molesReactant = parseFloat(document.getElementById('moles_reactant').value);
        const temperature = parseFloat(document.getElementById('temperature').value);
        const pressure = parseFloat(document.getElementById('pressure').value);
        const solvent = document.getElementById('solvent').value;
        const catalyst = document.getElementById('catalyst').value || null;
        const ph = parseFloat(document.getElementById('ph').value);
        const environment = new EnvironmentSettings(temperature, pressure, solvent, catalyst, ph);
        const params = new SimulationParameters(anode, cathode, concAnode, concCathode,
                                                molesReactant, environment);
        const cell = new AdvancedElectrochemicalCell(environment);
        const cellPotential = cell.calculateCellPotential(params);
        const halfReactions = cell.getHalfReactions(anode, cathode);
        const reactionSummary = cell.getReactionSummary(anode, cathode, molesReactant,
            (molesReactant * concAnode) / concCathode);
        const results = document.getElementById('results');
        results.innerHTML = `...`;
        drawGalvanicCell(anode, cathode, cellPotential);
        results.classList.add('visible');
        document.getElementById('galvanicCellDiagram').classList.add('visible');
    } catch (error) {
        console.error('Simulation error:', error);
        alert('Error during simulation: ' + error.message);
    }
>> *)
Definition submit : JS Page.t unit :=
  try_catch
    (isValid <- every
                  (fun v =>
                     input <- Page.getElementById (Validation.elem v) ;;
                     validateInput input (Validation.min v) (Validation.max v)
                       (Validation.name v))
                  validations ;;
     if negb isValid then throw (mkError "Error" "Validation failed")
     else
       mode <- value_of "mode" ;;
       anode <- value_of "anode" ;;
       cathode <- value_of "cathode" ;;
       text <- value_of "conc_anode" ;;
       let concAnode := Number.parseFloat text in
       text <- value_of "conc_cathode" ;;
       let concCathode := Number.parseFloat text in
       text <- value_of "moles_reactant" ;;
       let molesReactant := Number.parseFloat text in
       text <- value_of "temperature" ;;
       let temperature := Number.parseFloat text in
       text <- value_of "pressure" ;;
       let pressure := Number.parseFloat text in
       solvent <- value_of "solvent" ;;
       text <- value_of "catalyst" ;;
       let catalyst := if (text =? "")%string then None else Some text in
       text <- value_of "ph" ;;
       let ph := Number.parseFloat text in

       let environment := EnvironmentSettings.new temperature pressure solvent catalyst ph in
       let params :=
         SimulationParameters.new anode cathode concAnode concCathode molesReactant
           environment in
       let cell := AdvancedElectrochemicalCell.new environment in

       cellPotential <- invoke cell params (calculateCellPotential log_approx) ;;
       let halfReactions := getHalfReactions anode cathode in
       let reactionSummary :=
         getReactionSummary anode cathode molesReactant
           ((molesReactant * concAnode) / concCathode) in

       results <- Page.getElementById "results" ;;
       Page.set results
         (Element.with_innerHTML (results_html cellPotential halfReactions reactionSummary)) ;;;

       drawGalvanicCell anode cathode cellPotential ;;;

       Page.set results (Element.classList_add "visible") ;;;
       diagram <- Page.getElementById "galvanicCellDiagram" ;;
       Page.set diagram (Element.classList_add "visible"))
    (fun error =>
       Page.console_error "Simulation error:" error ;;;
       Page.alert ("Error during simulation: " ++ message error)).
End Handlers.

(** ** Vocabulary of the further statements *)

(** Not a number, or minus infinity. *)
Definition unbounded_below (x : float) : Prop := x = nan \/ x = neg_infinity.

(** [isNaN(value) || value < min || value > max], negated. *)
Definition in_range (value min max : float) : bool :=
  negb (is_nan value || (value <? min) || (max <? value))%float.

(** A text after which [parseFloat] reads no further: it is empty, or begins
    with a character that is no digit, no "." and no exponent indicator. *)
Definition stops (rest : string) : bool :=
  match rest with
  | EmptyString => true
  | String c _ =>
      negb (Number.is_digit c || (c =? ".")%char || (c =? "e")%char || (c =? "E")%char)
  end.

(** The element of a page with a given id, and the text of its value ("" when
    there is no such element). *)
Definition element (pg : Page.t) (id : string) : option Element.t :=
  Page.find id (Page.elements pg).

Definition text (pg : Page.t) (id : string) : string :=
  match element pg id with
  | Some e => Element.value e
  | None => EmptyString
  end.

(** A check of the submit handler passes on a page. *)
Definition passes (pg : Page.t) (v : Validation.t) : bool :=
  in_range (Number.parseFloat (text pg (Validation.elem v)))
    (Validation.min v) (Validation.max v).

(** The elements the submit handler refers to. *)
Definition submit_ids : list string :=
  [ "conc_anode"; "conc_cathode"; "temperature"; "pressure"; "mode"; "anode"; "cathode";
    "moles_reactant"; "solvent"; "catalyst"; "ph"; "results"; "galvanicCellDiagram" ].

Definition well_formed (pg : Page.t) : Prop :=
  forall id, In id submit_ids -> element pg id <> None.

(** Two elements that differ at most in their validation message. *)
Definition same_but_validity (e e' : Element.t) : Prop :=
  Element.setCustomValidity EmptyString e = Element.setCustomValidity EmptyString e'.

(** The environment and the parameters the submit handler builds from the
    texts of the form. *)
Definition environment_of (pg : Page.t) : EnvironmentSettings.t :=
  EnvironmentSettings.new
    (Number.parseFloat (text pg "temperature"))
    (Number.parseFloat (text pg "pressure"))
    (text pg "solvent")
    (if (text pg "catalyst" =? "")%string then None else Some (text pg "catalyst"))
    (Number.parseFloat (text pg "ph")).

Definition params_of (pg : Page.t) : SimulationParameters.t :=
  SimulationParameters.new (text pg "anode") (text pg "cathode")
    (Number.parseFloat (text pg "conc_anode"))
    (Number.parseFloat (text pg "conc_cathode"))
    (Number.parseFloat (text pg "moles_reactant"))
    (environment_of pg).

(** The text the submit handler writes into the results. *)
Definition results_of (pg : Page.t) (cellPotential : string) : string :=
  let p := params_of pg in
  results_html cellPotential
    (getHalfReactions (SimulationParameters.anode p) (SimulationParameters.cathode p))
    (getReactionSummary (SimulationParameters.anode p) (SimulationParameters.cathode p)
       (SimulationParameters.molesReactant p)
       (SimulationParameters.molesReactant p * SimulationParameters.concAnode p
        / SimulationParameters.concCathode p)%float).

(** An element after more calls on its drawing context. *)
Definition drawn (commands : list Command) (e : Element.t) : Element.t :=
  Element.with_context (Element.context e ++ commands) e.

(** A page after an assignment to one of its elements. *)
Definition assigned (id : string) (assign : Element.t -> Element.t) (pg : Page.t) : Page.t :=
  Page.new (Page.update id assign (Page.elements pg)) (Page.console pg) (Page.alerts pg).

(** Two pages whose elements, those of [except] apart, differ at most in
    their validation message. *)
Definition agree_but_validity (except : list string) (pg pg' : Page.t) : Prop :=
  forall id, ~ In id except ->
    match element pg id, element pg' id with
    | Some e, Some e' => same_but_validity e e'
    | None, None => True
    | _, _ => False
    end.

(** The message of a check that fails. *)
Definition range_message (v : Validation.t) : string :=
  Validation.name v ++ " must be between " ++ Number.toString (Validation.min v) ++ " and "
  ++ Number.toString (Validation.max v).

(** The first check that fails on a page. *)
Definition first_failure (pg : Page.t) : option Validation.t :=
  List.find (fun v => negb (passes pg v)) validations.

(** The texts written on a drawing context. *)
Definition labels (commands : list Command) : list string :=
  flat_map (fun c => match c with fillText t _ _ => [t] | _ => [] end) commands.

(** An input holding a text, a canvas, and a page that has the elements the
    handlers refer to, with given texts in its fields. *)
Definition input (text : string) : Element.t :=
  Element.new text "" "" "" [] "" 0 0 [].

Definition canvas (width height : float) : Element.t :=
  Element.new "" "" "" "" [] "" width height [].

Definition form (mode anode cathode concAnode concCathode molesReactant temperature
    pressure solvent catalyst ph : string) : Page.t :=
  Page.new
    [ ("mode", input mode); ("anode", input anode); ("cathode", input cathode);
      ("conc_anode", input concAnode); ("conc_cathode", input concCathode);
      ("moles_reactant", input molesReactant); ("temperature", input temperature);
      ("pressure", input pressure); ("solvent", input solvent);
      ("catalyst", input catalyst); ("ph", input ph);
      ("inputParameters", input ""); ("environmentalSettings", Element.with_display "none" (input ""));
      ("toggleEnvSettings", Element.with_textContent "Show Environmental Settings" (input ""));
      ("results", input ""); ("galvanicCellDiagram", canvas 800 400) ]
    [] [].

(** The potential the submit handler computes from the texts of a page. *)
Definition potential_of (log_approx : float -> float) (pg : Page.t) : string :=
  Number.toFixed (cell_sum log_approx (call (environment_of pg) (params_of pg))) 4.

(** The text a preset holds for a field. *)
Fixpoint preset_text (preset : list (string * string)) (id : string) : option string :=
  match preset with
  | [] => None
  | (key, text) :: rest => if (key =? id)%string then Some text else preset_text rest id
  end.

(** A page after the fields of a preset are filled in, first to last. *)
Definition filled (preset : list (string * string)) (pg : Page.t) : Page.t :=
  fold_left (fun pg '(key, text) => assigned key (Element.with_value text) pg) preset pg.

(** The text the preset of a name holds for a field; none when the name is
    no key of [PRESETS]. *)
Definition preset_field (presetName id : string) : option string :=
  match own_preset PRESETS presetName with
  | Some preset => preset_text preset id
  | None => None
  end.

(** What the toggle shows: the display of the settings and the label of the
    button. *)
Definition panel (pg : Page.t) : option (string * string) :=
  match element pg "environmentalSettings", element pg "toggleEnvSettings" with
  | Some settings, Some button => Some (Element.display settings, Element.textContent button)
  | _, _ => None
  end.

(** * Properties *)

(** ** The number conversions on documented cases *)

(** Numeric literals are rounded as the conversion from decimal text rounds. *)
Example of_decimal_literals :
  Number.of_decimal false 27315 (-2) = 273.15%float
  /\ Number.of_decimal false 29815 (-2) = 298.15%float
  /\ Number.of_decimal false 831446261815324 (-14) = 8.31446261815324%float
  /\ Number.of_decimal false 964853321233100184 (-13) = 96485.3321233100184%float
  /\ Number.of_decimal true 76 (-2) = (-0.76)%float
  /\ Number.of_decimal false 5 (-324) = 0x1p-1074%float
  /\ Number.of_decimal false 17976931348623159 292 = infinity.
Proof. repeat apply conj; intros; vm_compute; reflexivity. Qed.

(** [toFixed] rounds the exact value of the double, half away from zero. *)
Example toFixed_cases :
  Number.toFixed 1.005 2 = "1.00"
  /\ Number.toFixed 2.34 1 = "2.3"
  /\ Number.toFixed 2.35 1 = "2.4"
  /\ Number.toFixed 2.55 1 = "2.5"
  /\ Number.toFixed 10.235 2 = "10.23"
  /\ Number.toFixed 123.456 2 = "123.46"
  /\ Number.toFixed 0.004 2 = "0.00"
  /\ Number.toFixed 1.23e-10 2 = "0.00"
  /\ Number.toFixed (-2.34) 1 = "-2.3"
  /\ Number.toFixed 2.5 0 = "3"
  /\ Number.toFixed (-1.5) 0 = "-2"
  /\ Number.toFixed (-0.0001) 3 = "-0.000"
  /\ Number.toFixed (-0) 3 = "0.000"
  /\ Number.toFixed 1.23e20 2 = "123000000000000000000.00"
  /\ Number.toFixed 1e21 2 = "1e+21"
  /\ Number.toFixed (6.02 * 1e23) 50 = "6.019999999999999e+23"
  /\ Number.toFixed nan 3 = "NaN"
  /\ Number.toFixed infinity 4 = "Infinity"
  /\ Number.toFixed neg_infinity 4 = "-Infinity".
Proof. repeat apply conj; intros; vm_compute; reflexivity. Qed.

(** [toString] prints the shortest digits that read back as the double. *)
Example toString_cases :
  Number.toString 25 = "25"
  /\ Number.toString 0.1 = "0.1"
  /\ Number.toString (0.1 + 0.2) = "0.30000000000000004"
  /\ Number.toString (-77.5) = "-77.5"
  /\ Number.toString 0.000001 = "0.000001"
  /\ Number.toString 1e-7 = "1e-7"
  /\ Number.toString 123456789012345680000 = "123456789012345680000"
  /\ Number.toString 1e21 = "1e+21"
  /\ Number.toString 1e23 = "1e+23"
  /\ Number.toString 5e-324 = "5e-324"
  /\ Number.toString 1.7976931348623157e308 = "1.7976931348623157e+308"
  /\ Number.toString (-0) = "0".
Proof. repeat apply conj; intros; vm_compute; reflexivity. Qed.

(** [parseFloat] reads the longest numeric prefix. *)
Example parseFloat_cases :
  Number.parseFloat "3.14" = 3.14%float
  /\ Number.parseFloat "  3.14  " = 3.14%float
  /\ Number.parseFloat "314e-2" = 3.14%float
  /\ Number.parseFloat "0.0314E+2" = 3.14%float
  /\ Number.parseFloat "3.14some non-digit characters" = 3.14%float
  /\ Number.parseFloat "FF2" = nan
  /\ Number.parseFloat ".5" = 0.5%float
  /\ Number.parseFloat "-.5e-3" = (-0.0005)%float
  /\ Number.parseFloat "1e" = 1%float
  /\ Number.parseFloat "." = nan
  /\ Number.parseFloat "-0.000" = (-0)%float
  /\ Number.parseFloat "NaN" = nan
  /\ Number.parseFloat "-Infinity" = neg_infinity
  /\ Number.parseFloat "1.7976931348623159e+308" = infinity
  /\ Number.parseFloat "-2.549052490357203e+27" = (-2.549052490357203e+27)%float.
Proof. repeat apply conj; intros; vm_compute; reflexivity. Qed.

(** White space before the number, byte by byte: U+00A0, U+2003 (em space),
    U+FEFF, U+2028, U+3000, U+1680, U+205F, U+202F and a mix with ASCII white
    space are skipped; U+200B (zero width space) and U+0085 (next line) are
    no white space. *)
Example parseFloat_white_space :
  Number.parseFloat (String "194" (String "160" "7")) = 7%float
  /\ Number.parseFloat (String "226" (String "128" (String "131" "25"))) = 25%float
  /\ Number.parseFloat (String "239" (String "187" (String "191" "1.5"))) = 1.5%float
  /\ Number.parseFloat (String "226" (String "128" (String "168" "2"))) = 2%float
  /\ Number.parseFloat (String "227" (String "128" (String "128" "3"))) = 3%float
  /\ Number.parseFloat (String "225" (String "154" (String "128" "4"))) = 4%float
  /\ Number.parseFloat (String "226" (String "129" (String "159" "5"))) = 5%float
  /\ Number.parseFloat (String "226" (String "128" (String "175" "6"))) = 6%float
  /\ Number.parseFloat
       (String "032" (String "009" (String "194" (String "160" (String "010" "-1.5")))))
     = (-1.5)%float
  /\ Number.parseFloat (String "226" (String "128" (String "139" "5"))) = nan
  /\ Number.parseFloat (String "194" (String "133" "5")) = nan.
Proof. repeat apply conj; intros; vm_compute; reflexivity. Qed.

(** [Math.log] where ECMA-262 fixes it, and the series elsewhere. *)
Example log_cases :
  (forall log_approx, Math.log log_approx 1 = 0%float)
  /\ (forall log_approx, Math.log log_approx 0 = neg_infinity)
  /\ (forall log_approx, Math.log log_approx (-0) = neg_infinity)
  /\ (forall log_approx, Math.log log_approx (-1) = nan)
  /\ (forall log_approx, Math.log log_approx nan = nan)
  /\ (forall log_approx, Math.log log_approx infinity = infinity)
  /\ Math.log Math.log_series 2 = 0.6931471805599453%float
  /\ Math.log Math.log_series 0.5 = (-0.6931471805599453)%float
  /\ Math.log Math.log_series 10 = 2.3025850929940455%float.
Proof. repeat apply conj; intros; vm_compute; reflexivity. Qed.

(** Decimal places and thousandths of the texts [toFixed] can return. *)
Example decimal_places_cases :
  decimal_places "1.1000" = Some 4%nat
  /\ decimal_places "-0.760" = Some 3%nat
  /\ decimal_places "-0.000" = Some 3%nat
  /\ decimal_places "NaN" = None
  /\ decimal_places "Infinity" = None
  /\ decimal_places "-Infinity" = None
  /\ decimal_places "1e+21" = None
  /\ decimal_places "6.019999999999999e+23" = None
  /\ thousandths "-0.760" = Some (-760)
  /\ thousandths "0.340" = Some 340
  /\ thousandths "1.1000" = None.
Proof. repeat apply conj; vm_compute; reflexivity. Qed.

(** ** Decimal numerals *)

Section Numerals.
Import Number.

Lemma is_digit_digit_char (d : Z) : 0 <= d < 10 -> is_digit (digit_char d) = true.
Proof.
  intros H.
  assert (d = 0 \/ d = 1 \/ d = 2 \/ d = 3 \/ d = 4 \/ d = 5 \/ d = 6 \/ d = 7
          \/ d = 8 \/ d = 9) as C by lia.
  repeat (destruct C as [-> | C]; [reflexivity |]).
  now subst.
Qed.

Lemma all_digits_app (a b : string) :
  all_digits (a ++ b) = all_digits a && all_digits b.
Proof.
  induction a as [| c a IH]; simpl; [reflexivity |].
  now rewrite IH, andb_assoc.
Qed.

Lemma all_digits_zeroes (n : nat) : all_digits (zeroes n) = true.
Proof. induction n; simpl; auto. Qed.

Lemma all_digits_digits_aux (fuel : nat) :
  forall n acc, all_digits acc = true -> all_digits (digits_aux fuel n acc) = true.
Proof.
  assert (forall n acc, all_digits acc = true ->
                        all_digits (String (digit_char (n mod 10)) acc) = true) as Hstep.
  { intros n acc Hacc. cbn [all_digits].
    rewrite is_digit_digit_char, Hacc by (apply Z.mod_pos_bound; lia). reflexivity. }
  induction fuel as [| fuel IH]; intros n acc Hacc; cbn [digits_aux].
  - now apply Hstep.
  - destruct (n <? 10); [now apply Hstep |].
    apply IH. now apply Hstep.
Qed.

Lemma all_digits_digits (n : Z) : all_digits (digits n) = true.
Proof. apply all_digits_digits_aux. reflexivity. Qed.

Lemma length_digits_aux (fuel : nat) :
  forall n acc, (String.length acc < String.length (digits_aux fuel n acc))%nat.
Proof.
  induction fuel as [| fuel IH]; intros n acc; cbn [digits_aux].
  - cbn [String.length]. lia.
  - destruct (n <? 10); [cbn [String.length]; lia |].
    specialize (IH (n / 10) (String (digit_char (n mod 10)) acc)).
    cbn [String.length] in IH. lia.
Qed.

Lemma length_app (a b : string) :
  String.length (a ++ b) = (String.length a + String.length b)%nat.
Proof. induction a as [| c a IH]; simpl; auto. Qed.

Lemma length_zeroes (n : nat) : String.length (zeroes n) = n.
Proof. induction n; simpl; auto. Qed.

Lemma all_digits_take (n : nat) :
  forall s, all_digits s = true -> all_digits (take n s) = true.
Proof.
  induction n as [| n IH]; intros [| c s]; simpl; auto.
  intros H. apply andb_true_iff in H as [Hc Hs]. now rewrite Hc, IH.
Qed.

Lemma all_digits_drop (n : nat) :
  forall s, all_digits s = true -> all_digits (drop n s) = true.
Proof.
  induction n as [| n IH]; intros [| c s]; simpl; auto.
  intros H. apply andb_true_iff in H as [_ Hs]. now apply IH.
Qed.

Lemma length_take (n : nat) :
  forall s, (n <= String.length s)%nat -> String.length (take n s) = n.
Proof.
  induction n as [| n IH]; intros [| c s]; simpl; intros H; try lia.
  rewrite IH; lia.
Qed.

Lemma length_drop (n : nat) :
  forall s, String.length (drop n s) = (String.length s - n)%nat.
Proof. induction n as [| n IH]; intros [| c s]; simpl; auto. Qed.

Lemma split_point_digits (a b : string) :
  all_digits a = true -> split_point (a ++ "." ++ b) = Some (a, b).
Proof.
  induction a as [| c a IH]; cbn [append split_point all_digits]; intros H.
  - reflexivity.
  - apply andb_true_iff in H as [Hc Ha].
    destruct (c =? ".")%char eqn:E.
    + apply Ascii.eqb_eq in E. subst c. discriminate Hc.
    + cbn [append] in IH. now rewrite IH.
Qed.

(** A numeral made of digits, a point and [f] digits has [f] decimal
    places, with or without a sign in front. *)
Lemma decimal_places_numeral (sign : bool) (a b : string) :
  a <> "" -> all_digits a = true -> all_digits b = true ->
  decimal_places ((if sign then "-" else "") ++ a ++ "." ++ b) = Some (String.length b).
Proof.
  intros Hne Ha Hb. unfold decimal_places.
  assert (snd (unsigned ((if sign then "-" else "") ++ a ++ "." ++ b)) = a ++ "." ++ b) as ->.
  { destruct sign; [reflexivity |].
    destruct a as [| c a]; [congruence |].
    simpl in Ha. apply andb_true_iff in Ha as [Hc _].
    simpl. destruct c as [[] [] [] [] [] [] [] []]; try reflexivity; discriminate Hc. }
  rewrite split_point_digits by assumption.
  rewrite Ha, Hb.
  destruct a; [congruence | reflexivity].
Qed.

(** Steps 10b-10d of [toFixed] with [f >= 1] produce such a numeral. *)
Lemma fixed_notation_shape (n : Z) (f : nat) :
  exists a b,
    fixed_notation n (S f) = a ++ "." ++ b /\ a <> "" /\
    all_digits a = true /\ all_digits b = true /\ String.length b = S f.
Proof.
  unfold fixed_notation.
  set (m := if (String.length (digits n) <=? S f)%nat
            then zeroes (S f + 1 - String.length (digits n)) ++ digits n
            else digits n).
  assert (all_digits m = true) as Hm.
  { subst m. destruct (_ <=? _)%nat; [| apply all_digits_digits].
    now rewrite all_digits_app, all_digits_zeroes, all_digits_digits. }
  assert (S f < String.length m)%nat as Hlen.
  { subst m. destruct (String.length (digits n) <=? S f)%nat eqn:E.
    - apply Nat.leb_le in E.
      rewrite length_app, length_zeroes. lia.
    - apply Nat.leb_gt in E. exact E. }
  exists (take (String.length m - S f) m), (drop (String.length m - S f) m).
  repeat split.
  - intros E. apply (f_equal String.length) in E.
    rewrite length_take in E by lia. simpl in E. lia.
  - now apply all_digits_take.
  - now apply all_digits_drop.
  - rewrite length_drop. lia.
Qed.

Lemma decimal_places_fixed_notation (sign : bool) (n : Z) (f : nat) :
  decimal_places ((if sign then "-" else "") ++ fixed_notation n (S f)) = Some (S f).
Proof.
  destruct (fixed_notation_shape n f) as (a & b & -> & Hne & Ha & Hb & Hlen).
  rewrite decimal_places_numeral by assumption. now rewrite Hlen.
Qed.

(** Within the fixed range, no double is [NaN] or infinite. *)
Lemma fixed_range_finite (x : float) :
  fixed_range x = true ->
  (exists s, Prim2SF x = S754_zero s) \/
  (exists s m e, Prim2SF x = S754_finite s m e /\ (1e21 <=? abs x)%float = false).
Proof.
  unfold fixed_range, is_finite. intros H.
  apply andb_true_iff in H as [Hfin Hlt].
  apply negb_true_iff in Hfin, Hlt.
  apply orb_false_iff in Hfin as [Hnan Hinf].
  unfold Prim2SF. rewrite Hnan, Hinf.
  destruct (is_zero x); [left; eauto |].
  destruct (Z.frexp x) as [r exp].
  destruct (shr_fexp _ _ _ _ _) as [shr e'].
  destruct (shr_m shr); [left; eauto | right; eauto | left; eauto].
Qed.

(** [toFixed] in the fixed range: exactly [f] decimal places, for [f >= 1]. *)
Lemma toFixed_decimal_places (x : float) (f : nat) :
  fixed_range x = true -> decimal_places (toFixed x (S f)) = Some (S f).
Proof.
  intros H. unfold toFixed.
  destruct (fixed_range_finite x H) as [[s ->] | (s & m & e & -> & ->)].
  - apply (decimal_places_fixed_notation false).
  - apply decimal_places_fixed_notation.
Qed.
End Numerals.

(** ** The methods, run *)

#[local] Arguments lookup : simpl never.
#[local] Arguments Number.toFixed : simpl never.
#[local] Arguments Number.parseFloat : simpl never.
#[local] Arguments Math.log : simpl never.
#[local] Arguments corrected_sum : simpl never.

Section Runs.
Variable log_approx : float -> float.

(** [modifyPotential] returns the rounding of its sum and leaves [this] as
    it was. *)
Lemma modifyPotential_run (b : value) (e : EnvironmentSettings.t) :
  modifyPotential log_approx b e
  = (Normal (Number.toFixed (corrected_sum log_approx e b) 3), e).
Proof. reflexivity. Qed.

(** [calculateCellPotential], path by path. *)
Lemma calculateCellPotential_run (t : AdvancedElectrochemicalCell.t)
    (p : SimulationParameters.t) (c : list (string * Error)) :
  calculateCellPotential log_approx (mkWorld t p c) =
    if negb (ToBoolean (lookup STANDARD_REDUCTION_POTENTIALS (SimulationParameters.anode p)))
       || negb (ToBoolean (lookup STANDARD_REDUCTION_POTENTIALS (SimulationParameters.cathode p)))
    then (Throw invalid_electrodes,
          mkWorld t p (c ++ [("Cell potential calculation error:", invalid_electrodes)]))
    else if (SimulationParameters.concCathode p =? 0)%float
    then (Throw zero_cathode,
          mkWorld t p (c ++ [("Cell potential calculation error:", zero_cathode)]))
    else (Normal (Number.toFixed (cell_sum log_approx (mkWorld t p c)) 4), mkWorld t p c).
Proof.
  destruct t as [e].
  unfold calculateCellPotential, cell_sum, E0, try_catch, bind, read, GetV, ret, throw,
    this_environment, console_error, invalid_electrodes, zero_cathode.
  cbn [STANDARD_REDUCTION_POTENTIALS this params console AdvancedElectrochemicalCell.environment].
  destruct (SimulationParameters.concCathode p =? 0)%float eqn:Ez;
  destruct (lookup STANDARD_REDUCTION_POTENTIALS (SimulationParameters.anode p))
    as [| na | pa | ia] eqn:Ea;
  destruct (lookup STANDARD_REDUCTION_POTENTIALS (SimulationParameters.cathode p))
    as [| nc | pc | ic] eqn:Ec;
  cbn [ToBoolean negb orb this params console AdvancedElectrochemicalCell.environment];
  try reflexivity;
  try (destruct ((na =? 0)%float || is_nan na) eqn:Ena);
  try (destruct ((nc =? 0)%float || is_nan nc) eqn:Enc);
  repeat first
    [ rewrite Ea | rewrite Ec | rewrite Ez | rewrite Ena | rewrite Enc
    | rewrite modifyPotential_run
    | progress cbn [ToBoolean negb orb this params console
                    AdvancedElectrochemicalCell.environment] ];
  reflexivity.
Qed.

(** An electrode of the table is found, with its potential. *)
Lemma tabled_lookup (name : string) (pot : float) :
  tabled name pot ->
  lookup STANDARD_REDUCTION_POTENTIALS name = Object [("potential", Num pot)].
Proof.
  unfold tabled, lookup, STANDARD_REDUCTION_POTENTIALS. now intros ->.
Qed.

Lemma tabled_E0 (e : EnvironmentSettings.t) (name : string) (pot : float) :
  tabled name pot ->
  E0 log_approx e (lookup STANDARD_REDUCTION_POTENTIALS name)
  = Number.parseFloat (Number.toFixed (corrected_sum log_approx e (Num pot)) 3).
Proof. intros H. now rewrite (tabled_lookup _ _ H). Qed.

(** With both electrodes in the table, only the zero test remains. *)
Lemma calculateCellPotential_tabled (w : World) (pa pc : float) :
  tabled (SimulationParameters.anode (params w)) pa ->
  tabled (SimulationParameters.cathode (params w)) pc ->
  calculateCellPotential log_approx w =
    if (SimulationParameters.concCathode (params w) =? 0)%float
    then (Throw zero_cathode,
          mkWorld (this w) (params w)
            (console w ++ [("Cell potential calculation error:", zero_cathode)]))
    else (Normal (Number.toFixed (cell_sum log_approx w) 4), w).
Proof.
  intros Ha Hc. destruct w as [t p c]. cbn [this params console] in *.
  rewrite calculateCellPotential_run.
  now rewrite (tabled_lookup _ _ Ha), (tabled_lookup _ _ Hc).
Qed.

(** The entries of the table, one by one. *)
Lemma tabled_cases (name : string) (pot : float) :
  tabled name pot ->
  In (name, pot)
    [ ("Li", -3.04); ("K", -2.93); ("Ca", -2.87); ("Na", -2.71); ("Mg", -2.37);
      ("Al", -1.66); ("Zn", -0.76); ("Fe", -0.44); ("Ni", -0.25); ("Sn", -0.14);
      ("Pb", -0.13); ("H2", 0.00); ("Cu", 0.34); ("Ag", 0.80); ("Hg", 0.85);
      ("Pt", 1.20); ("Au", 1.50) ]%float.
Proof.
  unfold tabled, STANDARD_REDUCTION_POTENTIALS. cbn [own_property].
  repeat match goal with
    | |- context [(?k =? name)%string] =>
        destruct (String.eqb_spec k name) as [<- | _];
        [ intros [= <-]; cbn [In]; tauto |]
    end.
  discriminate.
Qed.

(** A solvent that names no property of [Object.prototype] gets the
    factor of the spec's table. *)
Lemma solventFactor_spec (solvent : string) :
  existsb (String.eqb solvent) ObjectPrototype = false ->
  ToNumber (or_else (lookup solventFactors solvent) (Num 1.0))
  = spec_solventFactor solvent.
Proof.
  intros H. unfold lookup, solventFactors, spec_solventFactor, inherited.
  rewrite H. cbn [own_property].
  repeat match goal with
    | |- context [(?k =? solvent)%string] =>
        rewrite (String.eqb_sym k solvent);
        destruct (solvent =? k)%string; [reflexivity |]
    end.
  reflexivity.
Qed.

(** The catalyst enters through its truth value only. *)
Lemma catalystBoost_spec (catalyst : option string) :
  (if truthy catalyst then 0.05 else 0.0)%float = spec_catalystBoost catalyst.
Proof. destruct catalyst as [name |]; [| reflexivity]. simpl. now destruct (name =? "")%string. Qed.

(** The correction formula of the spec, for such a solvent. *)
Lemma modifyPotential_formula (e : EnvironmentSettings.t) (b : float) :
  existsb (String.eqb (EnvironmentSettings.solvent e)) ObjectPrototype = false ->
  returns (modifyPotential log_approx (Num b)) e
    (Number.toFixed (spec_correction (Math.log log_approx) e b) 3).
Proof.
  intros H. unfold returns. rewrite modifyPotential_run. cbn [fst].
  unfold corrected_sum, spec_correction.
  now rewrite (solventFactor_spec _ H), catalystBoost_spec.
Qed.

(** An electrode that is neither in the table nor a property of
    [Object.prototype] is refused. *)
Lemma calculateCellPotential_unknown (w : World) :
  let unknown name :=
    lookup STANDARD_REDUCTION_POTENTIALS name = Undefined in
  unknown (SimulationParameters.anode (params w))
  \/ unknown (SimulationParameters.cathode (params w)) ->
  fst (calculateCellPotential log_approx w) = Throw invalid_electrodes.
Proof.
  intros unknown H. destruct w as [t p c]. cbn [params] in H.
  rewrite calculateCellPotential_run.
  destruct H as [-> | ->]; cbn [ToBoolean negb orb]; [reflexivity |].
  now rewrite orb_true_r.
Qed.
(** Such is every name that is neither a key of the table nor a property
    of [Object.prototype]. *)
Lemma lookup_unknown (properties : list (string * value)) (name : string) :
  own_property properties name = None ->
  existsb (String.eqb name) ObjectPrototype = false ->
  lookup (Object properties) name = Undefined.
Proof. intros Hown Hproto. unfold lookup, inherited. rewrite Hown, Hproto. reflexivity. Qed.

(** An anode "Xx": the error is thrown and logged, nothing else changes. *)
Example calculateCellPotential_Xx :
  let e := EnvironmentSettings.new 25 1.0 "Water" None 7 in
  let p := SimulationParameters.new "Xx" "Cu" 1.0 1.0 1.0 e in
  calculateCellPotential log_approx (call e p)
  = (Throw invalid_electrodes,
     mkWorld (AdvancedElectrochemicalCell.new e) p
       [("Cell potential calculation error:", invalid_electrodes)]).
Proof. vm_compute. reflexivity. Qed.
End Runs.

(** ** The claims *)

Local Open Scope float_scope.



(** C2 at its failing input: a solvent named "constructor" is not in the
    table of solvent factors, yet [solventFactors[this.solvent]] finds
    [Object.prototype.constructor], which is truthy, so the default 1.0 is
    not taken and the sum is [NaN]; the spec's formula gives -0.760. *)
Theorem modifyPotential_inherited_solvent (log_approx : float -> float) :
  let e := EnvironmentSettings.new 25 1.0 "constructor" None 7 in
  returns (modifyPotential log_approx (Num (-0.76))) e "NaN"
  /\ Number.toFixed (spec_correction (Math.log log_approx) e (-0.76)) 3 = "-0.760".
Proof. apply conj; vm_compute; reflexivity. Qed.

(** C3.  Zinc and copper at 1 M each, 25 degrees Celsius, 1 atm, water, no
    catalyst, pH 7: the corrected potentials are -0.760 and 0.340, which
    parse back to the standard potentials, and the cell potential is
    1.1000. *)
Theorem reference_case (log_approx : float -> float) :
  let e := EnvironmentSettings.new 25 1.0 "Water" None 7 in
  let p := SimulationParameters.new "Zn" "Cu" 1.0 1.0 1.0 e in
  tabled "Zn" (-0.76) /\ tabled "Cu" 0.34
  /\ returns (modifyPotential log_approx (Num (-0.76))) e "-0.760"
  /\ returns (modifyPotential log_approx (Num 0.34)) e "0.340"
  /\ Number.parseFloat "-0.760" = -0.76
  /\ Number.parseFloat "0.340" = 0.34
  /\ returns (calculateCellPotential log_approx) (call e p) "1.1000".
Proof. repeat apply conj; intros; vm_compute; reflexivity. Qed.

(** C4 at its failing input: "constructor" is no key of the table, yet
    [STANDARD_REDUCTION_POTENTIALS[params.anode]] finds
    [Object.prototype.constructor], the guard passes, the potential is
    [undefined] and the method returns the text "NaN" instead of throwing. *)
Theorem calculateCellPotential_inherited_electrode (log_approx : float -> float) :
  let e := EnvironmentSettings.new 25 1.0 "Water" None 7 in
  let p := SimulationParameters.new "constructor" "Cu" 1.0 1.0 1.0 e in
  (forall pot, ~ tabled "constructor" pot)
  /\ calculateCellPotential log_approx (call e p) = (Normal "NaN", call e p).
Proof.
  split.
  - intros pot H. vm_compute in H. discriminate H.
  - vm_compute. reflexivity.
Qed.

(** C5.  With both electrodes in the table and a cathode concentration equal
    to zero, [calculateCellPotential] throws "Cathode concentration cannot be
    zero" and returns nothing. *)
Theorem calculateCellPotential_zero_cathode (log_approx : float -> float) (w : World)
    (pa pc : float) :
  tabled (SimulationParameters.anode (params w)) pa ->
  tabled (SimulationParameters.cathode (params w)) pc ->
  (SimulationParameters.concCathode (params w) =? 0) = true ->
  fst (calculateCellPotential log_approx w)
  = Throw (mkError "Error" "Cathode concentration cannot be zero").
Proof.
  intros Ha Hc Hz.
  rewrite (calculateCellPotential_tabled _ _ _ _ Ha Hc), Hz. reflexivity.
Qed.

(** C5 at zinc and copper with no cathode ions. *)
Lemma calculateCellPotential_zero_cathode_witness :
  fst (calculateCellPotential Math.log_series
         (call (reference None 7)
            (SimulationParameters.new "Zn" "Cu" 1.0 0 1.0 (reference None 7))))
  = Throw (mkError "Error" "Cathode concentration cannot be zero").
Proof.
  apply (calculateCellPotential_zero_cathode Math.log_series
           (call (reference None 7)
              (SimulationParameters.new "Zn" "Cu" 1.0 0 1.0 (reference None 7)))
           (-0.76) 0.34);
    vm_compute; reflexivity.
Defined.

(** The catalyst counts through its truth value only. *)
Lemma modifyPotential_catalyst (log_approx : float -> float) (b : value)
    (e : EnvironmentSettings.t) (c : option string) :
  modifyPotential log_approx b (with_catalyst e c)
  = (Normal
       (Number.toFixed
          (ToNumber b * ((EnvironmentSettings.temperature e + 273.15) / 298.15)
             * ToNumber (or_else (lookup solventFactors (EnvironmentSettings.solvent e))
                           (Num 1.0))
           + Math.log log_approx (EnvironmentSettings.pressure e) * 0.01
           + -0.059 * (EnvironmentSettings.ph e - 7)
           + (if truthy c then 0.05 else 0.0)) 3),
     with_catalyst e c).
Proof. reflexivity. Qed.

Lemma truthy_name (c : string) : c <> ""%string -> truthy (Some c) = true.
Proof.
  intros H. unfold truthy. destruct (String.eqb_spec c ""); [contradiction | reflexivity].
Qed.

(** C6, refuted as stated: potassium in methanol at 25 degrees Celsius, 1 atm
    and pH 1 is corrected to -2.429 without a catalyst and to -2.380 with
    platinum, 0.049 more and not 0.05. *)
Lemma catalyst_boost_counterexample :
  let e := EnvironmentSettings.new 25 1.0 "Methanol" None 1 in
  tabled "K" (-2.93)
  /\ (forall log_approx,
        returns (modifyPotential log_approx (Num (-2.93))) e "-2.429")
  /\ (forall log_approx,
        returns (modifyPotential log_approx (Num (-2.93))) (with_catalyst e (Some "Pt"))
          "-2.380")
  /\ differ_by "-2.429" "-2.380" 49
  /\ ~ differ_by "-2.429" "-2.380" 50.
Proof.
  repeat apply conj; intros; try (vm_compute; reflexivity).
  - exists (-2429)%Z, (-2380)%Z. repeat apply conj; vm_compute; reflexivity.
  - intros (n0 & n1 & H0 & H1 & H). vm_compute in H0, H1.
    injection H0 as <-. injection H1 as <-. discriminate H.
Qed.

(** C6, amended.  Any two catalyst names give the same corrected value; a
    catalyst adds 0.05 to the sum before it is rounded to three decimals, no
    catalyst adds 0.0 to the same sum; and for every potential of the table
    under the reference conditions (25 degrees Celsius, 1 atm, water) at an
    integer pH from 0 to 14 the rounded value with a catalyst is exactly
    0.050 above the one without. *)
Theorem catalyst_boost (log_approx : float -> float) (c1 c2 : string) :
  c1 <> ""%string -> c2 <> ""%string ->
  (forall b e,
     modifyPotential log_approx b (with_catalyst e (Some c1))
     = (fst (modifyPotential log_approx b (with_catalyst e (Some c2))),
        with_catalyst e (Some c1)))
  /\ (forall b e, exists x,
        returns (modifyPotential log_approx b) (with_catalyst e None)
          (Number.toFixed (x + 0.0) 3)
        /\ returns (modifyPotential log_approx b) (with_catalyst e (Some c1))
             (Number.toFixed (x + 0.05) 3))
  /\ (forall name pot ph s0 s1,
        tabled name pot -> In ph integer_pH ->
        returns (modifyPotential log_approx (Num pot)) (reference None ph) s0 ->
        returns (modifyPotential log_approx (Num pot)) (reference (Some c1) ph) s1 ->
        differ_by s0 s1 50).
Proof.
  intros H1 H2. split; [| split].
  - intros b e. rewrite !modifyPotential_catalyst.
    now rewrite (truthy_name _ H1), (truthy_name _ H2).
  - intros b e. eexists. unfold returns. rewrite !modifyPotential_catalyst.
    rewrite (truthy_name _ H1). cbn [fst truthy]. split; reflexivity.
  - intros name pot ph s0 s1 Ht Hph R0 R1. unfold returns in R0, R1.
    change (reference (Some c1) ph) with (with_catalyst (reference None ph) (Some c1)) in R1.
    rewrite modifyPotential_catalyst in R1. rewrite (truthy_name _ H1) in R1.
    apply tabled_cases in Ht. unfold integer_pH in Hph. cbn [In] in Ht, Hph.
    repeat (destruct Ht as [[= <- <-] | Ht]; [| try contradiction]);
    repeat (destruct Hph as [<- | Hph]; [| try contradiction]);
    vm_compute in R0, R1; injection R0 as <-; injection R1 as <-;
    eexists; eexists; (split; [vm_compute; reflexivity |]);
    (split; [vm_compute; reflexivity |]); reflexivity.
Qed.

(** C6 amended, with platinum and nickel. *)
Lemma catalyst_boost_witness :
  differ_by "-0.760" "-0.710" 50.
Proof.
  apply (proj2 (proj2 (catalyst_boost Math.log_series "Pt" "Ni"
                         ltac:(discriminate) ltac:(discriminate)))
           "Zn" (-0.76) 7 "-0.760" "-0.710");
    vm_compute; try reflexivity; tauto.
Defined.

(** C7, refuted as stated: potassium in methanol at 25 degrees Celsius and
    1 atm is corrected to -2.371 at pH 0 and to -2.429 at pH 1, a shift of
    -0.058 and not -0.059. *)
Lemma ph_shift_counterexample :
  let e := EnvironmentSettings.new 25 1.0 "Methanol" None 0 in
  tabled "K" (-2.93)
  /\ (forall log_approx,
        returns (modifyPotential log_approx (Num (-2.93))) e "-2.371")
  /\ (forall log_approx,
        returns (modifyPotential log_approx (Num (-2.93)))
          (with_ph e (EnvironmentSettings.ph e + 1)) "-2.429")
  /\ differ_by "-2.371" "-2.429" (-58)
  /\ ~ differ_by "-2.371" "-2.429" (-59).
Proof.
  repeat apply conj; intros; try (vm_compute; reflexivity).
  - exists (-2371)%Z, (-2429)%Z. repeat apply conj; vm_compute; reflexivity.
  - intros (n0 & n1 & H0 & H1 & H). vm_compute in H0, H1.
    injection H0 as <-. injection H1 as <-. discriminate H.
Qed.

(** C7, amended.  Raising the pH by 1 replaces the term [-0.059 * (ph - 7)]
    of the sum by [-0.059 * ((ph + 1) - 7)] and leaves the other terms as
    they are, before the sum is rounded to three decimals; and for every
    potential of the table under the reference conditions (25 degrees
    Celsius, 1 atm, water), with or without a catalyst, raising an integer
    pH from 0 to 14 by 1 shifts the rounded value by exactly -0.059. *)
Theorem ph_shift (log_approx : float -> float) :
  (forall b e, exists u boost,
     returns (modifyPotential log_approx b) e
       (Number.toFixed (u + -0.059 * (EnvironmentSettings.ph e - 7) + boost) 3)
     /\ returns (modifyPotential log_approx b) (with_ph e (EnvironmentSettings.ph e + 1))
          (Number.toFixed (u + -0.059 * (EnvironmentSettings.ph e + 1 - 7) + boost) 3))
  /\ (forall name pot ph c s0 s1,
        tabled name pot -> In ph integer_pH ->
        returns (modifyPotential log_approx (Num pot)) (reference c ph) s0 ->
        returns (modifyPotential log_approx (Num pot)) (reference c (ph + 1)) s1 ->
        differ_by s0 s1 (-59)).
Proof.
  split.
  - intros b e. do 2 eexists. unfold returns. rewrite !modifyPotential_run.
    cbn [fst]. unfold corrected_sum, with_ph.
    cbn [EnvironmentSettings.temperature EnvironmentSettings.pressure
         EnvironmentSettings.solvent EnvironmentSettings.catalyst EnvironmentSettings.ph].
    split; reflexivity.
  - intros name pot ph c s0 s1 Ht Hph R0 R1. unfold returns in R0, R1.
    change (reference c ph) with (with_catalyst (reference None ph) c) in R0.
    change (reference c (ph + 1)) with (with_catalyst (reference None (ph + 1)) c) in R1.
    rewrite modifyPotential_catalyst in R0, R1.
    apply tabled_cases in Ht. unfold integer_pH in Hph. cbn [In] in Ht, Hph.
    destruct (truthy c);
    repeat (destruct Ht as [[= <- <-] | Ht]; [| try contradiction]);
    repeat (destruct Hph as [<- | Hph]; [| try contradiction]);
    vm_compute in R0, R1; injection R0 as <-; injection R1 as <-;
    eexists; eexists; (split; [vm_compute; reflexivity |]);
    (split; [vm_compute; reflexivity |]); reflexivity.
Qed.

(** C7 amended, at zinc from pH 7 to pH 8. *)
Lemma ph_shift_witness :
  differ_by "-0.760" "-0.819" (-59).
Proof.
  apply (proj2 (ph_shift Math.log_series) "Zn" (-0.76) 7 None "-0.760" "-0.819");
    vm_compute; try reflexivity; tauto.
Defined.

(** C8, refuted as stated: at a temperature of 1e30 degrees Celsius, with
    zinc and copper at 1 M, 1 atm, water and pH 7, the corrected potential
    of zinc and the cell potential are of magnitude above [10 ^ 21], where
    [toFixed] answers in exponent notation. *)
Lemma decimal_places_counterexample :
  let e := EnvironmentSettings.new 1e30 1.0 "Water" None 7 in
  let p := SimulationParameters.new "Zn" "Cu" 1.0 1.0 1.0 e in
  tabled "Zn" (-0.76) /\ tabled "Cu" 0.34
  /\ (SimulationParameters.concCathode p =? 0) = false
  /\ (0 <? EnvironmentSettings.pressure e) = true
  /\ (forall log_approx,
        returns (modifyPotential log_approx (Num (-0.76))) e "-2.549052490357203e+27")
  /\ (forall log_approx,
        returns (calculateCellPotential log_approx) (call e p) "3.6894180781485835e+27")
  /\ decimal_places "-2.549052490357203e+27" = None
  /\ decimal_places "3.6894180781485835e+27" = None.
Proof. repeat apply conj; intros; vm_compute; reflexivity. Qed.

(** C8, amended.  With both electrodes in the table and a cathode
    concentration that is not zero, the cell potential returned has exactly
    four decimal places whenever the sum it rounds is finite and below
    [10 ^ 21] in magnitude, and a corrected half-cell potential has exactly
    three whenever the sum it rounds is. *)
Theorem decimal_places_in_fixed_range (log_approx : float -> float) (w : World)
    (pa pc : float) :
  let env := AdvancedElectrochemicalCell.environment (this w) in
  tabled (SimulationParameters.anode (params w)) pa ->
  tabled (SimulationParameters.cathode (params w)) pc ->
  (SimulationParameters.concCathode (params w) =? 0) = false ->
  (fixed_range (cell_sum log_approx w) = true ->
   exists s, returns (calculateCellPotential log_approx) w s
             /\ decimal_places s = Some 4%nat)
  /\ (forall b, fixed_range (corrected_sum log_approx env b) = true ->
      exists s, returns (modifyPotential log_approx b) env s
                /\ decimal_places s = Some 3%nat).
Proof.
  intros env Ha Hc Hz. split.
  - intros Hr. eexists. split.
    + unfold returns. rewrite (calculateCellPotential_tabled _ _ _ _ Ha Hc), Hz.
      reflexivity.
    + apply toFixed_decimal_places, Hr.
  - intros b Hr. eexists. split.
    + unfold returns. rewrite modifyPotential_run. reflexivity.
    + apply toFixed_decimal_places, Hr.
Qed.

(** C8 amended, at zinc and copper with anode concentration 0.5 M. *)
Lemma decimal_places_in_fixed_range_witness :
  exists s,
    returns (calculateCellPotential Math.log_series)
      (call (reference None 7)
         (SimulationParameters.new "Zn" "Cu" 0.5 1.0 1.0 (reference None 7))) s
    /\ decimal_places s = Some 4%nat.
Proof.
  apply (proj1 (decimal_places_in_fixed_range Math.log_series
                  (call (reference None 7)
                     (SimulationParameters.new "Zn" "Cu" 0.5 1.0 1.0 (reference None 7)))
                  (-0.76) 0.34
                  ltac:(vm_compute; reflexivity) ltac:(vm_compute; reflexivity)
                  ltac:(vm_compute; reflexivity)));
    vm_compute; reflexivity.
Defined.

(** C9.  Neither method changes a field of the objects it reaches:
    [modifyPotential] leaves its [EnvironmentSettings] as it was,
    [calculateCellPotential] leaves the engine and the parameters as they
    were and only adds to the console when it throws; its completion is a
    function of the engine and the parameters, so a second invocation gives
    the completion of the first. *)
Theorem calculateCellPotential_deterministic (log_approx : float -> float) :
  (forall b, env_readonly (modifyPotential log_approx b))
  /\ readonly (calculateCellPotential log_approx)
  /\ (forall w,
        let w' := snd (calculateCellPotential log_approx w) in
        this w' = this w /\ params w' = params w
        /\ fst (calculateCellPotential log_approx w')
           = fst (calculateCellPotential log_approx w)).
Proof.
  assert (readonly (calculateCellPotential log_approx)) as RO.
  { intros t p.
    destruct (negb (ToBoolean (lookup STANDARD_REDUCTION_POTENTIALS
                                 (SimulationParameters.anode p)))
              || negb (ToBoolean (lookup STANDARD_REDUCTION_POTENTIALS
                                    (SimulationParameters.cathode p)))) eqn:Ei;
      [| destruct (SimulationParameters.concCathode p =? 0) eqn:Ez ].
    - do 2 eexists. intros c. rewrite calculateCellPotential_run, Ei. reflexivity.
    - do 2 eexists. intros c. rewrite calculateCellPotential_run, Ei, Ez. reflexivity.
    - exists (Normal (Number.toFixed (cell_sum log_approx (mkWorld t p [])) 4)), [].
      intros c. rewrite calculateCellPotential_run, Ei, Ez, app_nil_r. reflexivity. }
  split; [| split].
  - intros b e. rewrite modifyPotential_run. reflexivity.
  - exact RO.
  - intros [t p c]. destruct (RO t p) as (r & log & H).
    cbv zeta. rewrite !H. cbn [fst snd this params]. rewrite H. auto.
Qed.

(** C10.  The environment held by the parameters is never read: replacing it
    by any other leaves the completion of [calculateCellPotential] as it
    was. *)
Theorem calculateCellPotential_ignores_params_environment (log_approx : float -> float)
    (w : World) (e : EnvironmentSettings.t) :
  fst (calculateCellPotential log_approx
         (mkWorld (this w) (with_environment (params w) e) (console w)))
  = fst (calculateCellPotential log_approx w).
Proof.
  destruct w as [t p c]. cbn [this params console].
  rewrite !calculateCellPotential_run. unfold with_environment, cell_sum.
  cbn [this params SimulationParameters.anode SimulationParameters.cathode
       SimulationParameters.concAnode SimulationParameters.concCathode].
  destruct (negb (ToBoolean (lookup STANDARD_REDUCTION_POTENTIALS
                               (SimulationParameters.anode p)))
            || negb (ToBoolean (lookup STANDARD_REDUCTION_POTENTIALS
                                  (SimulationParameters.cathode p))));
    [reflexivity |].
  destruct (SimulationParameters.concCathode p =? 0); reflexivity.
Qed.


(** * More of the script *)

(** ** Facts on binary64 *)

Lemma Prim2SF_nan : Prim2SF nan = S754_nan.
Proof. reflexivity. Qed.

Lemma eq_nan (x : float) : Prim2SF x = S754_nan -> x = nan.
Proof. intros H. apply Prim2SF_inj. now rewrite H. Qed.

Lemma add_nan_l (y : float) : nan + y = nan.
Proof. apply eq_nan. rewrite add_spec, Prim2SF_nan. reflexivity. Qed.

Lemma add_nan_r (x : float) : x + nan = nan.
Proof. apply eq_nan. rewrite add_spec, Prim2SF_nan. now destruct (Prim2SF x) as [ [] | [] | | ]. Qed.

Lemma sub_nan_l (y : float) : nan - y = nan.
Proof. apply eq_nan. rewrite sub_spec, Prim2SF_nan. reflexivity. Qed.

Lemma sub_nan_r (x : float) : x - nan = nan.
Proof. apply eq_nan. rewrite sub_spec, Prim2SF_nan. now destruct (Prim2SF x) as [ [] | [] | | ]. Qed.

Lemma mul_nan_l (y : float) : nan * y = nan.
Proof. apply eq_nan. rewrite mul_spec, Prim2SF_nan. reflexivity. Qed.

Lemma mul_nan_r (x : float) : x * nan = nan.
Proof. apply eq_nan. rewrite mul_spec, Prim2SF_nan. now destruct (Prim2SF x) as [ [] | [] | | ]. Qed.

Lemma div_nan_l (y : float) : nan / y = nan.
Proof. apply eq_nan. rewrite div_spec, Prim2SF_nan. reflexivity. Qed.

Lemma div_nan_r (x : float) : x / nan = nan.
Proof. apply eq_nan. rewrite div_spec, Prim2SF_nan. now destruct (Prim2SF x) as [ [] | [] | | ]. Qed.

Ltac nan_propagate :=
  repeat first
    [ rewrite add_nan_l | rewrite add_nan_r | rewrite sub_nan_l | rewrite sub_nan_r
    | rewrite mul_nan_l | rewrite mul_nan_r | rewrite div_nan_l | rewrite div_nan_r ].

Lemma SFcompare_refl (x : spec_float) : x <> S754_nan -> SFcompare x x = Some Eq.
Proof.
  destruct x as [ s | s | | s m e ]; try congruence; intros _; cbn.
  - reflexivity.
  - now destruct s.
  - rewrite Z.compare_refl. destruct s; rewrite ?Pos.compare_cont_refl; reflexivity.
Qed.

Lemma is_nan_eq (x : float) : is_nan x = true -> x = nan.
Proof.
  unfold is_nan. rewrite eqb_spec. unfold SFeqb. intros H.
  apply eq_nan. destruct (Prim2SF x) eqn:E; try reflexivity.
  all: rewrite SFcompare_refl in H by discriminate; discriminate H.
Qed.

Lemma log_nan (log_approx : float -> float) : Math.log log_approx nan = nan.
Proof. reflexivity. Qed.

(** [Math.log] of a pressure that is not positive. *)
Lemma log_not_positive (log_approx : float -> float) (p : float) :
  (0 <? p) = false -> unbounded_below (Math.log log_approx p).
Proof.
  intros H. unfold Math.log, unbounded_below.
  destruct (is_nan p) eqn:En; [now left |].
  unfold is_nan in En.
  rewrite ltb_spec in H. rewrite !eqb_spec, ltb_spec. rewrite eqb_spec in En.
  change (Prim2SF 0) with (S754_zero false) in *.
  change (Prim2SF infinity) with (S754_infinity false).
  change (Prim2SF 1) with (S754_finite false 4503599627370496 (-52)).
  destruct (Prim2SF p) as [ s | s | | s m e ]; try destruct s.
  all: lazy beta iota delta [SFeqb SFltb SFcompare negb] in *.
  all: first [ discriminate | left; reflexivity | right; reflexivity ].
Qed.

Lemma unbounded_below_mul (x : float) :
  unbounded_below x -> unbounded_below (x * 0.01).
Proof. intros [-> | ->]; [left; apply mul_nan_l | right; reflexivity]. Qed.

Lemma unbounded_below_add_r (x y : float) :
  unbounded_below y -> unbounded_below (x + y).
Proof.
  intros [-> | ->]; [left; apply add_nan_r |].
  assert (Prim2SF (x + neg_infinity) = S754_nan
          \/ Prim2SF (x + neg_infinity) = S754_infinity true) as [H | H].
  { rewrite add_spec. change (Prim2SF neg_infinity) with (S754_infinity true).
    destruct (Prim2SF x) as [ s | [] | | s m e ]; cbn; auto. }
  - left. now apply eq_nan.
  - right. apply Prim2SF_inj. now rewrite H.
Qed.

Lemma unbounded_below_add_l (x y : float) :
  unbounded_below x -> unbounded_below (x + y).
Proof.
  intros [-> | ->]; [left; apply add_nan_l |].
  assert (Prim2SF (neg_infinity + y) = S754_nan
          \/ Prim2SF (neg_infinity + y) = S754_infinity true) as [H | H].
  { rewrite add_spec. change (Prim2SF neg_infinity) with (S754_infinity true).
    destruct (Prim2SF y) as [ s | [] | | s m e ]; cbn; auto. }
  - left. now apply eq_nan.
  - right. apply Prim2SF_inj. now rewrite H.
Qed.

Lemma unbounded_below_E0 (x : float) :
  unbounded_below x ->
  unbounded_below (Number.parseFloat (Number.toFixed x 3)).
Proof. intros [-> | ->]; [left | right]; vm_compute; reflexivity. Qed.

Lemma unbounded_below_sub (x y : float) :
  unbounded_below x -> unbounded_below y -> x - y = nan.
Proof.
  intros [-> | ->] [-> | ->];
    first [ apply sub_nan_l | apply sub_nan_r | reflexivity ].
Qed.

(** ** Further properties of the engine *)

(** X1.  [calculateCellPotential] ends in one of three ways and never in a
    [TypeError]: it returns a text and leaves the console as it was; or an
    electrode finds nothing truthy in the table and it throws "Invalid
    electrode materials"; or both electrodes find something, the cathode
    concentration is zero and it throws "Cathode concentration cannot be
    zero".  Each throw adds one line to the console.  The electrodes are
    checked first: an invalid electrode is reported even when the cathode
    concentration is zero. *)
Theorem calculateCellPotential_completions (log_approx : float -> float) (w : World) :
  let found name := ToBoolean (lookup STANDARD_REDUCTION_POTENTIALS name) in
  let a := SimulationParameters.anode (params w) in
  let c := SimulationParameters.cathode (params w) in
  let zero := (SimulationParameters.concCathode (params w) =? 0) in
  let logged e :=
    mkWorld (this w) (params w)
      (console w ++ [("Cell potential calculation error:", e)]) in
  (found a && found c = false
   /\ calculateCellPotential log_approx w
      = (Throw (mkError "Error" "Invalid electrode materials"),
         logged (mkError "Error" "Invalid electrode materials")))
  \/ (found a && found c = true /\ zero = true
      /\ calculateCellPotential log_approx w
         = (Throw (mkError "Error" "Cathode concentration cannot be zero"),
            logged (mkError "Error" "Cathode concentration cannot be zero")))
  \/ (found a && found c = true /\ zero = false
      /\ exists text, calculateCellPotential log_approx w = (Normal text, w)).
Proof.
  intros found a c zero logged. destruct w as [t p k].
  subst a c zero logged found. cbn [this params console].
  rewrite calculateCellPotential_run.
  destruct (ToBoolean (lookup STANDARD_REDUCTION_POTENTIALS (SimulationParameters.anode p)));
    destruct (ToBoolean (lookup STANDARD_REDUCTION_POTENTIALS (SimulationParameters.cathode p)));
    cbn [negb orb andb]; try (left; split; reflexivity).
  destruct (SimulationParameters.concCathode p =? 0).
  - right; left. repeat split.
  - right; right. repeat split. eexists. reflexivity.
Qed.

(** A temperature, pressure, pH or concentration that is not a number
    reaches the operand of [toFixed(4)]. *)
Lemma cell_sum_nan (log_approx : float -> float) (w : World) (pa pc : float) :
  let env := AdvancedElectrochemicalCell.environment (this w) in
  let p := params w in
  tabled (SimulationParameters.anode p) pa ->
  tabled (SimulationParameters.cathode p) pc ->
  is_nan (EnvironmentSettings.temperature env) = true
  \/ is_nan (EnvironmentSettings.pressure env) = true
  \/ is_nan (EnvironmentSettings.ph env) = true
  \/ is_nan (SimulationParameters.concAnode p) = true
  \/ is_nan (SimulationParameters.concCathode p) = true ->
  cell_sum log_approx w = nan.
Proof.
  intros env p Ha Hc Hnan.
  unfold cell_sum. fold env p.
  rewrite (tabled_E0 log_approx env _ _ Ha), (tabled_E0 log_approx env _ _ Hc).
  unfold corrected_sum.
  destruct Hnan as [H | [H | [H | [H | H]]]]; apply is_nan_eq in H; rewrite H;
    rewrite ?log_nan; nan_propagate;
    change (Number.parseFloat (Number.toFixed nan 3)) with nan;
    nan_propagate; reflexivity.
Qed.

(** X2.  With both electrodes in the table and a cathode concentration that
    is not zero, a temperature, pressure, pH or concentration that is not a
    number makes [calculateCellPotential] return the text "NaN": nothing is
    thrown. *)
Theorem nan_input_gives_NaN (log_approx : float -> float) (w : World) (pa pc : float) :
  let env := AdvancedElectrochemicalCell.environment (this w) in
  let p := params w in
  tabled (SimulationParameters.anode p) pa ->
  tabled (SimulationParameters.cathode p) pc ->
  (SimulationParameters.concCathode p =? 0) = false ->
  is_nan (EnvironmentSettings.temperature env) = true
  \/ is_nan (EnvironmentSettings.pressure env) = true
  \/ is_nan (EnvironmentSettings.ph env) = true
  \/ is_nan (SimulationParameters.concAnode p) = true
  \/ is_nan (SimulationParameters.concCathode p) = true ->
  returns (calculateCellPotential log_approx) w "NaN".
Proof.
  intros env p Ha Hc Hz Hnan. unfold returns.
  rewrite (calculateCellPotential_tabled _ _ _ _ Ha Hc). fold p. rewrite Hz. cbn [fst].
  rewrite (cell_sum_nan log_approx w pa pc Ha Hc Hnan). vm_compute. reflexivity.
Qed.

(** X2 at zinc and copper with no pH. *)
Lemma nan_input_gives_NaN_witness :
  returns (calculateCellPotential Math.log_series)
    (call (reference None nan)
       (SimulationParameters.new "Zn" "Cu" 1.0 1.0 1.0 (reference None nan)))
    "NaN".
Proof.
  apply (nan_input_gives_NaN Math.log_series
           (call (reference None nan)
              (SimulationParameters.new "Zn" "Cu" 1.0 1.0 1.0 (reference None nan)))
           (-0.76) 0.34);
    try (vm_compute; reflexivity).
  right; right; left. vm_compute. reflexivity.
Defined.

(** X3.  With both electrodes in the table and a cathode concentration that
    is not zero, a pressure that is not positive (zero, negative or not a
    number) makes [calculateCellPotential] return the text "NaN": the engine
    has no guard on the pressure. *)
Theorem pressure_not_positive_gives_NaN (log_approx : float -> float) (w : World)
    (pa pc : float) :
  let env := AdvancedElectrochemicalCell.environment (this w) in
  let p := params w in
  tabled (SimulationParameters.anode p) pa ->
  tabled (SimulationParameters.cathode p) pc ->
  (SimulationParameters.concCathode p =? 0) = false ->
  (0 <? EnvironmentSettings.pressure env) = false ->
  returns (calculateCellPotential log_approx) w "NaN".
Proof.
  intros env p Ha Hc Hz Hp. unfold returns.
  rewrite (calculateCellPotential_tabled _ _ _ _ Ha Hc). fold p. rewrite Hz. cbn [fst].
  assert (cell_sum log_approx w = nan) as ->; [| vm_compute; reflexivity].
  unfold cell_sum. fold env p.
  rewrite (tabled_E0 log_approx env _ _ Ha), (tabled_E0 log_approx env _ _ Hc).
  assert (forall b, unbounded_below
                      (Number.parseFloat (Number.toFixed (corrected_sum log_approx env b) 3)))
    as HE.
  { intros b. apply unbounded_below_E0. unfold corrected_sum.
    apply unbounded_below_add_l, unbounded_below_add_l, unbounded_below_add_r,
      unbounded_below_mul, log_not_positive, Hp. }
  rewrite (unbounded_below_sub _ _ (HE (Num pc)) (HE (Num pa))).
  apply sub_nan_l.
Qed.

(** X3 at zinc and copper under no pressure. *)
Lemma pressure_not_positive_gives_NaN_witness :
  returns (calculateCellPotential Math.log_series)
    (call (EnvironmentSettings.new 25 0 "Water" None 7)
       (SimulationParameters.new "Zn" "Cu" 1.0 1.0 1.0
          (EnvironmentSettings.new 25 0 "Water" None 7)))
    "NaN".
Proof.
  apply (pressure_not_positive_gives_NaN Math.log_series
           (call (EnvironmentSettings.new 25 0 "Water" None 7)
              (SimulationParameters.new "Zn" "Cu" 1.0 1.0 1.0
                 (EnvironmentSettings.new 25 0 "Water" None 7)))
           (-0.76) 0.34);
    vm_compute; reflexivity.
Defined.

(** X4.  Under the reference conditions (25 degrees Celsius, 1 atm, water, no
    catalyst, pH 7) the correction is the identity on every potential of the
    table, and for any two electrodes of the table at 1 M each the cell
    potential is the difference of their standard potentials, to four
    decimals. *)
Theorem standard_conditions (log_approx : float -> float) (a c : string) (pa pc m : float)
    (e : EnvironmentSettings.t) :
  tabled a pa -> tabled c pc ->
  (exists text, returns (modifyPotential log_approx (Num pa)) (reference None 7) text
                /\ Number.parseFloat text = pa)
  /\ returns (calculateCellPotential log_approx)
       (call (reference None 7) (SimulationParameters.new a c 1.0 1.0 m e))
       (Number.toFixed (pc - pa) 4).
Proof.
  intros Ha Hc. split.
  - apply tabled_cases in Ha. cbn [In] in Ha.
    repeat (destruct Ha as [[= <- <-] | Ha]; [| try contradiction]);
      eexists; (split; [vm_compute; reflexivity | vm_compute; reflexivity]).
  - unfold returns.
    rewrite (calculateCellPotential_tabled log_approx _ pa pc) by assumption.
    cbn [params call SimulationParameters.concCathode].
    change (1.0 =? 0) with false. cbn [fst]. f_equal.
    apply tabled_cases in Ha. apply tabled_cases in Hc. cbn [In] in Ha, Hc.
    repeat (destruct Ha as [[= <- <-] | Ha]; [| try contradiction]);
    repeat (destruct Hc as [[= <- <-] | Hc]; [| try contradiction]);
    vm_compute; reflexivity.
Qed.

(** X4 at lead and silver. *)
Lemma standard_conditions_witness :
  returns (calculateCellPotential Math.log_series)
    (call (reference None 7)
       (SimulationParameters.new "Pb" "Ag" 1.0 1.0 1.0 (reference None 7)))
    (Number.toFixed (0.80 - -0.13) 4).
Proof.
  apply (proj2 (standard_conditions Math.log_series "Pb" "Ag" (-0.13) 0.80 1.0
                  (reference None 7)
                  ltac:(vm_compute; reflexivity) ltac:(vm_compute; reflexivity))).
Defined.

(** ** Texts *)

Lemma append_same_length (a a' b b' : string) :
  String.length a = String.length a' -> (a ++ b = a' ++ b')%string -> a = a'.
Proof.
  revert a'. induction a as [| x a IH]; intros [| y a'] Hlen H; cbn in *;
    try discriminate; [reflexivity |].
  injection H as -> H. f_equal. apply IH; [lia | exact H].
Qed.

(** The text of a half-reaction names its electrode. *)
Lemma half_reaction_names (k : string) (a a' : string) :
  (a ++ k ++ a = a' ++ k ++ a')%string -> a = a'.
Proof.
  intros H. apply (append_same_length a a' (k ++ a) (k ++ a')); [| exact H].
  apply (f_equal String.length) in H. rewrite !length_app in H. lia.
Qed.

(** X5.  The texts of [getHalfReactions] determine the two electrodes: equal
    texts come from equal anodes and equal cathodes. *)
Theorem getHalfReactions_names (anode cathode anode' cathode' : string) :
  getHalfReactions anode cathode = getHalfReactions anode' cathode' ->
  anode = anode' /\ cathode = cathode'.
Proof.
  unfold getHalfReactions. intros H.
  injection H as Ha Hc _.
  split.
  - apply (half_reaction_names "ⁿ⁺ + n e⁻ ⇌ "). exact Ha.
  - apply (half_reaction_names "ᵐ⁺ + m e⁻ ⇌ "). exact Hc.
Qed.

(** X5 at zinc and copper. *)
Lemma getHalfReactions_names_witness : "Zn"%string = "Zn"%string /\ "Cu"%string = "Cu"%string.
Proof. apply (getHalfReactions_names "Zn" "Cu" "Zn" "Cu"). reflexivity. Defined.

Lemma append_assoc (a b c : string) : ((a ++ b) ++ c = a ++ (b ++ c))%string.
Proof. induction a as [| x a IH]; cbn; [reflexivity | now rewrite IH]. Qed.

Lemma superscript_app (a b : string) :
  superscript (a ++ b) = (superscript a ++ superscript b)%string.
Proof.
  induction a as [| c a IH]; [reflexivity |].
  cbn [append superscript]. rewrite IH.
  now rewrite append_assoc.
Qed.

(** What a character is mapped to is left as it is by a second pass. *)
Lemma superscript_mapped (char : ascii) :
  let mapped :=
    match indexOf "0123456789+-" char with
    | Some i => nth i superscripts (String char EmptyString)
    | None => String char EmptyString
    end in
  superscript mapped = mapped.
Proof.
  destruct char as [[] [] [] [] [] [] [] []]; vm_compute; reflexivity.
Qed.

(** X6.  [superscript] is idempotent, and it leaves a text without digits,
    "+" and "-" as it is. *)
Theorem superscript_idempotent (text : string) :
  superscript (superscript text) = superscript text
  /\ ((forall char, In char (list_ascii_of_string text) ->
         indexOf "0123456789+-" char = None) ->
      superscript text = text).
Proof.
  split.
  - induction text as [| c text IH]; [reflexivity |].
    cbn [superscript]. rewrite superscript_app, IH.
    now rewrite (superscript_mapped c).
  - induction text as [| c text IH]; [reflexivity |].
    intros H. cbn [superscript].
    rewrite (H c) by (left; reflexivity).
    rewrite IH by (intros d Hd; apply H; right; exact Hd). reflexivity.
Qed.

(** ** The page *)

Lemma find_update (id id' : string) (f : Element.t -> Element.t)
    (l : list (string * Element.t)) :
  Page.find id (Page.update id' f l)
  = if (id' =? id)%string then option_map f (Page.find id l) else Page.find id l.
Proof.
  induction l as [| [i e] l IH]; cbn [Page.find Page.update].
  - now destruct (id' =? id)%string.
  - destruct (String.eqb_spec i id') as [-> | Hi].
    + cbn [Page.find]. destruct (String.eqb_spec id' id) as [-> | Hne]; [reflexivity |].
      reflexivity.
    + cbn [Page.find]. destruct (String.eqb_spec i id) as [-> | Hne].
      * destruct (String.eqb_spec id' id) as [-> | _]; [congruence | reflexivity].
      * exact IH.
Qed.

Lemma find_update_same (id : string) (f : Element.t -> Element.t)
    (l : list (string * Element.t)) (e : Element.t) :
  Page.find id l = Some e -> Page.find id (Page.update id f l) = Some (f e).
Proof. intros H. now rewrite find_update, String.eqb_refl, H. Qed.

Lemma update_update (id : string) (f g : Element.t -> Element.t)
    (l : list (string * Element.t)) :
  Page.update id g (Page.update id f l) = Page.update id (fun e => g (f e)) l.
Proof.
  induction l as [| [i e] l IH]; cbn [Page.update]; [reflexivity |].
  destruct (i =? id)%string eqn:E; cbn [Page.update]; rewrite E; [reflexivity |].
  now rewrite IH.
Qed.

Lemma update_ext (id : string) (f g : Element.t -> Element.t)
    (l : list (string * Element.t)) :
  (forall e, f e = g e) -> Page.update id f l = Page.update id g l.
Proof.
  intros H. induction l as [| [i e] l IH]; cbn [Page.update]; [reflexivity |].
  destruct (i =? id)%string; [now rewrite H | now rewrite IH].
Qed.

(** The operations on an element that is there. *)
Lemma getElementById_run (id : string) (pg : Page.t) (e : Element.t) :
  element pg id = Some e -> Page.getElementById id pg = (Normal (Some id), pg).
Proof. unfold element, Page.getElementById, read. now intros ->. Qed.

Lemma get_run {A} (id : string) (property : Element.t -> A) (pg : Page.t) (e : Element.t) :
  element pg id = Some e -> Page.get (Some id) property pg = (Normal (property e), pg).
Proof. unfold element, Page.get. now intros ->. Qed.

Lemma set_run (id : string) (assign : Element.t -> Element.t) (pg : Page.t) (e : Element.t) :
  element pg id = Some e ->
  Page.set (Some id) assign pg
  = (Normal tt,
     Page.new (Page.update id assign (Page.elements pg)) (Page.console pg) (Page.alerts pg)).
Proof. unfold element, Page.set. now intros ->. Qed.

(** [validateInput] on an input that is there: the outcome, and the one
    property it writes. *)
Lemma validateInput_run (id : string) (min max : float) (name : string) (pg : Page.t)
    (e : Element.t) :
  element pg id = Some e ->
  validateInput (Some id) min max name pg
  = let ok := in_range (Number.parseFloat (Element.value e)) min max in
    (Normal ok,
     Page.new
       (Page.update id
          (Element.setCustomValidity
             (if ok then EmptyString
              else (name ++ " must be between " ++ Number.toString min ++ " and "
                    ++ Number.toString max)%string))
          (Page.elements pg))
       (Page.console pg) (Page.alerts pg)).
Proof.
  intros H. unfold validateInput, bind. rewrite (get_run _ _ _ _ H).
  unfold in_range.
  destruct (is_nan _ || _ || _); cbn [negb]; rewrite (set_run _ _ _ _ H); reflexivity.
Qed.

(** ** [parseFloat] and the text after a number *)

Lemma take_digits_all (ds rest : string) :
  all_digits ds = true -> stops rest = true ->
  forall acc count,
    Number.take_digits (ds ++ rest) acc count
    = (fst (fst (Number.take_digits ds acc count)),
       (count + Z.of_nat (String.length ds))%Z, rest).
Proof.
  intros Hds Hrest. induction ds as [| c ds IH]; intros acc count.
  - cbn [append String.length Z.of_nat Number.take_digits fst]. rewrite Z.add_0_r.
    destruct rest as [| d r]; [reflexivity |].
    cbn [stops] in Hrest. cbn [Number.take_digits].
    destruct (Number.is_digit d); [discriminate Hrest | reflexivity].
  - cbn [all_digits] in Hds. apply andb_true_iff in Hds as [Hc Hds].
    cbn [append Number.take_digits]. rewrite Hc, (IH Hds).
    cbn [String.length]. f_equal. f_equal. lia.
Qed.

Lemma append_nil_r (s : string) : (s ++ "")%string = s.
Proof. induction s as [| c s IH]; cbn; [reflexivity | now rewrite IH]. Qed.

Lemma take_digits_end (ds : string) :
  all_digits ds = true ->
  forall acc count,
    Number.take_digits ds acc count
    = (fst (fst (Number.take_digits ds acc count)),
       (count + Z.of_nat (String.length ds))%Z, EmptyString).
Proof.
  intros Hds acc count.
  pose proof (take_digits_all ds "" Hds eq_refl acc count) as H.
  rewrite append_nil_r in H. exact H.
Qed.

Lemma digit_starts (c : ascii) (s : string) :
  Number.is_digit c = true ->
  Number.take_sign (Number.trim_start (String c s)) = (false, String c s)
  /\ String.prefix "Infinity" (String c s) = false.
Proof.
  intros H.
  destruct c as [[] [] [] [] [] [] [] []]; try discriminate H;
    (split; [| reflexivity]); destruct s as [| c1 [| c2 s]]; reflexivity.
Qed.

(** A run of digits followed by a text that stops the number is read as the
    run alone. *)
Lemma parseFloat_digits_then (ds rest : string) :
  ds <> EmptyString -> all_digits ds = true -> stops rest = true ->
  Number.parseFloat (ds ++ rest) = Number.parseFloat ds.
Proof.
  intros Hne Hds Hrest.
  destruct ds as [| c ds]; [congruence |].
  pose proof Hds as Hc. cbn [all_digits] in Hc. apply andb_true_iff in Hc as [Hc _].
  unfold Number.parseFloat.
  change (String c ds ++ rest)%string with (String c (ds ++ rest)).
  destruct (digit_starts c (ds ++ rest) Hc) as [-> ->].
  destruct (digit_starts c ds Hc) as [-> ->].
  change (String c (ds ++ rest)) with (String c ds ++ rest)%string.
  rewrite (take_digits_all _ _ Hds Hrest).
  rewrite (take_digits_end _ Hds).
  assert ((0 + Z.of_nat (String.length (String c ds)) =? 0)%Z = false) as Hcount
    by (apply Z.eqb_neq; cbn [String.length]; lia).
  rewrite Hcount.
  destruct rest as [| d r]; [reflexivity |].
  cbn [stops] in Hrest.
  destruct d as [[] [] [] [] [] [] [] []]; try discriminate Hrest; reflexivity.
Qed.

(** ** Pages *)

Lemma bind_run {S A B} (m : JS S A) (k : A -> JS S B) (s s' : S) (a : A) :
  m s = (Normal a, s') -> bind m k s = k a s'.
Proof. unfold bind. now intros ->. Qed.

Lemma bind_assoc {S A B C} (m : JS S A) (k : A -> JS S B) (h : B -> JS S C) (s : S) :
  bind (bind m k) h s = bind m (fun x => bind (k x) h) s.
Proof. unfold bind. destruct (m s) as [[a | e] s']; reflexivity. Qed.

Lemma element_assigned (id id' : string) (f : Element.t -> Element.t) (pg : Page.t) :
  element (assigned id f pg) id'
  = if (id =? id')%string then option_map f (element pg id') else element pg id'.
Proof. unfold element, assigned. cbn [Page.elements]. apply find_update. Qed.

Lemma present_assigned (id id' : string) (f : Element.t -> Element.t) (pg : Page.t) :
  element pg id' <> None -> element (assigned id f pg) id' <> None.
Proof.
  rewrite element_assigned. destruct (id =? id')%string; [| trivial].
  destruct (element pg id'); [discriminate | congruence].
Qed.

Lemma getElementById_present (id : string) (pg : Page.t) :
  element pg id <> None -> Page.getElementById id pg = (Normal (Some id), pg).
Proof.
  destruct (element pg id) as [e |] eqn:E; [| congruence].
  intros _. exact (getElementById_run _ _ _ E).
Qed.

Lemma set_assigned (id : string) (f : Element.t -> Element.t) (pg : Page.t) :
  element pg id <> None -> Page.set (Some id) f pg = (Normal tt, assigned id f pg).
Proof.
  destruct (element pg id) as [e |] eqn:E; [| congruence].
  intros _. exact (set_run _ _ _ _ E).
Qed.

Lemma value_of_run (id : string) (pg : Page.t) :
  element pg id <> None -> value_of id pg = (Normal (text pg id), pg).
Proof.
  unfold text. destruct (element pg id) as [e |] eqn:E; [| congruence].
  intros _. unfold value_of.
  rewrite (bind_run _ _ _ _ _ (getElementById_run _ _ _ E)).
  exact (get_run _ _ _ _ E).
Qed.

Lemma assigned_assigned (id : string) (f g : Element.t -> Element.t) (pg : Page.t) :
  assigned id g (assigned id f pg) = assigned id (fun e => g (f e)) pg.
Proof. unfold assigned. cbn [Page.elements Page.console Page.alerts]. now rewrite update_update. Qed.

(** *** Pages that agree but for validation messages *)

Lemma same_but_validity_value (e e' : Element.t) :
  same_but_validity e e' -> Element.value e = Element.value e'.
Proof. intros H. exact (f_equal Element.value H). Qed.

Lemma agree_refl (except : list string) (pg : Page.t) : agree_but_validity except pg pg.
Proof. intros id _. now destruct (element pg id). Qed.

Lemma agree_trans (except : list string) (pg pg' pg'' : Page.t) :
  agree_but_validity except pg pg' -> agree_but_validity except pg' pg'' ->
  agree_but_validity except pg pg''.
Proof.
  intros H H' id Hid. specialize (H id Hid). specialize (H' id Hid).
  destruct (element pg id), (element pg' id), (element pg'' id); try easy.
  unfold same_but_validity in *. congruence.
Qed.

Lemma agree_assigned (except : list string) (id : string) (f : Element.t -> Element.t)
    (pg : Page.t) :
  In id except \/ (forall e, same_but_validity e (f e)) ->
  agree_but_validity except pg (assigned id f pg).
Proof.
  intros H id' Hid'. rewrite element_assigned.
  destruct (String.eqb_spec id id') as [<- | _].
  - destruct H as [H | H]; [contradiction |].
    destruct (element pg id); [apply H | exact I].
  - now destruct (element pg id').
Qed.

Lemma agree_weaken (except : list string) (pg pg' : Page.t) :
  agree_but_validity [] pg pg' -> agree_but_validity except pg pg'.
Proof. intros H id _. apply H. intros []. Qed.

Lemma agree_text (pg pg' : Page.t) (id : string) :
  agree_but_validity [] pg pg' -> text pg' id = text pg id.
Proof.
  intros H. specialize (H id (fun F => F)). unfold text.
  destruct (element pg id), (element pg' id); try easy.
  symmetry. now apply same_but_validity_value.
Qed.

Lemma agree_present (pg pg' : Page.t) (id : string) :
  agree_but_validity [] pg pg' -> element pg id <> None -> element pg' id <> None.
Proof.
  intros H. specialize (H id (fun F => F)).
  destruct (element pg id), (element pg' id); easy.
Qed.

Lemma passes_agree (pg pg' : Page.t) (v : Validation.t) :
  agree_but_validity [] pg pg' -> passes pg' v = passes pg v.
Proof. intros H. unfold passes. now rewrite (agree_text _ _ _ H). Qed.

Lemma bind_eq {S A B} (m : JS S A) (k : A -> JS S B) (s : S) :
  bind m k s = match m s with
               | (Normal a, s') => k a s'
               | (Throw e, s') => (Throw e, s')
               end.
Proof. reflexivity. Qed.

(** *** The checks of the submit handler *)

Lemma validity_same (message : string) (e : Element.t) :
  same_but_validity e (Element.setCustomValidity message e).
Proof. reflexivity. Qed.

Lemma forallb_same {A} (f g : A -> bool) (l : list A) :
  (forall x, f x = g x) -> forallb f l = forallb g l.
Proof. intros H. induction l as [| x l IH]; cbn; [reflexivity | now rewrite H, IH]. Qed.

Lemma find_same {A} (f g : A -> bool) (l : list A) :
  (forall x, f x = g x) -> List.find f l = List.find g l.
Proof. intros H. induction l as [| x l IH]; cbn; [reflexivity | now rewrite H, IH]. Qed.

(** The checks run in order and stop at the first that fails; they write
    validation messages and nothing else. *)
Lemma every_validateInput (vs : list Validation.t) :
  forall pg : Page.t,
    (forall v, In v vs -> element pg (Validation.elem v) <> None) ->
    exists pg1,
      every
        (fun v =>
           bind (Page.getElementById (Validation.elem v))
             (fun input =>
                validateInput input (Validation.min v) (Validation.max v) (Validation.name v)))
        vs pg
      = (Normal (forallb (passes pg) vs), pg1)
      /\ agree_but_validity [] pg pg1
      /\ Page.console pg1 = Page.console pg
      /\ Page.alerts pg1 = Page.alerts pg
      /\ forall v, List.find (fun v => negb (passes pg v)) vs = Some v ->
           option_map Element.validationMessage (element pg1 (Validation.elem v))
           = Some (range_message v).
Proof.
  induction vs as [| v vs IH]; intros pg Hpresent.
  - exists pg. cbn [every forallb List.find]. repeat apply conj; try reflexivity.
    + apply agree_refl.
    + discriminate.
  - assert (element pg (Validation.elem v) <> None) as Hv by (apply Hpresent; now left).
    destruct (element pg (Validation.elem v)) as [e |] eqn:He; [clear Hv | congruence].
    cbn [every forallb List.find].
    cbv beta. rewrite bind_assoc.
    rewrite (bind_run _ _ _ _ _ (getElementById_run _ _ _ He)).
    rewrite (bind_run _ _ _ _ _ (validateInput_run _ _ _ _ _ _ He)).
    assert (passes pg v
            = in_range (Number.parseFloat (Element.value e)) (Validation.min v)
                (Validation.max v)) as Hpass
      by (unfold passes, text; now rewrite He).
    rewrite <- Hpass.
    match goal with
    | |- context [Page.new (Page.update ?id ?f (Page.elements pg)) _ _] =>
        change (Page.new (Page.update id f (Page.elements pg)) (Page.console pg)
                  (Page.alerts pg))
          with (assigned id f pg);
        assert (agree_but_validity [] pg (assigned id f pg)) as Hagree
          by (apply agree_assigned; right; intros x; apply validity_same);
        assert (option_map Element.validationMessage
                  (element (assigned id f pg) id)
                = Some (if passes pg v then EmptyString else range_message v)) as Hmsg
          by (rewrite element_assigned, String.eqb_refl, He; cbn [option_map];
              f_equal; cbn [Element.validationMessage Element.setCustomValidity];
              now destruct (passes pg v));
        set (pg0 := assigned id f pg) in *
    end.
    destruct (passes pg v) eqn:Ev; cbn [negb andb].
    + destruct (IH pg0) as (pg1 & Hrun & Hag & Hcon & Hal & Hfirst).
      { intros u Hu. apply (agree_present _ _ _ Hagree). apply Hpresent. now right. }
      exists pg1. rewrite Hrun.
      assert (forall u, passes pg0 u = passes pg u) as Hsame
        by (intros u; now apply passes_agree).
      repeat apply conj.
      * f_equal. f_equal. apply forallb_same. exact Hsame.
      * now apply (agree_trans _ _ _ _ Hagree).
      * rewrite Hcon. reflexivity.
      * rewrite Hal. reflexivity.
      * intros u Hu. apply Hfirst. rewrite <- Hu. apply find_same. intros x. now rewrite Hsame.
    + exists pg0. unfold ret. repeat apply conj; try reflexivity.
      * exact Hagree.
      * intros u [= <-]. exact Hmsg.
Qed.

(** *** Drawing *)

Lemma drawn_nil (e : Element.t) : drawn [] e = e.
Proof. destruct e. unfold drawn, Element.with_context. cbn. now rewrite app_nil_r. Qed.

Lemma drawn_draw (c : Command) (commands : list Command) (e : Element.t) :
  Element.draw c (drawn commands e) = drawn (commands ++ [c]) e.
Proof.
  unfold Element.draw, drawn, Element.with_context. cbn. now rewrite app_assoc.
Qed.

Lemma update_id (id : string) (l : list (string * Element.t)) :
  Page.update id (drawn []) l = l.
Proof.
  induction l as [| [i e] l IH]; cbn [Page.update]; [reflexivity |].
  destruct (i =? id)%string; [now rewrite drawn_nil | now rewrite IH].
Qed.

Lemma assigned_drawn_nil (id : string) (pg : Page.t) : assigned id (drawn []) pg = pg.
Proof. destruct pg. unfold assigned. cbn. now rewrite update_id. Qed.

Lemma draw_last (id : string) (c : Command) (commands : list Command) (pg : Page.t) :
  element pg id <> None ->
  Page.set (Some id) (Element.draw c) (assigned id (drawn commands) pg)
  = (Normal tt, assigned id (drawn (commands ++ [c])) pg).
Proof.
  intros H. rewrite set_assigned by now apply present_assigned.
  rewrite assigned_assigned. unfold assigned. f_equal. f_equal.
  apply update_ext. intros e. apply drawn_draw.
Qed.

Lemma draw_step {B} (id : string) (c : Command) (commands : list Command) (pg : Page.t)
    (k : unit -> JS Page.t B) :
  element pg id <> None ->
  bind (Page.set (Some id) (Element.draw c)) k (assigned id (drawn commands) pg)
  = k tt (assigned id (drawn (commands ++ [c])) pg).
Proof. intros H. apply bind_run. now apply draw_last. Qed.

Section Drawing.
Variable Math_atan2 : float -> float -> float.
Variable Math_cos Math_sin : float -> float.

(** [drawGalvanicCell] draws on the canvas and touches nothing else: it
    clears the whole canvas first, and writes four texts. *)
Lemma drawGalvanicCell_run (anode cathode E_cell : string) (pg : Page.t) :
  element pg "galvanicCellDiagram" <> None ->
  exists commands,
    drawGalvanicCell Math_atan2 Math_cos Math_sin anode cathode E_cell pg
    = (Normal tt, assigned "galvanicCellDiagram" (drawn commands) pg)
    /\ (forall e, element pg "galvanicCellDiagram" = Some e ->
        hd_error commands = Some (clearRect 0 0 (Element.width e) (Element.height e)))
    /\ labels commands
       = [ (anode ++ " | " ++ anode ++ "n⁺ (Anode)")%string;
           (cathode ++ "m⁺ | " ++ cathode ++ " (Cathode)")%string;
           ("E°cell = " ++ E_cell ++ " V")%string;
           "e⁻"%string ].
Proof.
  intros H. destruct (element pg "galvanicCellDiagram") as [e |] eqn:He; [| congruence].
  unfold drawGalvanicCell, drawArrow.
  rewrite (bind_run _ _ _ _ _ (getElementById_run _ _ _ He)).
  rewrite (bind_run _ _ _ _ _ (get_run _ _ _ _ He)).
  rewrite (bind_run _ _ _ _ _ (get_run _ _ _ _ He)).
  rewrite (bind_run _ _ _ _ _ (get_run _ _ _ _ He)).
  eexists. split; [| split].
  - rewrite <- (assigned_drawn_nil "galvanicCellDiagram" pg) at 1.
    assert (element pg "galvanicCellDiagram" <> None) as Hp by congruence.
    repeat first [ rewrite (draw_step _ _ _ _ _ Hp) | rewrite bind_assoc ].
    rewrite (draw_last _ _ _ _ Hp). cbn [app]. reflexivity.
  - intros e' [= <-]. reflexivity.
  - cbn [labels flat_map app]. 
    repeat apply (f_equal2 (@cons string)); try reflexivity.
Qed.
End Drawing.

(** *** The submit handler *)

(** A concentration that passes its check is not zero. *)
Lemma in_range_not_zero (x : float) : in_range x 0.001 10 = true -> (x =? 0) = false.
Proof.
  unfold in_range. rewrite negb_true_iff, !orb_false_iff. intros [[_ Hlt] _].
  rewrite ltb_spec in Hlt. rewrite eqb_spec.
  destruct (Prim2SF x) as [s | s | | s m e] eqn:E;
    try reflexivity; try (destruct s; reflexivity).
  exfalso. revert Hlt. vm_compute. destruct s; discriminate.
Qed.

Lemma well_formed_validations (pg : Page.t) :
  well_formed pg -> forall v, In v validations -> element pg (Validation.elem v) <> None.
Proof.
  intros H v Hv. apply H. unfold validations in Hv. cbn [In] in Hv.
  decompose [or] Hv; subst; cbn; tauto.
Qed.

Lemma same_but_validity_canvas (e e' : Element.t) :
  same_but_validity e e' ->
  Element.width e = Element.width e' /\ Element.height e = Element.height e'
  /\ Element.context e = Element.context e'.
Proof.
  intros H. repeat apply conj;
    [ exact (f_equal Element.width H) | exact (f_equal Element.height H)
    | exact (f_equal Element.context H) ].
Qed.

Lemma alerts_assigned (id : string) (f : Element.t -> Element.t) (pg : Page.t) :
  Page.alerts (assigned id f pg) = Page.alerts pg.
Proof. reflexivity. Qed.

Lemma console_assigned (id : string) (f : Element.t -> Element.t) (pg : Page.t) :
  Page.console (assigned id f pg) = Page.console pg.
Proof. reflexivity. Qed.

Lemma element_assigned_other (id id' : string) (f : Element.t -> Element.t) (pg : Page.t) :
  (id =? id')%string = false -> element (assigned id f pg) id' = element pg id'.
Proof. intros H. now rewrite element_assigned, H. Qed.

Lemma element_assigned_same (id : string) (f : Element.t -> Element.t) (pg : Page.t) :
  element (assigned id f pg) id = option_map f (element pg id).
Proof. now rewrite element_assigned, String.eqb_refl. Qed.

Lemma classList_add_In (token : string) (e : Element.t) :
  In token (Element.classList (Element.classList_add token e)).
Proof.
  unfold Element.classList_add.
  destruct (existsb (String.eqb token) (Element.classList e)) eqn:E.
  - apply existsb_exists in E as (c & Hc & Heq). apply String.eqb_eq in Heq. now subst.
  - cbn. apply in_or_app. right. now left.
Qed.

Lemma classList_add_same (token : string) (e : Element.t) :
  Element.innerHTML (Element.classList_add token e) = Element.innerHTML e
  /\ Element.context (Element.classList_add token e) = Element.context e.
Proof.
  unfold Element.classList_add.
  now destruct (existsb (String.eqb token) (Element.classList e)).
Qed.

Section Submit.
Variable log_approx : float -> float.
Variable Math_atan2 : float -> float -> float.
Variable Math_cos Math_sin : float -> float.

(** The engine called from a page: the page changes by what is logged. *)
Lemma invoke_calculateCellPotential (cell : AdvancedElectrochemicalCell.t)
    (p : SimulationParameters.t) (pg : Page.t) :
  invoke cell p (calculateCellPotential log_approx) pg
  = if negb (ToBoolean (lookup STANDARD_REDUCTION_POTENTIALS (SimulationParameters.anode p)))
       || negb (ToBoolean (lookup STANDARD_REDUCTION_POTENTIALS (SimulationParameters.cathode p)))
    then (Throw invalid_electrodes,
          Page.new (Page.elements pg)
            (Page.console pg ++ [("Cell potential calculation error:"%string, invalid_electrodes)])
            (Page.alerts pg))
    else if (SimulationParameters.concCathode p =? 0)%float
    then (Throw zero_cathode,
          Page.new (Page.elements pg)
            (Page.console pg ++ [("Cell potential calculation error:"%string, zero_cathode)])
            (Page.alerts pg))
    else (Normal (Number.toFixed (cell_sum log_approx (mkWorld cell p [])) 4), pg).
Proof.
  destruct pg as [els con al]. unfold invoke. rewrite calculateCellPotential_run.
  cbn [Page.elements Page.console Page.alerts].
  destruct (negb _ || negb _); [reflexivity |].
  destruct (SimulationParameters.concCathode p =? 0)%float; reflexivity.
Qed.

Lemma submit_run (pg : Page.t) :
  well_formed pg ->
  let potential :=
    Number.toFixed (cell_sum log_approx (call (environment_of pg) (params_of pg))) 4 in
  let invalid :=
    negb (ToBoolean (lookup STANDARD_REDUCTION_POTENTIALS (text pg "anode")))
    || negb (ToBoolean (lookup STANDARD_REDUCTION_POTENTIALS (text pg "cathode"))) in
  exists pg1 commands,
    agree_but_validity [] pg pg1
    /\ Page.console pg1 = Page.console pg
    /\ Page.alerts pg1 = Page.alerts pg
    /\ (forall v, first_failure pg = Some v ->
          option_map Element.validationMessage (element pg1 (Validation.elem v))
          = Some (range_message v))
    /\ (forall e, element pg "galvanicCellDiagram" = Some e ->
        hd_error commands = Some (clearRect 0 0 (Element.width e) (Element.height e)))
    /\ labels commands
       = [ (text pg "anode" ++ " | " ++ text pg "anode" ++ "n⁺ (Anode)")%string;
           (text pg "cathode" ++ "m⁺ | " ++ text pg "cathode" ++ " (Cathode)")%string;
           ("E°cell = " ++ potential ++ " V")%string;
           "e⁻"%string ]
    /\ submit log_approx Math_atan2 Math_cos Math_sin pg
       = (Normal tt,
          if negb (forallb (passes pg) validations) then
            Page.new (Page.elements pg1)
              (Page.console pg ++ [("Simulation error:"%string, mkError "Error" "Validation failed")])
              (Page.alerts pg ++ ["Error during simulation: Validation failed"%string])
          else if invalid then
            Page.new (Page.elements pg1)
              (Page.console pg
               ++ [("Cell potential calculation error:"%string, invalid_electrodes);
                   ("Simulation error:"%string, invalid_electrodes)])
              (Page.alerts pg ++ ["Error during simulation: Invalid electrode materials"%string])
          else
            assigned "galvanicCellDiagram" (Element.classList_add "visible")
              (assigned "results" (Element.classList_add "visible")
                 (assigned "galvanicCellDiagram" (drawn commands)
                    (assigned "results" (Element.with_innerHTML (results_of pg potential))
                       pg1)))).
Proof.
  intros Hwf potential invalid.
  destruct (every_validateInput validations pg (well_formed_validations pg Hwf))
    as (pg1 & Hrun & Hag & Hcon & Hal & Hmsg).
  assert (forall id, In id submit_ids -> element pg1 id <> None) as Hwf1
    by (intros id Hid; apply (agree_present _ _ _ Hag); now apply Hwf).
  assert (forall id, text pg1 id = text pg id) as Htext
    by (intros id; now apply agree_text).
  destruct (drawGalvanicCell_run Math_atan2 Math_cos Math_sin
              (text pg "anode") (text pg "cathode") potential
              (assigned "results" (Element.with_innerHTML (results_of pg potential)) pg1))
    as (commands & Hdraw & Hclear & Hlabels).
  { apply present_assigned, Hwf1. cbn; tauto. }
  exists pg1, commands. repeat apply conj; try assumption.
  { intros e He. pose proof (Hag "galvanicCellDiagram" (fun F => F)) as Hsame.
    rewrite He in Hsame.
    destruct (element pg1 "galvanicCellDiagram") as [e1 |] eqn:He1; [| contradiction].
    rewrite (Hclear e1)
      by (rewrite element_assigned_other by reflexivity; exact He1).
    destruct (same_but_validity_canvas _ _ Hsame) as (-> & -> & _). reflexivity. }
  unfold submit, try_catch.
  rewrite (bind_run _ _ _ _ _ Hrun).
  destruct (forallb (passes pg) validations) eqn:Hpass; cbn [negb].
  2:{ unfold throw, bind, Page.console_error, Page.alert, message.
      cbn [Page.elements Page.console Page.alerts]. now rewrite Hcon, Hal. }
  assert ((Number.parseFloat (text pg "conc_cathode") =? 0) = false) as Hzero.
  { apply in_range_not_zero. unfold validations in Hpass. cbn [forallb] in Hpass.
    rewrite !andb_true_iff in Hpass. destruct Hpass as (_ & Hc & _). exact Hc. }
  repeat (erewrite bind_run; [| apply value_of_run, Hwf1; cbn; tauto]).
  rewrite !Htext.
  fold (environment_of pg). fold (params_of pg).
  rewrite bind_eq, invoke_calculateCellPotential.
  change (SimulationParameters.anode (params_of pg)) with (text pg "anode").
  change (SimulationParameters.cathode (params_of pg)) with (text pg "cathode").
  change (SimulationParameters.concCathode (params_of pg))
    with (Number.parseFloat (text pg "conc_cathode")).
  fold invalid. rewrite Hzero.
  destruct invalid.
  - unfold bind, Page.console_error, Page.alert, message, invalid_electrodes.
    cbn [Page.elements Page.console Page.alerts]. rewrite Hcon, Hal, <- app_assoc.
    reflexivity.
  - fold (call (environment_of pg) (params_of pg)). fold potential.
    rewrite (bind_run _ _ _ _ _ (getElementById_present _ _ (Hwf1 "results" ltac:(cbn; tauto)))).
    rewrite (bind_run _ _ _ _ _ (set_assigned _ _ _ (Hwf1 "results" ltac:(cbn; tauto)))).
    change (results_html potential _ _) with (results_of pg potential).
    rewrite (bind_run _ _ _ _ _ Hdraw).
    erewrite bind_run;
      [| apply set_assigned; do 2 apply present_assigned; apply Hwf1; cbn; tauto ].
    erewrite bind_run;
      [| apply getElementById_present; do 3 apply present_assigned; apply Hwf1; cbn; tauto ].
    rewrite set_assigned
      by (do 3 apply present_assigned; apply Hwf1; cbn; tauto).
    reflexivity.
Qed.


Lemma first_failure_fails (pg : Page.t) (v : Validation.t) :
  first_failure pg = Some v -> forallb (passes pg) validations = false.
Proof.
  unfold first_failure. intros H. apply find_some in H as [Hin Hv].
  apply negb_true_iff in Hv.
  destruct (forallb (passes pg) validations) eqn:E; [| reflexivity].
  rewrite forallb_forall in E. now rewrite (E v Hin) in Hv.
Qed.

(** X8.  When a check fails on a page that has the elements of the form,
    the submit handler computes nothing: it completes normally, logs one
    error, shows the alert "Error during simulation: Validation failed", and
    leaves every element as it was but for validation messages, so results
    shown earlier stay on the page.  The first field that fails carries the
    message naming its range. *)
Theorem submit_validation_failure (pg : Page.t) (v : Validation.t) :
  well_formed pg ->
  first_failure pg = Some v ->
  exists pg',
    submit log_approx Math_atan2 Math_cos Math_sin pg = (Normal tt, pg')
    /\ Page.alerts pg'
       = (Page.alerts pg ++ ["Error during simulation: Validation failed"%string])%list
    /\ Page.console pg'
       = (Page.console pg
          ++ [("Simulation error:"%string, mkError "Error" "Validation failed")])%list
    /\ agree_but_validity [] pg pg'
    /\ option_map Element.validationMessage (element pg' (Validation.elem v))
       = Some (range_message v).
Proof.
  intros Hwf Hv.
  destruct (submit_run pg Hwf) as (pg1 & commands & Hag & _ & _ & Hmsg & _ & _ & Hrun).
  rewrite (first_failure_fails _ _ Hv) in Hrun. cbn [negb] in Hrun.
  eexists. split; [exact Hrun |]. cbn [Page.alerts Page.console].
  repeat apply conj; try reflexivity.
  - intros id Hid. exact (Hag id Hid).
  - exact (Hmsg v Hv).
Qed.

(** X9.  When every check passes and both electrodes are in the table, the
    submit handler shows one potential in two places: the text of the
    results and the label of the diagram carry the same four-decimal text,
    the one [calculateCellPotential] returns for the values of the form.  The
    canvas is cleared in full before the drawing, both elements are made
    visible, nothing is logged and no alert is shown, and no other element
    changes but for validation messages. *)
Theorem submit_shows_potential (pg : Page.t) (pa pc : float) :
  well_formed pg ->
  forallb (passes pg) validations = true ->
  tabled (text pg "anode") pa ->
  tabled (text pg "cathode") pc ->
  exists pg' commands,
    submit log_approx Math_atan2 Math_cos Math_sin pg = (Normal tt, pg')
    /\ returns (calculateCellPotential log_approx) (call (environment_of pg) (params_of pg))
         (potential_of log_approx pg)
    /\ Page.alerts pg' = Page.alerts pg
    /\ Page.console pg' = Page.console pg
    /\ agree_but_validity ["results"; "galvanicCellDiagram"]%string pg pg'
    /\ (exists r, element pg' "results" = Some r
                  /\ Element.innerHTML r = results_of pg (potential_of log_approx pg)
                  /\ In "visible"%string (Element.classList r))
    /\ (exists c c', element pg "galvanicCellDiagram" = Some c
                     /\ element pg' "galvanicCellDiagram" = Some c'
                     /\ Element.context c' = (Element.context c ++ commands)%list
                     /\ hd_error commands
                        = Some (clearRect 0 0 (Element.width c) (Element.height c))
                     /\ In "visible"%string (Element.classList c'))
    /\ labels commands
       = [ (text pg "anode" ++ " | " ++ text pg "anode" ++ "n⁺ (Anode)")%string;
           (text pg "cathode" ++ "m⁺ | " ++ text pg "cathode" ++ " (Cathode)")%string;
           ("E°cell = " ++ potential_of log_approx pg ++ " V")%string;
           "e⁻"%string ].
Proof.
  intros Hwf Hpass Ha Hc.
  destruct (submit_run pg Hwf)
    as (pg1 & commands & Hag & Hcon & Hal & _ & Hclear & Hlabels & Hrun).
  rewrite Hpass, (tabled_lookup _ _ Ha), (tabled_lookup _ _ Hc) in Hrun.
  cbn [negb ToBoolean orb] in Hrun.
  assert ((Number.parseFloat (text pg "conc_cathode") =? 0) = false) as Hzero.
  { apply in_range_not_zero. unfold validations in Hpass. cbn [forallb] in Hpass.
    rewrite !andb_true_iff in Hpass. destruct Hpass as (_ & H & _). exact H. }
  eexists. exists commands. split; [exact Hrun |].
  rewrite !alerts_assigned, !console_assigned.
  repeat apply conj; try assumption.
  - unfold returns, potential_of.
    rewrite (calculateCellPotential_tabled log_approx _ pa pc) by assumption.
    cbn [params call]. unfold params_of at 1. cbn [SimulationParameters.concCathode].
    now rewrite Hzero.
  - apply (agree_trans _ _ _ _ (agree_weaken _ _ _ Hag)).
    repeat (eapply agree_trans; [| apply agree_assigned; left; cbn; tauto]).
    apply agree_refl.
  - pose proof (agree_present _ _ "results" Hag (Hwf "results"%string ltac:(cbn; tauto))) as Hr.
    destruct (element pg1 "results") as [r |] eqn:Er; [clear Hr | congruence].
    eexists. split.
    + rewrite (element_assigned_other "galvanicCellDiagram" "results") by reflexivity.
      rewrite element_assigned_same.
      rewrite (element_assigned_other "galvanicCellDiagram" "results") by reflexivity.
      rewrite element_assigned_same, Er. reflexivity.
    + split; [| apply classList_add_In].
      now rewrite (proj1 (classList_add_same _ _)).
  - pose proof (Hwf "galvanicCellDiagram" ltac:(cbn; tauto)) as Hc0.
    destruct (element pg "galvanicCellDiagram") as [c |] eqn:Ec; [clear Hc0 | congruence].
    pose proof (Hag "galvanicCellDiagram" (fun F => F)) as Hsame. rewrite Ec in Hsame.
    destruct (element pg1 "galvanicCellDiagram") as [c1 |] eqn:Ec1; [| contradiction].
    exists c. eexists. split; [reflexivity |]. split.
    + rewrite element_assigned_same.
      rewrite (element_assigned_other "results" "galvanicCellDiagram") by reflexivity.
      rewrite element_assigned_same.
      rewrite (element_assigned_other "results" "galvanicCellDiagram") by reflexivity.
      rewrite Ec1. reflexivity.
    + repeat apply conj.
      * rewrite (proj2 (classList_add_same _ _)). unfold drawn. cbn [Element.context Element.with_context].
        destruct (same_but_validity_canvas _ _ Hsame) as (_ & _ & ->). reflexivity.
      * now apply Hclear.
      * apply classList_add_In.
Qed.

(** X10.  On a page that has the elements of the form the submit handler
    always completes normally, and it shows at most one alert, one of two:
    "Validation failed" when a check fails, "Invalid electrode materials"
    when the checks pass and an electrode finds nothing in the table.  The
    third error of the engine, "Cathode concentration cannot be zero", is
    never reported: the check of the cathode concentration excludes zero. *)
Theorem submit_alerts (pg : Page.t) :
  well_formed pg ->
  let found name := ToBoolean (lookup STANDARD_REDUCTION_POTENTIALS name) in
  let valid := forallb (passes pg) validations in
  let electrodes := found (text pg "anode") && found (text pg "cathode") in
  exists pg',
    submit log_approx Math_atan2 Math_cos Math_sin pg = (Normal tt, pg')
    /\ Page.alerts pg'
       = (Page.alerts pg
          ++ (if negb valid then ["Error during simulation: Validation failed"%string]
              else if negb electrodes
                   then ["Error during simulation: Invalid electrode materials"%string]
                   else []))%list.
Proof.
  intros Hwf found valid electrodes.
  destruct (submit_run pg Hwf) as (pg1 & commands & _ & _ & Hal & _ & _ & _ & Hrun).
  eexists. split; [exact Hrun |].
  subst valid electrodes found. cbv beta.
  destruct (forallb (passes pg) validations); cbn [negb]; [| reflexivity].
  rewrite negb_andb.
  destruct (negb _ || negb _); [reflexivity |].
  rewrite !alerts_assigned, app_nil_r. exact Hal.
Qed.

(** The results shown when the checks pass and the electrodes find
    something in the table. *)
Lemma submit_results (pg : Page.t) :
  well_formed pg ->
  forallb (passes pg) validations = true ->
  negb (ToBoolean (lookup STANDARD_REDUCTION_POTENTIALS (text pg "anode")))
  || negb (ToBoolean (lookup STANDARD_REDUCTION_POTENTIALS (text pg "cathode"))) = false ->
  exists pg' r,
    submit log_approx Math_atan2 Math_cos Math_sin pg = (Normal tt, pg')
    /\ Page.alerts pg' = Page.alerts pg
    /\ element pg' "results" = Some r
    /\ Element.innerHTML r = results_of pg (potential_of log_approx pg).
Proof.
  intros Hwf Hpass Hvalid.
  destruct (submit_run pg Hwf) as (pg1 & commands & Hag & _ & Hal & _ & _ & _ & Hrun).
  rewrite Hpass, Hvalid in Hrun. cbn [negb] in Hrun.
  pose proof (agree_present _ _ "results" Hag (Hwf "results"%string ltac:(cbn; tauto))) as Hr.
  destruct (element pg1 "results") as [r |] eqn:Er; [clear Hr | congruence].
  eexists. eexists. split; [exact Hrun |].
  rewrite !alerts_assigned. split; [exact Hal |]. split.
  - rewrite (element_assigned_other "galvanicCellDiagram" "results") by reflexivity.
    rewrite element_assigned_same.
    rewrite (element_assigned_other "galvanicCellDiagram" "results") by reflexivity.
    rewrite element_assigned_same, Er. reflexivity.
  - now rewrite (proj1 (classList_add_same _ _)).
Qed.

(** X11.  The pH is read but not checked.  When its field holds no number
    (it is empty, say) while the checks pass and both electrodes are in the
    table, the submit handler shows no alert: the results give the potential
    as "NaN". *)
Theorem submit_without_ph (pg : Page.t) (pa pc : float) :
  well_formed pg ->
  forallb (passes pg) validations = true ->
  tabled (text pg "anode") pa ->
  tabled (text pg "cathode") pc ->
  is_nan (Number.parseFloat (text pg "ph")) = true ->
  exists pg' r,
    submit log_approx Math_atan2 Math_cos Math_sin pg = (Normal tt, pg')
    /\ Page.alerts pg' = Page.alerts pg
    /\ element pg' "results" = Some r
    /\ Element.innerHTML r = results_of pg "NaN".
Proof.
  intros Hwf Hpass Ha Hc Hph.
  destruct (submit_results pg Hwf Hpass) as (pg' & r & Hrun & Hal & Hr & Hhtml).
  { now rewrite (tabled_lookup _ _ Ha), (tabled_lookup _ _ Hc). }
  exists pg', r. repeat apply conj; try assumption.
  rewrite Hhtml. f_equal. unfold potential_of.
  rewrite (cell_sum_nan log_approx _ pa pc); [vm_compute; reflexivity | exact Ha | exact Hc |].
  right; right; left. exact Hph.
Qed.
End Submit.

(** X7.  [validateInput] judges a field by the number its text begins with:
    after a run of digits, whatever follows that is no digit, "." or exponent
    ("5 apples", "5,2") is ignored, and the field is accepted or refused as
    the digits alone would be. *)
Theorem validateInput_reads_prefix (pg : Page.t) (id : string) (e : Element.t)
    (min max : float) (name digits rest : string) :
  element pg id = Some e ->
  Element.value e = (digits ++ rest)%string ->
  digits <> EmptyString -> all_digits digits = true -> stops rest = true ->
  returns (validateInput (Some id) min max name) pg
    (in_range (Number.parseFloat digits) min max).
Proof.
  intros He Hv Hne Hd Hs. unfold returns.
  rewrite (validateInput_run _ _ _ _ _ _ He). cbv zeta. cbn [fst].
  now rewrite Hv, (parseFloat_digits_then _ _ Hne Hd Hs).
Qed.

(** *** The theorems on pages at a form *)

Lemma form_well_formed (mode anode cathode concAnode concCathode molesReactant temperature
    pressure solvent catalyst ph : string) :
  well_formed
    (form mode anode cathode concAnode concCathode molesReactant temperature pressure
       solvent catalyst ph).
Proof.
  intros id Hid. unfold submit_ids in Hid. cbn [In] in Hid.
  repeat (destruct Hid as [<- | Hid]; [vm_compute; discriminate |]). contradiction.
Qed.

(** X7 at a temperature followed by its unit. *)
Lemma validateInput_reads_prefix_witness :
  returns (validateInput (Some "temperature"%string) 0 100 "Temperature")
    (form "1" "Zn" "Cu" "1" "1" "1" "25 degrees" "1" "Water" "" "7")
    (in_range (Number.parseFloat "25") 0 100).
Proof.
  apply (validateInput_reads_prefix
           (form "1" "Zn" "Cu" "1" "1" "1" "25 degrees" "1" "Water" "" "7")
           "temperature" (input "25 degrees") 0 100 "Temperature" "25" " degrees");
    [ reflexivity | reflexivity | discriminate | reflexivity | reflexivity ].
Defined.

(** X8 at an anode concentration of zero. *)
Lemma submit_validation_failure_witness :
  exists pg',
    submit Math.log_series (fun _ _ => 0) (fun _ => 1) (fun _ => 0)
      (form "1" "Zn" "Cu" "0" "1" "1" "25" "1" "Water" "" "7")
    = (Normal tt, pg')
    /\ Page.alerts pg' = ["Error during simulation: Validation failed"%string]
    /\ Page.console pg'
       = [("Simulation error:"%string, mkError "Error" "Validation failed")]
    /\ agree_but_validity [] (form "1" "Zn" "Cu" "0" "1" "1" "25" "1" "Water" "" "7") pg'
    /\ option_map Element.validationMessage (element pg' "conc_anode")
       = Some "Anode concentration must be between 0.001 and 10"%string.
Proof.
  apply (submit_validation_failure Math.log_series (fun _ _ => 0) (fun _ => 1) (fun _ => 0)
           (form "1" "Zn" "Cu" "0" "1" "1" "25" "1" "Water" "" "7")
           (Validation.new "conc_anode" 0.001 10 "Anode concentration"));
    [ apply form_well_formed | vm_compute; reflexivity ].
Defined.

(** X9 at zinc and copper, 0.5 M and 2 M. *)
Lemma submit_shows_potential_witness :
  exists pg' commands,
    submit Math.log_series (fun _ _ => 0) (fun _ => 1) (fun _ => 0)
      (form "1" "Zn" "Cu" "0.5" "2" "1" "25" "1" "Water" "" "7")
    = (Normal tt, pg')
    /\ labels commands
       = [ "Zn | Znn⁺ (Anode)"; "Cum⁺ | Cu (Cathode)";
           ("E°cell = "
            ++ potential_of Math.log_series
                 (form "1" "Zn" "Cu" "0.5" "2" "1" "25" "1" "Water" "" "7")
            ++ " V");
           "e⁻" ]%string.
Proof.
  destruct (submit_shows_potential Math.log_series (fun _ _ => 0) (fun _ => 1) (fun _ => 0)
              (form "1" "Zn" "Cu" "0.5" "2" "1" "25" "1" "Water" "" "7") (-0.76) 0.34
              (form_well_formed _ _ _ _ _ _ _ _ _ _ _) eq_refl eq_refl eq_refl)
    as (pg' & commands & Hrun & _ & _ & _ & _ & _ & _ & Hlabels).
  exists pg', commands. split; [exact Hrun | exact Hlabels].
Defined.

(** X10 at an electrode that is not in the table. *)
Lemma submit_alerts_witness :
  exists pg',
    submit Math.log_series (fun _ _ => 0) (fun _ => 1) (fun _ => 0)
      (form "1" "Xx" "Cu" "1" "1" "1" "25" "1" "Water" "" "7")
    = (Normal tt, pg')
    /\ Page.alerts pg' = ["Error during simulation: Invalid electrode materials"%string].
Proof.
  apply (submit_alerts Math.log_series (fun _ _ => 0) (fun _ => 1) (fun _ => 0)
           (form "1" "Xx" "Cu" "1" "1" "1" "25" "1" "Water" "" "7")
           (form_well_formed _ _ _ _ _ _ _ _ _ _ _)).
Defined.

(** White space of any kind before a number is skipped, as [parseFloat]
    does: with an em space (U+2003) before the temperature and a no-break
    space (U+00A0) before the pH the checks pass and the potential is that of
    25 degrees Celsius and pH 7. *)
Example potential_after_white_space :
  let pg :=
    form "1" "Zn" "Cu" "1" "1" "1" (String "226" (String "128" (String "131" "25"))) "1"
      "Water" "" (String "194" (String "160" "7")) in
  forallb (passes pg) validations = true
  /\ first_failure pg = None
  /\ potential_of Math.log_series pg = "1.1000"%string.
Proof. repeat apply conj; vm_compute; reflexivity. Qed.

(** X11 at an empty pH. *)
Lemma submit_without_ph_witness :
  exists pg' r,
    submit Math.log_series (fun _ _ => 0) (fun _ => 1) (fun _ => 0)
      (form "1" "Zn" "Cu" "1" "1" "1" "25" "1" "Water" "" "")
    = (Normal tt, pg')
    /\ Page.alerts pg' = []
    /\ element pg' "results" = Some r
    /\ Element.innerHTML r
       = results_of (form "1" "Zn" "Cu" "1" "1" "1" "25" "1" "Water" "" "") "NaN".
Proof.
  apply (submit_without_ph Math.log_series (fun _ _ => 0) (fun _ => 1) (fun _ => 0)
           (form "1" "Zn" "Cu" "1" "1" "1" "25" "1" "Water" "" "") (-0.76) 0.34
           (form_well_formed _ _ _ _ _ _ _ _ _ _ _));
    vm_compute; reflexivity.
Defined.

(** *** Presets *)

Lemma update_absent (id : string) (f : Element.t -> Element.t)
    (l : list (string * Element.t)) :
  Page.find id l = None -> Page.update id f l = l.
Proof.
  induction l as [| [i e] l IH]; cbn [Page.find Page.update]; [reflexivity |].
  destruct (i =? id)%string; [discriminate |]. intros H. now rewrite IH.
Qed.

(** The callback of [loadPreset] never fails: a field that is not there is
    passed over. *)
Lemma loadPreset_step (key text : string) (pg : Page.t) :
  bind (Page.getElementById key)
    (fun element =>
       match element with
       | Some _ => Page.set element (Element.with_value text)
       | None => ret tt
       end) pg
  = (Normal tt, assigned key (Element.with_value text) pg).
Proof.
  unfold bind, Page.getElementById, read, Page.set, ret, assigned.
  destruct (Page.find key (Page.elements pg)) eqn:E; rewrite ?E; [reflexivity |].
  rewrite (update_absent _ _ _ E). now destruct pg.
Qed.

Lemma loadPreset_forEach (preset : list (string * string)) :
  forall pg : Page.t,
    forEach
      (fun '(key, text) =>
         bind (Page.getElementById key)
           (fun element =>
              match element with
              | Some _ => Page.set element (Element.with_value text)
              | None => ret tt
              end))
      preset pg
    = (Normal tt, filled preset pg).
Proof.
  induction preset as [| [key text] preset IH]; intros pg; [reflexivity |].
  cbn [forEach]. rewrite (bind_run _ _ _ _ _ (loadPreset_step key text pg)).
  apply IH.
Qed.

Lemma loadPreset_run (presetName : string) (pg : Page.t) :
  loadPreset presetName pg
  = (Normal tt,
     match own_preset PRESETS presetName with
     | Some preset => filled preset pg
     | None => pg
     end).
Proof.
  unfold loadPreset.
  destruct (own_preset PRESETS presetName) as [preset |].
  - apply loadPreset_forEach.
  - destruct (existsb (String.eqb presetName) ObjectPrototype); reflexivity.
Qed.

Lemma filled_log (preset : list (string * string)) :
  forall pg, Page.console (filled preset pg) = Page.console pg
             /\ Page.alerts (filled preset pg) = Page.alerts pg.
Proof.
  induction preset as [| [key text] preset IH]; intros pg; [now split |].
  unfold filled. cbn [fold_left]. fold (filled preset (assigned key (Element.with_value text) pg)).
  destruct (IH (assigned key (Element.with_value text) pg)) as [-> ->]. now split.
Qed.

(** With keys that do not repeat, each field of the preset gets its text
    and nothing else changes. *)
Lemma filled_element (preset : list (string * string)) :
  NoDup (map fst preset) ->
  forall pg id,
    element (filled preset pg) id
    = option_map (fun e => match preset_text preset id with
                           | Some text => Element.with_value text e
                           | None => e
                           end) (element pg id).
Proof.
  induction preset as [| [key text] preset IH]; intros Hnd pg id.
  - cbn. now destruct (element pg id).
  - inversion Hnd as [| k ks Hnotin Hnd']; subst.
    unfold filled. cbn [fold_left].
    fold (filled preset (assigned key (Element.with_value text) pg)).
    rewrite (IH Hnd'), element_assigned. cbn [preset_text].
    destruct (String.eqb_spec key id) as [<- | Hne].
    + assert (preset_text preset key = None) as ->.
      { clear -Hnotin. induction preset as [| [k t] preset IH]; [reflexivity |].
        cbn [preset_text]. cbn [map fst In] in Hnotin.
        destruct (String.eqb_spec k key) as [-> | _]; [tauto |]. apply IH. tauto. }
      now destruct (element pg key).
    + reflexivity.
Qed.

Lemma own_preset_cases (presetName : string) (preset : list (string * string)) :
  own_preset PRESETS presetName = Some preset ->
  (presetName = "zinc_copper"%string \/ presetName = "silver_lead"%string)
  /\ NoDup (map fst preset).
Proof.
  unfold PRESETS. cbn [own_preset].
  destruct (String.eqb_spec "zinc_copper" presetName) as [<- | _];
    [| destruct (String.eqb_spec "silver_lead" presetName) as [<- | _]; [| discriminate]];
    intros [= <-]; (split; [tauto |]); cbn [map fst];
    repeat (constructor; [cbn [In]; intros H; decompose [or] H; discriminate || assumption |]);
    constructor.
Qed.

(** X12.  [loadPreset] never fails, whatever the name and whatever the page:
    a field that is missing is passed over.  It writes nothing to the console
    and shows no alert.  For a key of [PRESETS] each field of the preset that
    is on the page gets the preset's text as its value; every other element,
    and every other property, stays as it was.  Any other name, those that
    [Object.prototype] answers ("constructor", "toString") included, leaves
    the page as it was. *)
Theorem loadPreset_fills (presetName : string) (pg : Page.t) :
  exists pg',
    loadPreset presetName pg = (Normal tt, pg')
    /\ Page.console pg' = Page.console pg
    /\ Page.alerts pg' = Page.alerts pg
    /\ (forall id,
          element pg' id
          = option_map (fun e => match preset_field presetName id with
                                 | Some text => Element.with_value text e
                                 | None => e
                                 end) (element pg id))
    /\ (own_preset PRESETS presetName = None -> pg' = pg).
Proof.
  eexists. split; [apply loadPreset_run |].
  unfold preset_field.
  destruct (own_preset PRESETS presetName) as [preset |] eqn:E.
  - destruct (own_preset_cases _ _ E) as [_ Hnd].
    destruct (filled_log preset pg) as [Hc Ha].
    repeat apply conj; try assumption; [| discriminate].
    intros id. apply (filled_element _ Hnd).
  - repeat apply conj; try reflexivity.
    intros id. now destruct (element pg id).
Qed.

Lemma filled_text (preset : list (string * string)) (pg : Page.t) (id text' : string) :
  NoDup (map fst preset) -> element pg id <> None ->
  preset_text preset id = Some text' ->
  text (filled preset pg) id = text'.
Proof.
  intros Hnd Hp Ht. unfold text. rewrite (filled_element _ Hnd), Ht.
  destruct (element pg id); [reflexivity | congruence].
Qed.

Lemma filled_well_formed (preset : list (string * string)) (pg : Page.t) :
  NoDup (map fst preset) -> well_formed pg -> well_formed (filled preset pg).
Proof.
  intros Hnd Hwf id Hid. rewrite (filled_element _ Hnd).
  specialize (Hwf id Hid). destruct (element pg id); [discriminate | congruence].
Qed.

Section Presets.
Variable log_approx : float -> float.
Variable Math_atan2 : float -> float -> float.
Variable Math_cos Math_sin : float -> float.

(** X13.  Each preset of the code gives a form that passes: on a page that
    has the elements of the form, loading a preset and submitting shows no
    alert, whatever the fields held before, and the results give 1.1000 V for
    zinc and copper, 0.9300 V for lead and silver, the difference of the
    standard potentials. *)
Theorem preset_then_submit (pg : Page.t) (presetName anode cathode potential : string) :
  well_formed pg ->
  In (presetName, (anode, cathode, potential))
    [ ("zinc_copper", ("Zn", "Cu", "1.1000")); ("silver_lead", ("Pb", "Ag", "0.9300")) ]%string ->
  exists pg' r,
    bind (loadPreset presetName)
      (fun _ => submit log_approx Math_atan2 Math_cos Math_sin) pg
    = (Normal tt, pg')
    /\ Page.alerts pg' = Page.alerts pg
    /\ element pg' "results" = Some r
    /\ Element.innerHTML r
       = results_html potential (getHalfReactions anode cathode)
           (getReactionSummary anode cathode 1 1).
Proof.
  intros Hwf Hin.
  rewrite (bind_run _ _ _ _ _ (loadPreset_run presetName pg)).
  cbn [In] in Hin. destruct Hin as [[= <- <- <- <-] | [[= <- <- <- <-] | []]].
  all: match goal with
       | |- context [own_preset PRESETS ?n] =>
           destruct (own_preset PRESETS n) as [preset |] eqn:E; [| discriminate E];
           destruct (own_preset_cases _ _ E) as [_ Hnd];
           vm_compute in E; injection E as <-
       end.
  all: match goal with
       | |- context [filled ?p ?pg0] =>
           pose proof (filled_well_formed p pg0 Hnd Hwf) as Hwf1;
           assert (forall id t, In id submit_ids -> preset_text p id = Some t ->
                                text (filled p pg0) id = t) as Htext
             by (intros id t Hid Ht; apply (filled_text _ _ _ _ Hnd (Hwf id Hid) Ht));
           pose proof (filled_log p pg0) as [_ Hal];
           set (pg1 := filled p pg0) in *
       end.
  all: assert (text pg1 "anode" = _) as Hanode
         by (apply Htext; [cbn; tauto | reflexivity]);
       assert (text pg1 "cathode" = _) as Hcathode
         by (apply Htext; [cbn; tauto | reflexivity]);
       assert (text pg1 "conc_anode" = _) as HconcAnode
         by (apply Htext; [cbn; tauto | reflexivity]);
       assert (text pg1 "conc_cathode" = _) as HconcCathode
         by (apply Htext; [cbn; tauto | reflexivity]);
       assert (text pg1 "moles_reactant" = _) as Hmoles
         by (apply Htext; [cbn; tauto | reflexivity]);
       assert (text pg1 "temperature" = _) as Htemperature
         by (apply Htext; [cbn; tauto | reflexivity]);
       assert (text pg1 "pressure" = _) as Hpressure
         by (apply Htext; [cbn; tauto | reflexivity]);
       assert (text pg1 "solvent" = _) as Hsolvent
         by (apply Htext; [cbn; tauto | reflexivity]);
       assert (text pg1 "catalyst" = _) as Hcatalyst
         by (apply Htext; [cbn; tauto | reflexivity]);
       assert (text pg1 "ph" = _) as Hph
         by (apply Htext; [cbn; tauto | reflexivity]).
  all: destruct (submit_results log_approx Math_atan2 Math_cos Math_sin pg1 Hwf1)
         as (pg' & r & Hrun & Hal' & Hr & Hhtml);
       [ unfold validations, passes; cbn [forallb Validation.elem Validation.min Validation.max];
         rewrite HconcAnode, HconcCathode, Htemperature, Hpressure; vm_compute; reflexivity
       | rewrite Hanode, Hcathode; vm_compute; reflexivity
       | exists pg', r; repeat apply conj;
         [ exact Hrun | now rewrite Hal' | exact Hr | ] ].
  all: rewrite Hhtml; unfold results_of, potential_of, params_of, environment_of;
       rewrite Hanode, Hcathode, HconcAnode, HconcCathode, Hmoles, Htemperature, Hpressure,
         Hsolvent, Hcatalyst, Hph;
       vm_compute; reflexivity.
Qed.
End Presets.

(** *** The start button *)

Lemma assign_value_run (id text' : string) (pg : Page.t) :
  element pg id <> None ->
  assign_value id text' pg = (Normal tt, assigned id (Element.with_value text') pg).
Proof.
  intros H. unfold assign_value.
  rewrite (bind_run _ _ _ _ _ (getElementById_present _ _ H)).
  now apply set_assigned.
Qed.

Lemma text_assigned (id id' : string) (f : Element.t -> Element.t) (pg : Page.t) :
  text (assigned id f pg) id'
  = if (id =? id')%string
    then match element pg id' with
         | Some e => Element.value (f e)
         | None => EmptyString
         end
    else text pg id'.
Proof.
  unfold text. rewrite element_assigned.
  destruct (id =? id')%string; [| reflexivity]. now destruct (element pg id').
Qed.

Lemma get_value_run (id : string) (pg : Page.t) :
  element pg id <> None -> Page.get (Some id) Element.value pg = (Normal (text pg id), pg).
Proof.
  unfold text. destruct (element pg id) as [e |] eqn:E; [| congruence].
  intros _. exact (get_run _ _ _ _ E).
Qed.

(** In auto mode the start button fills in the fields that are checked. *)
Lemma start_auto_run (pg : Page.t) :
  well_formed pg -> element pg "inputParameters" <> None -> text pg "mode" = "2"%string ->
  exists pg1,
    start pg = (Normal tt, pg1)
    /\ well_formed pg1
    /\ Page.alerts pg1 = Page.alerts pg
    /\ forallb (passes pg1) validations = true
    /\ text pg1 "anode" = text pg "anode"
    /\ text pg1 "cathode" = text pg "cathode".
Proof.
  intros Hwf Hinput Hmode.
  assert (forall id, In id ("inputParameters"%string :: submit_ids) -> element pg id <> None)
    as Hp by (intros id [<- | Hid]; [exact Hinput | now apply Hwf]).
  unfold start.
  rewrite (bind_run _ _ _ _ _ (getElementById_present _ _ (Hp "mode"%string ltac:(cbn; tauto)))).
  rewrite (bind_run _ _ _ _ _ (get_value_run _ _ (Hp "mode"%string ltac:(cbn; tauto)))).
  rewrite Hmode. cbn [String.eqb Ascii.eqb Bool.eqb].
  repeat (erewrite bind_run;
          [| first [ apply getElementById_present | apply set_assigned | apply assign_value_run ];
             repeat apply present_assigned; apply Hp; cbn; tauto ]).
  rewrite assign_value_run by (repeat apply present_assigned; apply Hp; cbn; tauto).
  eexists. split; [reflexivity |].
  repeat apply conj.
  - intros id Hid. repeat apply present_assigned. now apply Hwf.
  - reflexivity.
  - unfold validations, passes.
    cbn [forallb Validation.elem Validation.min Validation.max].
    rewrite !text_assigned. simpl (String.eqb _ _).
    rewrite !element_assigned. simpl (String.eqb _ _).
    destruct (element pg "conc_anode") eqn:E1; [| now apply Hwf in E1; [| cbn; tauto]].
    destruct (element pg "conc_cathode") eqn:E2; [| now apply Hwf in E2; [| cbn; tauto]].
    destruct (element pg "temperature") eqn:E3; [| now apply Hwf in E3; [| cbn; tauto]].
    destruct (element pg "pressure") eqn:E4; [| now apply Hwf in E4; [| cbn; tauto]].
    vm_compute. reflexivity.
  - rewrite !text_assigned. reflexivity.
  - rewrite !text_assigned. reflexivity.
Qed.

Lemma classList_remove_not_In (token : string) (e : Element.t) :
  ~ In token (Element.classList (Element.classList_remove token e)).
Proof.
  unfold Element.classList_remove. cbn [Element.classList Element.with_classList].
  intros H. apply filter_In in H as [_ H]. now rewrite String.eqb_refl in H.
Qed.

(** X15.  Whatever the mode, the start button hides what an earlier
    simulation showed: on a page that has the elements it refers to, it
    completes normally, the results and the diagram are not visible
    afterwards, the input parameters are displayed, and the electrodes, the
    solvent and the catalyst are as they were. *)
Theorem start_hides_results (pg : Page.t) :
  well_formed pg -> element pg "inputParameters" <> None ->
  exists pg1,
    start pg = (Normal tt, pg1)
    /\ (exists r d i,
          element pg1 "results" = Some r /\ ~ In "visible"%string (Element.classList r)
          /\ element pg1 "galvanicCellDiagram" = Some d
          /\ ~ In "visible"%string (Element.classList d)
          /\ element pg1 "inputParameters" = Some i /\ Element.display i = "block"%string)
    /\ (forall id, In id ["anode"; "cathode"; "solvent"; "catalyst"]%string ->
          text pg1 id = text pg id).
Proof.
  intros Hwf Hinput.
  assert (forall id, In id ("inputParameters"%string :: submit_ids) -> element pg id <> None)
    as Hp by (intros id [<- | Hid]; [exact Hinput | now apply Hwf]).
  destruct (element pg "results") as [r |] eqn:Er;
    [| now apply Hwf in Er; [| cbn; tauto]].
  destruct (element pg "galvanicCellDiagram") as [d |] eqn:Ed;
    [| now apply Hwf in Ed; [| cbn; tauto]].
  destruct (element pg "inputParameters") as [i |] eqn:Ei; [| congruence].
  assert (exists pg1, start pg = (Normal tt, pg1)
                      /\ element pg1 "results" = Some (Element.classList_remove "visible" r)
                      /\ element pg1 "galvanicCellDiagram"
                         = Some (Element.classList_remove "visible" d)
                      /\ element pg1 "inputParameters" = Some (Element.with_display "block" i)
                      /\ (forall id, In id ["anode"; "cathode"; "solvent"; "catalyst"]%string ->
                            text pg1 id = text pg id)) as (pg1 & Hrun & Hr & Hd & Hi & Ht).
  { unfold start.
    rewrite (bind_run _ _ _ _ _
               (getElementById_present _ _ (Hp "mode"%string ltac:(cbn; tauto)))).
    rewrite (bind_run _ _ _ _ _ (get_value_run _ _ (Hp "mode"%string ltac:(cbn; tauto)))).
    repeat (erewrite bind_run;
            [| first [ apply getElementById_present | apply set_assigned ];
               repeat apply present_assigned; apply Hp; cbn; tauto ]).
    destruct (text pg "mode" =? "2")%string; [| destruct (text pg "mode" =? "3")%string].
    all: repeat (erewrite bind_run;
                 [| first [ apply set_assigned | apply assign_value_run ];
                    repeat apply present_assigned; apply Hp; cbn; tauto ]).
    all: first [ rewrite assign_value_run
                   by (repeat apply present_assigned; apply Hp; cbn; tauto)
               | rewrite set_assigned
                   by (repeat apply present_assigned; apply Hp; cbn; tauto) ].
    all: eexists; split; [reflexivity |].
    all: repeat apply conj;
      [ rewrite !element_assigned; simpl (String.eqb _ _); now rewrite Er
      | rewrite !element_assigned; simpl (String.eqb _ _); now rewrite Ed
      | rewrite !element_assigned; simpl (String.eqb _ _); now rewrite Ei
      | intros id Hid; cbn [In] in Hid;
        repeat (destruct Hid as [<- | Hid]; [rewrite !text_assigned; reflexivity |]);
        contradiction ]. }
  exists pg1. split; [exact Hrun |]. split; [| exact Ht].
  eexists. eexists. eexists. repeat apply conj; try eassumption.
  - apply classList_remove_not_In.
  - apply classList_remove_not_In.
  - reflexivity.
Qed.

Section Start.
Variable log_approx : float -> float.
Variable Math_atan2 : float -> float -> float.
Variable Math_cos Math_sin : float -> float.

(** X14.  In auto mode the start button fills in the four fields that are
    checked with texts that pass, so a submit right after it never reports a
    failed validation: the only alert it can show is the one for an electrode
    that finds nothing in the table. *)
Theorem start_auto_then_submit (pg : Page.t) :
  well_formed pg -> element pg "inputParameters" <> None -> text pg "mode" = "2"%string ->
  let found name := ToBoolean (lookup STANDARD_REDUCTION_POTENTIALS name) in
  exists pg',
    bind start (fun _ => submit log_approx Math_atan2 Math_cos Math_sin) pg = (Normal tt, pg')
    /\ Page.alerts pg'
       = (Page.alerts pg
          ++ (if found (text pg "anode") && found (text pg "cathode") then []
              else ["Error during simulation: Invalid electrode materials"%string]))%list.
Proof.
  intros Hwf Hinput Hmode found.
  destruct (start_auto_run pg Hwf Hinput Hmode)
    as (pg1 & Hstart & Hwf1 & Hal1 & Hpass & Ha & Hc).
  rewrite (bind_run _ _ _ _ _ Hstart).
  destruct (submit_run log_approx Math_atan2 Math_cos Math_sin pg1 Hwf1)
    as (pg2 & commands & _ & _ & Hal2 & _ & _ & _ & Hrun).
  rewrite Hpass, Ha, Hc in Hrun. cbn [negb] in Hrun.
  eexists. split; [exact Hrun |].
  subst found. cbv beta.
  destruct (ToBoolean (lookup STANDARD_REDUCTION_POTENTIALS (text pg "anode")));
    destruct (ToBoolean (lookup STANDARD_REDUCTION_POTENTIALS (text pg "cathode")));
    cbn [negb orb andb Page.alerts]; rewrite ?alerts_assigned, ?app_nil_r; congruence.
Qed.
End Start.

(** *** The toggle of the environmental settings *)

Lemma toggle_run (pg : Page.t) (settings : Element.t) :
  element pg "environmentalSettings" = Some settings ->
  element pg "toggleEnvSettings" <> None ->
  toggle pg
  = (Normal tt,
     if (Element.display settings =? "none")%string
     then assigned "toggleEnvSettings" (Element.with_textContent "Hide Environmental Settings")
            (assigned "environmentalSettings" (Element.with_display "block") pg)
     else assigned "toggleEnvSettings" (Element.with_textContent "Show Environmental Settings")
            (assigned "environmentalSettings" (Element.with_display "none") pg)).
Proof.
  intros Hs Hb. unfold toggle.
  rewrite (bind_run _ _ _ _ _ (getElementById_run _ _ _ Hs)).
  rewrite (bind_run _ _ _ _ _ (get_run _ _ _ _ Hs)).
  assert (element pg "environmentalSettings" <> None) as Hs' by congruence.
  destruct (Element.display settings =? "none")%string;
    rewrite (bind_run _ _ _ _ _ (set_assigned _ _ _ Hs'));
    rewrite set_assigned by (now apply present_assigned); reflexivity.
Qed.

(** X16.  The toggle alternates between two states and its label names what
    the next click does: after a click the settings are displayed with the
    label "Hide Environmental Settings", or hidden with the label "Show
    Environmental Settings"; they are displayed exactly when they were hidden
    before; a second click gives the other state; and no other element
    changes. *)
Theorem toggle_alternates (pg : Page.t) :
  element pg "environmentalSettings" <> None ->
  element pg "toggleEnvSettings" <> None ->
  let shown := Some ("block", "Hide Environmental Settings")%string in
  let hidden := Some ("none", "Show Environmental Settings")%string in
  exists pg1 pg2,
    toggle pg = (Normal tt, pg1)
    /\ toggle pg1 = (Normal tt, pg2)
    /\ (option_map fst (panel pg) = Some "none"%string -> panel pg1 = shown /\ panel pg2 = hidden)
    /\ (option_map fst (panel pg) <> Some "none"%string -> panel pg1 = hidden /\ panel pg2 = shown)
    /\ (forall id, id <> "environmentalSettings"%string -> id <> "toggleEnvSettings"%string ->
          element pg1 id = element pg id /\ element pg2 id = element pg id).
Proof.
  intros Hs Hb shown hidden.
  destruct (element pg "environmentalSettings") as [s |] eqn:Es; [clear Hs | congruence].
  destruct (element pg "toggleEnvSettings") as [b |] eqn:Eb; [clear Hb | congruence].
  assert (element pg "toggleEnvSettings" <> None) as Hb by congruence.
  assert (forall (d t : string) (pg0 : Page.t),
            element pg0 "environmentalSettings" <> None ->
            element pg0 "toggleEnvSettings" <> None ->
            let pg1 := assigned "toggleEnvSettings" (Element.with_textContent t)
                         (assigned "environmentalSettings" (Element.with_display d) pg0) in
            panel pg1 = Some (d, t)
            /\ element pg1 "environmentalSettings" <> None
            /\ element pg1 "toggleEnvSettings" <> None
            /\ (forall id, id <> "environmentalSettings"%string ->
                  id <> "toggleEnvSettings"%string -> element pg1 id = element pg0 id)
            /\ exists s1, element pg1 "environmentalSettings" = Some s1
                          /\ Element.display s1 = d) as Hstate.
  { intros d t pg0 H0s H0b pg1. subst pg1. unfold panel.
    rewrite !element_assigned. simpl (String.eqb _ _).
    destruct (element pg0 "environmentalSettings") as [s0 |]; [| congruence].
    destruct (element pg0 "toggleEnvSettings") as [b0 |]; [| congruence].
    repeat apply conj; try reflexivity; try discriminate.
    - intros id H1 H2. rewrite !element_assigned.
      destruct (String.eqb_spec "toggleEnvSettings" id); [congruence |].
      destruct (String.eqb_spec "environmentalSettings" id); [congruence | reflexivity].
    - eexists. split; reflexivity. }
  rewrite (toggle_run pg s Es Hb).
  assert (option_map fst (panel pg) = Some (Element.display s)) as ->
    by (unfold panel; now rewrite Es, Eb).
  destruct (String.eqb_spec (Element.display s) "none") as [Hd | Hd].
  - destruct (Hstate "block" "Hide Environmental Settings" pg)%string
      as (Hp1 & H1s & H1b & Hsame1 & s1 & E1 & D1); [congruence | congruence |].
    destruct (Hstate "none" "Show Environmental Settings" _ H1s H1b)%string
      as (Hp2 & _ & _ & Hsame2 & _).
    eexists. eexists. split; [reflexivity |].
    split; [rewrite (toggle_run _ s1 E1 H1b), D1; simpl (String.eqb _ _); reflexivity |].
    split; [| split].
    + intros _. split; [exact Hp1 | exact Hp2].
    + intros H. exfalso. apply H. now rewrite Hd.
    + intros id H1 H2. split; [| rewrite Hsame2 by assumption]; apply Hsame1; assumption.
  - destruct (Hstate "none" "Show Environmental Settings" pg)%string
      as (Hp1 & H1s & H1b & Hsame1 & s1 & E1 & D1); [congruence | congruence |].
    destruct (Hstate "block" "Hide Environmental Settings" _ H1s H1b)%string
      as (Hp2 & _ & _ & Hsame2 & _).
    eexists. eexists. split; [reflexivity |].
    split; [rewrite (toggle_run _ s1 E1 H1b), D1; simpl (String.eqb _ _); reflexivity |].
    split; [| split].
    + intros [= H]. congruence.
    + intros _. split; [exact Hp1 | exact Hp2].
    + intros id H1 H2. split; [| rewrite Hsame2 by assumption]; apply Hsame1; assumption.
Qed.

(** X14 at a form in auto mode whose fields are empty. *)
Lemma start_auto_then_submit_witness :
  exists pg',
    bind start (fun _ => submit Math.log_series (fun _ _ => 0) (fun _ => 1) (fun _ => 0))
      (form "2" "Zn" "Cu" "" "" "" "" "" "Water" "" "")
    = (Normal tt, pg')
    /\ Page.alerts pg' = [].
Proof.
  apply (start_auto_then_submit Math.log_series (fun _ _ => 0) (fun _ => 1) (fun _ => 0)
           (form "2" "Zn" "Cu" "" "" "" "" "" "Water" "" "")
           (form_well_formed _ _ _ _ _ _ _ _ _ _ _));
    [ vm_compute; discriminate | reflexivity ].
Defined.

(** X15 at a form in manual mode. *)
Lemma start_hides_results_witness :
  exists pg1,
    start (form "1" "Zn" "Cu" "1" "1" "1" "25" "1" "Water" "" "7") = (Normal tt, pg1)
    /\ (exists r d i,
          element pg1 "results" = Some r /\ ~ In "visible"%string (Element.classList r)
          /\ element pg1 "galvanicCellDiagram" = Some d
          /\ ~ In "visible"%string (Element.classList d)
          /\ element pg1 "inputParameters" = Some i /\ Element.display i = "block"%string)
    /\ (forall id, In id ["anode"; "cathode"; "solvent"; "catalyst"]%string ->
          text pg1 id = text (form "1" "Zn" "Cu" "1" "1" "1" "25" "1" "Water" "" "7") id).
Proof.
  apply (start_hides_results (form "1" "Zn" "Cu" "1" "1" "1" "25" "1" "Water" "" "7")
           (form_well_formed _ _ _ _ _ _ _ _ _ _ _)).
  vm_compute. discriminate.
Defined.

(** X16 at a form whose settings are hidden. *)
Lemma toggle_alternates_witness :
  exists pg1 pg2,
    toggle (form "1" "Zn" "Cu" "1" "1" "1" "25" "1" "Water" "" "7") = (Normal tt, pg1)
    /\ toggle pg1 = (Normal tt, pg2)
    /\ panel pg1 = Some ("block", "Hide Environmental Settings")%string
    /\ panel pg2 = Some ("none", "Show Environmental Settings")%string.
Proof.
  destruct (toggle_alternates (form "1" "Zn" "Cu" "1" "1" "1" "25" "1" "Water" "" "7"))
    as (pg1 & pg2 & H1 & H2 & Hshown & _);
    [ vm_compute; discriminate | vm_compute; discriminate |].
  exists pg1, pg2. split; [exact H1 |]. split; [exact H2 |].
  apply Hshown. reflexivity.
Defined.

(** X13 at the preset of lead and silver, on a form whose fields are empty. *)
Lemma preset_then_submit_witness :
  exists pg' r,
    bind (loadPreset "silver_lead")
      (fun _ => submit Math.log_series (fun _ _ => 0) (fun _ => 1) (fun _ => 0))
      (form "1" "" "" "" "" "" "" "" "" "" "")
    = (Normal tt, pg')
    /\ Page.alerts pg' = []
    /\ element pg' "results" = Some r
    /\ Element.innerHTML r
       = results_html "0.9300" (getHalfReactions "Pb" "Ag") (getReactionSummary "Pb" "Ag" 1 1).
Proof.
  apply (preset_then_submit Math.log_series (fun _ _ => 0) (fun _ => 1) (fun _ => 0)
           (form "1" "" "" "" "" "" "" "" "" "" "") "silver_lead" "Pb" "Ag" "0.9300"
           (form_well_formed _ _ _ _ _ _ _ _ _ _ _)).
  right. left. reflexivity.
Defined.
